(** * barcode-scanner: the recognition pipeline of lambda-barcode-api

    A shallow embedding of
      - services/barcode_scanner.py  (MultiFormatBarcodeScanner),
      - services/provider_parser.py  (ProviderParser),
      - services/image_processor.py  (ImageProcessor),
      - utils/constants.py           (PROVIDERS, IMAGE_PROCESSING),
      - utils/validation.py          (the validators of a request),
      - utils/response.py, handlers/scan.py  (the single-image handler),
    followed by the properties the specification states about them and by
    further properties of the code.

    Conventions.
      - A Python [str] is the [string] of the bytes of its UTF-8 encoding
        (a lone surrogate being written on three bytes like any code point
        of its range), so that two [str] are equal exactly when their
        [string]s are.  [PyStr.units] cuts a [string] into its characters,
        and the character predicates are those of CPython 3.11 (Unicode
        14.0), kept as tables of ranges of code points.  Bytes that encode
        no character stand for a code that is in no table.
      - A Python [float] is a primitive binary64 float, so that sums such as
        [0.5 + 0.3 + 0.2] round exactly as they do in CPython.
      - Regular expressions are kept as the source's pattern strings and run
        by a small matcher for the fragment the source uses.
      - Library calls that may raise (PIL, OpenCV, the decode engines) return
        a [result]. *)

From Stdlib Require Import ZArith List Ascii String Bool Lia.
From Stdlib.Strings Require Import Byte.
From Stdlib Require Import Uint63 PrimFloat SpecFloat FloatOps.
From stdpp Require Import gmap strings sorting pretty.
Import ListNotations.

Set Warnings "-inexact-float".
Set Default Proof Using "Type".
Local Open Scope string_scope.
Local Open Scope list_scope.

(** ** Python built-ins on [str] *)

Module PyStr.

(** The value of a byte. *)
Definition code (a : ascii) : N := N_of_ascii a.

Definition between (lo hi c : N) : bool := ((lo <=? c) && (c <=? hi))%N.

(** Membership in a table of ranges of code points, bounds included. *)
Definition in_ranges (table : list (N * N)) (c : N) : bool :=
  existsb (fun r => between (fst r) (snd r) c) table.

(** *** The character tables (Unicode 14.0, as in CPython 3.11) *)

(** [str.isdecimal]: the general category Nd. *)
Definition decimal_ranges : list (N * N) :=
  [(48, 57); (1632, 1641); (1776, 1785); (1984, 1993); (2406, 2415);
   (2534, 2543); (2662, 2671); (2790, 2799); (2918, 2927); (3046, 3055);
   (3174, 3183); (3302, 3311); (3430, 3439); (3558, 3567); (3664, 3673);
   (3792, 3801); (3872, 3881); (4160, 4169); (4240, 4249); (6112, 6121);
   (6160, 6169); (6470, 6479); (6608, 6617); (6784, 6793); (6800, 6809);
   (6992, 7001); (7088, 7097); (7232, 7241); (7248, 7257); (42528, 42537);
   (43216, 43225); (43264, 43273); (43472, 43481); (43504, 43513);
   (43600, 43609); (44016, 44025); (65296, 65305); (66720, 66729);
   (68912, 68921); (69734, 69743); (69872, 69881); (69942, 69951);
   (70096, 70105); (70384, 70393); (70736, 70745); (70864, 70873);
   (71248, 71257); (71360, 71369); (71472, 71481); (71904, 71913);
   (72016, 72025); (72784, 72793); (73040, 73049); (73120, 73129);
   (92768, 92777); (92864, 92873); (93008, 93017); (120782, 120831);
   (123200, 123209); (123632, 123641); (125264, 125273); (130032, 130041)]%N.

(** [str.isdigit]: Nd and the characters of Numeric_Type Digit. *)
Definition digit_ranges : list (N * N) :=
  [(48, 57); (178, 179); (185, 185); (1632, 1641); (1776, 1785); (1984, 1993);
   (2406, 2415); (2534, 2543); (2662, 2671); (2790, 2799); (2918, 2927);
   (3046, 3055); (3174, 3183); (3302, 3311); (3430, 3439); (3558, 3567);
   (3664, 3673); (3792, 3801); (3872, 3881); (4160, 4169); (4240, 4249);
   (4969, 4977); (6112, 6121); (6160, 6169); (6470, 6479); (6608, 6618);
   (6784, 6793); (6800, 6809); (6992, 7001); (7088, 7097); (7232, 7241);
   (7248, 7257); (8304, 8304); (8308, 8313); (8320, 8329); (9312, 9320);
   (9332, 9340); (9352, 9360); (9450, 9450); (9461, 9469); (9471, 9471);
   (10102, 10110); (10112, 10120); (10122, 10130); (42528, 42537);
   (43216, 43225); (43264, 43273); (43472, 43481); (43504, 43513);
   (43600, 43609); (44016, 44025); (65296, 65305); (66720, 66729);
   (68160, 68163); (68912, 68921); (69216, 69224); (69714, 69722);
   (69734, 69743); (69872, 69881); (69942, 69951); (70096, 70105);
   (70384, 70393); (70736, 70745); (70864, 70873); (71248, 71257);
   (71360, 71369); (71472, 71481); (71904, 71913); (72016, 72025);
   (72784, 72793); (73040, 73049); (73120, 73129); (92768, 92777);
   (92864, 92873); (93008, 93017); (120782, 120831); (123200, 123209);
   (123632, 123641); (125264, 125273); (127232, 127242); (130032, 130041)]%N.

(** [str.isspace] *)
Definition space_ranges : list (N * N) :=
  [(9, 13); (28, 32); (133, 133); (160, 160); (5760, 5760); (8192, 8202);
   (8232, 8233); (8239, 8239); (8287, 8287); (12288, 12288)]%N.

(** [str.isprintable]: all but the categories Other and Separator, the
    ASCII space excepted. *)
Definition printable_ranges : list (N * N) :=
  [(32, 126); (161, 172); (174, 887); (890, 895); (900, 906); (908, 908);
   (910, 929); (931, 1327); (1329, 1366); (1369, 1418); (1421, 1423);
   (1425, 1479); (1488, 1514); (1519, 1524); (1542, 1563); (1565, 1756);
   (1758, 1805); (1808, 1866); (1869, 1969); (1984, 2042); (2045, 2093);
   (2096, 2110); (2112, 2139); (2142, 2142); (2144, 2154); (2160, 2190);
   (2200, 2273); (2275, 2435); (2437, 2444); (2447, 2448); (2451, 2472);
   (2474, 2480); (2482, 2482); (2486, 2489); (2492, 2500); (2503, 2504);
   (2507, 2510); (2519, 2519); (2524, 2525); (2527, 2531); (2534, 2558);
   (2561, 2563); (2565, 2570); (2575, 2576); (2579, 2600); (2602, 2608);
   (2610, 2611); (2613, 2614); (2616, 2617); (2620, 2620); (2622, 2626);
   (2631, 2632); (2635, 2637); (2641, 2641); (2649, 2652); (2654, 2654);
   (2662, 2678); (2689, 2691); (2693, 2701); (2703, 2705); (2707, 2728);
   (2730, 2736); (2738, 2739); (2741, 2745); (2748, 2757); (2759, 2761);
   (2763, 2765); (2768, 2768); (2784, 2787); (2790, 2801); (2809, 2815);
   (2817, 2819); (2821, 2828); (2831, 2832); (2835, 2856); (2858, 2864);
   (2866, 2867); (2869, 2873); (2876, 2884); (2887, 2888); (2891, 2893);
   (2901, 2903); (2908, 2909); (2911, 2915); (2918, 2935); (2946, 2947);
   (2949, 2954); (2958, 2960); (2962, 2965); (2969, 2970); (2972, 2972);
   (2974, 2975); (2979, 2980); (2984, 2986); (2990, 3001); (3006, 3010);
   (3014, 3016); (3018, 3021); (3024, 3024); (3031, 3031); (3046, 3066);
   (3072, 3084); (3086, 3088); (3090, 3112); (3114, 3129); (3132, 3140);
   (3142, 3144); (3146, 3149); (3157, 3158); (3160, 3162); (3165, 3165);
   (3168, 3171); (3174, 3183); (3191, 3212); (3214, 3216); (3218, 3240);
   (3242, 3251); (3253, 3257); (3260, 3268); (3270, 3272); (3274, 3277);
   (3285, 3286); (3293, 3294); (3296, 3299); (3302, 3311); (3313, 3314);
   (3328, 3340); (3342, 3344); (3346, 3396); (3398, 3400); (3402, 3407);
   (3412, 3427); (3430, 3455); (3457, 3459); (3461, 3478); (3482, 3505);
   (3507, 3515); (3517, 3517); (3520, 3526); (3530, 3530); (3535, 3540);
   (3542, 3542); (3544, 3551); (3558, 3567); (3570, 3572); (3585, 3642);
   (3647, 3675); (3713, 3714); (3716, 3716); (3718, 3722); (3724, 3747);
   (3749, 3749); (3751, 3773); (3776, 3780); (3782, 3782); (3784, 3789);
   (3792, 3801); (3804, 3807); (3840, 3911); (3913, 3948); (3953, 3991);
   (3993, 4028); (4030, 4044); (4046, 4058); (4096, 4293); (4295, 4295);
   (4301, 4301); (4304, 4680); (4682, 4685); (4688, 4694); (4696, 4696);
   (4698, 4701); (4704, 4744); (4746, 4749); (4752, 4784); (4786, 4789);
   (4792, 4798); (4800, 4800); (4802, 4805); (4808, 4822); (4824, 4880);
   (4882, 4885); (4888, 4954); (4957, 4988); (4992, 5017); (5024, 5109);
   (5112, 5117); (5120, 5759); (5761, 5788); (5792, 5880); (5888, 5909);
   (5919, 5942); (5952, 5971); (5984, 5996); (5998, 6000); (6002, 6003);
   (6016, 6109); (6112, 6121); (6128, 6137); (6144, 6157); (6159, 6169);
   (6176, 6264); (6272, 6314); (6320, 6389); (6400, 6430); (6432, 6443);
   (6448, 6459); (6464, 6464); (6468, 6509); (6512, 6516); (6528, 6571);
   (6576, 6601); (6608, 6618); (6622, 6683); (6686, 6750); (6752, 6780);
   (6783, 6793); (6800, 6809); (6816, 6829); (6832, 6862); (6912, 6988);
   (6992, 7038); (7040, 7155); (7164, 7223); (7227, 7241); (7245, 7304);
   (7312, 7354); (7357, 7367); (7376, 7418); (7424, 7957); (7960, 7965);
   (7968, 8005); (8008, 8013); (8016, 8023); (8025, 8025); (8027, 8027);
   (8029, 8029); (8031, 8061); (8064, 8116); (8118, 8132); (8134, 8147);
   (8150, 8155); (8157, 8175); (8178, 8180); (8182, 8190); (8208, 8231);
   (8240, 8286); (8304, 8305); (8308, 8334); (8336, 8348); (8352, 8384);
   (8400, 8432); (8448, 8587); (8592, 9254); (9280, 9290); (9312, 11123);
   (11126, 11157); (11159, 11507); (11513, 11557); (11559, 11559);
   (11565, 11565); (11568, 11623); (11631, 11632); (11647, 11670);
   (11680, 11686); (11688, 11694); (11696, 11702); (11704, 11710);
   (11712, 11718); (11720, 11726); (11728, 11734); (11736, 11742);
   (11744, 11869); (11904, 11929); (11931, 12019); (12032, 12245);
   (12272, 12283); (12289, 12351); (12353, 12438); (12441, 12543);
   (12549, 12591); (12593, 12686); (12688, 12771); (12784, 12830);
   (12832, 42124); (42128, 42182); (42192, 42539); (42560, 42743);
   (42752, 42954); (42960, 42961); (42963, 42963); (42965, 42969);
   (42994, 43052); (43056, 43065); (43072, 43127); (43136, 43205);
   (43214, 43225); (43232, 43347); (43359, 43388); (43392, 43469);
   (43471, 43481); (43486, 43518); (43520, 43574); (43584, 43597);
   (43600, 43609); (43612, 43714); (43739, 43766); (43777, 43782);
   (43785, 43790); (43793, 43798); (43808, 43814); (43816, 43822);
   (43824, 43883); (43888, 44013); (44016, 44025); (44032, 55203);
   (55216, 55238); (55243, 55291); (63744, 64109); (64112, 64217);
   (64256, 64262); (64275, 64279); (64285, 64310); (64312, 64316);
   (64318, 64318); (64320, 64321); (64323, 64324); (64326, 64450);
   (64467, 64911); (64914, 64967); (64975, 64975); (65008, 65049);
   (65056, 65106); (65108, 65126); (65128, 65131); (65136, 65140);
   (65142, 65276); (65281, 65470); (65474, 65479); (65482, 65487);
   (65490, 65495); (65498, 65500); (65504, 65510); (65512, 65518);
   (65532, 65533); (65536, 65547); (65549, 65574); (65576, 65594);
   (65596, 65597); (65599, 65613); (65616, 65629); (65664, 65786);
   (65792, 65794); (65799, 65843); (65847, 65934); (65936, 65948);
   (65952, 65952); (66000, 66045); (66176, 66204); (66208, 66256);
   (66272, 66299); (66304, 66339); (66349, 66378); (66384, 66426);
   (66432, 66461); (66463, 66499); (66504, 66517); (66560, 66717);
   (66720, 66729); (66736, 66771); (66776, 66811); (66816, 66855);
   (66864, 66915); (66927, 66938); (66940, 66954); (66956, 66962);
   (66964, 66965); (66967, 66977); (66979, 66993); (66995, 67001);
   (67003, 67004); (67072, 67382); (67392, 67413); (67424, 67431);
   (67456, 67461); (67463, 67504); (67506, 67514); (67584, 67589);
   (67592, 67592); (67594, 67637); (67639, 67640); (67644, 67644);
   (67647, 67669); (67671, 67742); (67751, 67759); (67808, 67826);
   (67828, 67829); (67835, 67867); (67871, 67897); (67903, 67903);
   (67968, 68023); (68028, 68047); (68050, 68099); (68101, 68102);
   (68108, 68115); (68117, 68119); (68121, 68149); (68152, 68154);
   (68159, 68168); (68176, 68184); (68192, 68255); (68288, 68326);
   (68331, 68342); (68352, 68405); (68409, 68437); (68440, 68466);
   (68472, 68497); (68505, 68508); (68521, 68527); (68608, 68680);
   (68736, 68786); (68800, 68850); (68858, 68903); (68912, 68921);
   (69216, 69246); (69248, 69289); (69291, 69293); (69296, 69297);
   (69376, 69415); (69424, 69465); (69488, 69513); (69552, 69579);
   (69600, 69622); (69632, 69709); (69714, 69749); (69759, 69820);
   (69822, 69826); (69840, 69864); (69872, 69881); (69888, 69940);
   (69942, 69959); (69968, 70006); (70016, 70111); (70113, 70132);
   (70144, 70161); (70163, 70206); (70272, 70278); (70280, 70280);
   (70282, 70285); (70287, 70301); (70303, 70313); (70320, 70378);
   (70384, 70393); (70400, 70403); (70405, 70412); (70415, 70416);
   (70419, 70440); (70442, 70448); (70450, 70451); (70453, 70457);
   (70459, 70468); (70471, 70472); (70475, 70477); (70480, 70480);
   (70487, 70487); (70493, 70499); (70502, 70508); (70512, 70516);
   (70656, 70747); (70749, 70753); (70784, 70855); (70864, 70873);
   (71040, 71093); (71096, 71133); (71168, 71236); (71248, 71257);
   (71264, 71276); (71296, 71353); (71360, 71369); (71424, 71450);
   (71453, 71467); (71472, 71494); (71680, 71739); (71840, 71922);
   (71935, 71942); (71945, 71945); (71948, 71955); (71957, 71958);
   (71960, 71989); (71991, 71992); (71995, 72006); (72016, 72025);
   (72096, 72103); (72106, 72151); (72154, 72164); (72192, 72263);
   (72272, 72354); (72368, 72440); (72704, 72712); (72714, 72758);
   (72760, 72773); (72784, 72812); (72816, 72847); (72850, 72871);
   (72873, 72886); (72960, 72966); (72968, 72969); (72971, 73014);
   (73018, 73018); (73020, 73021); (73023, 73031); (73040, 73049);
   (73056, 73061); (73063, 73064); (73066, 73102); (73104, 73105);
   (73107, 73112); (73120, 73129); (73440, 73464); (73648, 73648);
   (73664, 73713); (73727, 74649); (74752, 74862); (74864, 74868);
   (74880, 75075); (77712, 77810); (77824, 78894); (82944, 83526);
   (92160, 92728); (92736, 92766); (92768, 92777); (92782, 92862);
   (92864, 92873); (92880, 92909); (92912, 92917); (92928, 92997);
   (93008, 93017); (93019, 93025); (93027, 93047); (93053, 93071);
   (93760, 93850); (93952, 94026); (94031, 94087); (94095, 94111);
   (94176, 94180); (94192, 94193); (94208, 100343); (100352, 101589);
   (101632, 101640); (110576, 110579); (110581, 110587); (110589, 110590);
   (110592, 110882); (110928, 110930); (110948, 110951); (110960, 111355);
   (113664, 113770); (113776, 113788); (113792, 113800); (113808, 113817);
   (113820, 113823); (118528, 118573); (118576, 118598); (118608, 118723);
   (118784, 119029); (119040, 119078); (119081, 119154); (119163, 119274);
   (119296, 119365); (119520, 119539); (119552, 119638); (119648, 119672);
   (119808, 119892); (119894, 119964); (119966, 119967); (119970, 119970);
   (119973, 119974); (119977, 119980); (119982, 119993); (119995, 119995);
   (119997, 120003); (120005, 120069); (120071, 120074); (120077, 120084);
   (120086, 120092); (120094, 120121); (120123, 120126); (120128, 120132);
   (120134, 120134); (120138, 120144); (120146, 120485); (120488, 120779);
   (120782, 121483); (121499, 121503); (121505, 121519); (122624, 122654);
   (122880, 122886); (122888, 122904); (122907, 122913); (122915, 122916);
   (122918, 122922); (123136, 123180); (123184, 123197); (123200, 123209);
   (123214, 123215); (123536, 123566); (123584, 123641); (123647, 123647);
   (124896, 124902); (124904, 124907); (124909, 124910); (124912, 124926);
   (124928, 125124); (125127, 125142); (125184, 125259); (125264, 125273);
   (125278, 125279); (126065, 126132); (126209, 126269); (126464, 126467);
   (126469, 126495); (126497, 126498); (126500, 126500); (126503, 126503);
   (126505, 126514); (126516, 126519); (126521, 126521); (126523, 126523);
   (126530, 126530); (126535, 126535); (126537, 126537); (126539, 126539);
   (126541, 126543); (126545, 126546); (126548, 126548); (126551, 126551);
   (126553, 126553); (126555, 126555); (126557, 126557); (126559, 126559);
   (126561, 126562); (126564, 126564); (126567, 126570); (126572, 126578);
   (126580, 126583); (126585, 126588); (126590, 126590); (126592, 126601);
   (126603, 126619); (126625, 126627); (126629, 126633); (126635, 126651);
   (126704, 126705); (126976, 127019); (127024, 127123); (127136, 127150);
   (127153, 127167); (127169, 127183); (127185, 127221); (127232, 127405);
   (127462, 127490); (127504, 127547); (127552, 127560); (127568, 127569);
   (127584, 127589); (127744, 128727); (128733, 128748); (128752, 128764);
   (128768, 128883); (128896, 128984); (128992, 129003); (129008, 129008);
   (129024, 129035); (129040, 129095); (129104, 129113); (129120, 129159);
   (129168, 129197); (129200, 129201); (129280, 129619); (129632, 129645);
   (129648, 129652); (129656, 129660); (129664, 129670); (129680, 129708);
   (129712, 129722); (129728, 129733); (129744, 129753); (129760, 129767);
   (129776, 129782); (129792, 129938); (129940, 129994); (130032, 130041);
   (131072, 173791); (173824, 177976); (177984, 178205); (178208, 183969);
   (183984, 191456); (194560, 195101); (196608, 201546); (917760, 917999)]%N.

(** [str.isalpha]: the categories L*. *)
Definition alpha_ranges : list (N * N) :=
  [(65, 90); (97, 122); (170, 170); (181, 181); (186, 186); (192, 214);
   (216, 246); (248, 705); (710, 721); (736, 740); (748, 748); (750, 750);
   (880, 884); (886, 887); (890, 893); (895, 895); (902, 902); (904, 906);
   (908, 908); (910, 929); (931, 1013); (1015, 1153); (1162, 1327);
   (1329, 1366); (1369, 1369); (1376, 1416); (1488, 1514); (1519, 1522);
   (1568, 1610); (1646, 1647); (1649, 1747); (1749, 1749); (1765, 1766);
   (1774, 1775); (1786, 1788); (1791, 1791); (1808, 1808); (1810, 1839);
   (1869, 1957); (1969, 1969); (1994, 2026); (2036, 2037); (2042, 2042);
   (2048, 2069); (2074, 2074); (2084, 2084); (2088, 2088); (2112, 2136);
   (2144, 2154); (2160, 2183); (2185, 2190); (2208, 2249); (2308, 2361);
   (2365, 2365); (2384, 2384); (2392, 2401); (2417, 2432); (2437, 2444);
   (2447, 2448); (2451, 2472); (2474, 2480); (2482, 2482); (2486, 2489);
   (2493, 2493); (2510, 2510); (2524, 2525); (2527, 2529); (2544, 2545);
   (2556, 2556); (2565, 2570); (2575, 2576); (2579, 2600); (2602, 2608);
   (2610, 2611); (2613, 2614); (2616, 2617); (2649, 2652); (2654, 2654);
   (2674, 2676); (2693, 2701); (2703, 2705); (2707, 2728); (2730, 2736);
   (2738, 2739); (2741, 2745); (2749, 2749); (2768, 2768); (2784, 2785);
   (2809, 2809); (2821, 2828); (2831, 2832); (2835, 2856); (2858, 2864);
   (2866, 2867); (2869, 2873); (2877, 2877); (2908, 2909); (2911, 2913);
   (2929, 2929); (2947, 2947); (2949, 2954); (2958, 2960); (2962, 2965);
   (2969, 2970); (2972, 2972); (2974, 2975); (2979, 2980); (2984, 2986);
   (2990, 3001); (3024, 3024); (3077, 3084); (3086, 3088); (3090, 3112);
   (3114, 3129); (3133, 3133); (3160, 3162); (3165, 3165); (3168, 3169);
   (3200, 3200); (3205, 3212); (3214, 3216); (3218, 3240); (3242, 3251);
   (3253, 3257); (3261, 3261); (3293, 3294); (3296, 3297); (3313, 3314);
   (3332, 3340); (3342, 3344); (3346, 3386); (3389, 3389); (3406, 3406);
   (3412, 3414); (3423, 3425); (3450, 3455); (3461, 3478); (3482, 3505);
   (3507, 3515); (3517, 3517); (3520, 3526); (3585, 3632); (3634, 3635);
   (3648, 3654); (3713, 3714); (3716, 3716); (3718, 3722); (3724, 3747);
   (3749, 3749); (3751, 3760); (3762, 3763); (3773, 3773); (3776, 3780);
   (3782, 3782); (3804, 3807); (3840, 3840); (3904, 3911); (3913, 3948);
   (3976, 3980); (4096, 4138); (4159, 4159); (4176, 4181); (4186, 4189);
   (4193, 4193); (4197, 4198); (4206, 4208); (4213, 4225); (4238, 4238);
   (4256, 4293); (4295, 4295); (4301, 4301); (4304, 4346); (4348, 4680);
   (4682, 4685); (4688, 4694); (4696, 4696); (4698, 4701); (4704, 4744);
   (4746, 4749); (4752, 4784); (4786, 4789); (4792, 4798); (4800, 4800);
   (4802, 4805); (4808, 4822); (4824, 4880); (4882, 4885); (4888, 4954);
   (4992, 5007); (5024, 5109); (5112, 5117); (5121, 5740); (5743, 5759);
   (5761, 5786); (5792, 5866); (5873, 5880); (5888, 5905); (5919, 5937);
   (5952, 5969); (5984, 5996); (5998, 6000); (6016, 6067); (6103, 6103);
   (6108, 6108); (6176, 6264); (6272, 6276); (6279, 6312); (6314, 6314);
   (6320, 6389); (6400, 6430); (6480, 6509); (6512, 6516); (6528, 6571);
   (6576, 6601); (6656, 6678); (6688, 6740); (6823, 6823); (6917, 6963);
   (6981, 6988); (7043, 7072); (7086, 7087); (7098, 7141); (7168, 7203);
   (7245, 7247); (7258, 7293); (7296, 7304); (7312, 7354); (7357, 7359);
   (7401, 7404); (7406, 7411); (7413, 7414); (7418, 7418); (7424, 7615);
   (7680, 7957); (7960, 7965); (7968, 8005); (8008, 8013); (8016, 8023);
   (8025, 8025); (8027, 8027); (8029, 8029); (8031, 8061); (8064, 8116);
   (8118, 8124); (8126, 8126); (8130, 8132); (8134, 8140); (8144, 8147);
   (8150, 8155); (8160, 8172); (8178, 8180); (8182, 8188); (8305, 8305);
   (8319, 8319); (8336, 8348); (8450, 8450); (8455, 8455); (8458, 8467);
   (8469, 8469); (8473, 8477); (8484, 8484); (8486, 8486); (8488, 8488);
   (8490, 8493); (8495, 8505); (8508, 8511); (8517, 8521); (8526, 8526);
   (8579, 8580); (11264, 11492); (11499, 11502); (11506, 11507);
   (11520, 11557); (11559, 11559); (11565, 11565); (11568, 11623);
   (11631, 11631); (11648, 11670); (11680, 11686); (11688, 11694);
   (11696, 11702); (11704, 11710); (11712, 11718); (11720, 11726);
   (11728, 11734); (11736, 11742); (11823, 11823); (12293, 12294);
   (12337, 12341); (12347, 12348); (12353, 12438); (12445, 12447);
   (12449, 12538); (12540, 12543); (12549, 12591); (12593, 12686);
   (12704, 12735); (12784, 12799); (13312, 19903); (19968, 42124);
   (42192, 42237); (42240, 42508); (42512, 42527); (42538, 42539);
   (42560, 42606); (42623, 42653); (42656, 42725); (42775, 42783);
   (42786, 42888); (42891, 42954); (42960, 42961); (42963, 42963);
   (42965, 42969); (42994, 43009); (43011, 43013); (43015, 43018);
   (43020, 43042); (43072, 43123); (43138, 43187); (43250, 43255);
   (43259, 43259); (43261, 43262); (43274, 43301); (43312, 43334);
   (43360, 43388); (43396, 43442); (43471, 43471); (43488, 43492);
   (43494, 43503); (43514, 43518); (43520, 43560); (43584, 43586);
   (43588, 43595); (43616, 43638); (43642, 43642); (43646, 43695);
   (43697, 43697); (43701, 43702); (43705, 43709); (43712, 43712);
   (43714, 43714); (43739, 43741); (43744, 43754); (43762, 43764);
   (43777, 43782); (43785, 43790); (43793, 43798); (43808, 43814);
   (43816, 43822); (43824, 43866); (43868, 43881); (43888, 44002);
   (44032, 55203); (55216, 55238); (55243, 55291); (63744, 64109);
   (64112, 64217); (64256, 64262); (64275, 64279); (64285, 64285);
   (64287, 64296); (64298, 64310); (64312, 64316); (64318, 64318);
   (64320, 64321); (64323, 64324); (64326, 64433); (64467, 64829);
   (64848, 64911); (64914, 64967); (65008, 65019); (65136, 65140);
   (65142, 65276); (65313, 65338); (65345, 65370); (65382, 65470);
   (65474, 65479); (65482, 65487); (65490, 65495); (65498, 65500);
   (65536, 65547); (65549, 65574); (65576, 65594); (65596, 65597);
   (65599, 65613); (65616, 65629); (65664, 65786); (66176, 66204);
   (66208, 66256); (66304, 66335); (66349, 66368); (66370, 66377);
   (66384, 66421); (66432, 66461); (66464, 66499); (66504, 66511);
   (66560, 66717); (66736, 66771); (66776, 66811); (66816, 66855);
   (66864, 66915); (66928, 66938); (66940, 66954); (66956, 66962);
   (66964, 66965); (66967, 66977); (66979, 66993); (66995, 67001);
   (67003, 67004); (67072, 67382); (67392, 67413); (67424, 67431);
   (67456, 67461); (67463, 67504); (67506, 67514); (67584, 67589);
   (67592, 67592); (67594, 67637); (67639, 67640); (67644, 67644);
   (67647, 67669); (67680, 67702); (67712, 67742); (67808, 67826);
   (67828, 67829); (67840, 67861); (67872, 67897); (67968, 68023);
   (68030, 68031); (68096, 68096); (68112, 68115); (68117, 68119);
   (68121, 68149); (68192, 68220); (68224, 68252); (68288, 68295);
   (68297, 68324); (68352, 68405); (68416, 68437); (68448, 68466);
   (68480, 68497); (68608, 68680); (68736, 68786); (68800, 68850);
   (68864, 68899); (69248, 69289); (69296, 69297); (69376, 69404);
   (69415, 69415); (69424, 69445); (69488, 69505); (69552, 69572);
   (69600, 69622); (69635, 69687); (69745, 69746); (69749, 69749);
   (69763, 69807); (69840, 69864); (69891, 69926); (69956, 69956);
   (69959, 69959); (69968, 70002); (70006, 70006); (70019, 70066);
   (70081, 70084); (70106, 70106); (70108, 70108); (70144, 70161);
   (70163, 70187); (70272, 70278); (70280, 70280); (70282, 70285);
   (70287, 70301); (70303, 70312); (70320, 70366); (70405, 70412);
   (70415, 70416); (70419, 70440); (70442, 70448); (70450, 70451);
   (70453, 70457); (70461, 70461); (70480, 70480); (70493, 70497);
   (70656, 70708); (70727, 70730); (70751, 70753); (70784, 70831);
   (70852, 70853); (70855, 70855); (71040, 71086); (71128, 71131);
   (71168, 71215); (71236, 71236); (71296, 71338); (71352, 71352);
   (71424, 71450); (71488, 71494); (71680, 71723); (71840, 71903);
   (71935, 71942); (71945, 71945); (71948, 71955); (71957, 71958);
   (71960, 71983); (71999, 71999); (72001, 72001); (72096, 72103);
   (72106, 72144); (72161, 72161); (72163, 72163); (72192, 72192);
   (72203, 72242); (72250, 72250); (72272, 72272); (72284, 72329);
   (72349, 72349); (72368, 72440); (72704, 72712); (72714, 72750);
   (72768, 72768); (72818, 72847); (72960, 72966); (72968, 72969);
   (72971, 73008); (73030, 73030); (73056, 73061); (73063, 73064);
   (73066, 73097); (73112, 73112); (73440, 73458); (73648, 73648);
   (73728, 74649); (74880, 75075); (77712, 77808); (77824, 78894);
   (82944, 83526); (92160, 92728); (92736, 92766); (92784, 92862);
   (92880, 92909); (92928, 92975); (92992, 92995); (93027, 93047);
   (93053, 93071); (93760, 93823); (93952, 94026); (94032, 94032);
   (94099, 94111); (94176, 94177); (94179, 94179); (94208, 100343);
   (100352, 101589); (101632, 101640); (110576, 110579); (110581, 110587);
   (110589, 110590); (110592, 110882); (110928, 110930); (110948, 110951);
   (110960, 111355); (113664, 113770); (113776, 113788); (113792, 113800);
   (113808, 113817); (119808, 119892); (119894, 119964); (119966, 119967);
   (119970, 119970); (119973, 119974); (119977, 119980); (119982, 119993);
   (119995, 119995); (119997, 120003); (120005, 120069); (120071, 120074);
   (120077, 120084); (120086, 120092); (120094, 120121); (120123, 120126);
   (120128, 120132); (120134, 120134); (120138, 120144); (120146, 120485);
   (120488, 120512); (120514, 120538); (120540, 120570); (120572, 120596);
   (120598, 120628); (120630, 120654); (120656, 120686); (120688, 120712);
   (120714, 120744); (120746, 120770); (120772, 120779); (122624, 122654);
   (123136, 123180); (123191, 123197); (123214, 123214); (123536, 123565);
   (123584, 123627); (124896, 124902); (124904, 124907); (124909, 124910);
   (124912, 124926); (124928, 125124); (125184, 125251); (125259, 125259);
   (126464, 126467); (126469, 126495); (126497, 126498); (126500, 126500);
   (126503, 126503); (126505, 126514); (126516, 126519); (126521, 126521);
   (126523, 126523); (126530, 126530); (126535, 126535); (126537, 126537);
   (126539, 126539); (126541, 126543); (126545, 126546); (126548, 126548);
   (126551, 126551); (126553, 126553); (126555, 126555); (126557, 126557);
   (126559, 126559); (126561, 126562); (126564, 126564); (126567, 126570);
   (126572, 126578); (126580, 126583); (126585, 126588); (126590, 126590);
   (126592, 126601); (126603, 126619); (126625, 126627); (126629, 126633);
   (126635, 126651); (131072, 173791); (173824, 177976); (177984, 178205);
   (178208, 183969); (183984, 191456); (194560, 195101); (196608, 201546)]%N.

(** [c.isdecimal()], which is also what [\d] matches in a [str] pattern. *)
Definition chr_isdecimal (c : N) : bool := in_ranges decimal_ranges c.

(** [c.isdigit()] *)
Definition chr_isdigit (c : N) : bool := in_ranges digit_ranges c.

(** [c.isspace()], which is also what [\s] matches and what [str.split()]
    splits on. *)
Definition chr_isspace (c : N) : bool := in_ranges space_ranges c.

(** [c.isprintable()] *)
Definition chr_isprintable (c : N) : bool := in_ranges printable_ranges c.

(** [c.isalpha()] *)
Definition chr_isalpha (c : N) : bool := in_ranges alpha_ranges c.

(** *** The characters of a string

    A character is written on one to four bytes; its first byte tells on
    how many. *)

(** What bytes that encode no character stand for: a code beyond the last
    code point, which is in none of the tables. *)
Definition no_char : N := 1114112.

(** A byte that continues a character. *)
Definition continues (b : N) : bool := between 128 191 b.

(** The number of bytes that follow the first byte [b] of a character. *)
Definition extra (b : N) : nat :=
  if between 192 223 b then 1
  else if between 224 239 b then 2
  else if between 240 247 b then 3
  else 0.

(** The code point that the bytes of one character encode.  Only the
    shortest encoding of a code point counts. *)
Definition code_point (bs : list N) : N :=
  match bs with
  | [b0] => if (b0 <? 128)%N then b0 else no_char
  | [b0; b1] =>
      let v := ((b0 - 192) * 64 + (b1 - 128))%N in
      if between 192 223 b0 && continues b1 && (128 <=? v)%N
      then v else no_char
  | [b0; b1; b2] =>
      let v := ((b0 - 224) * 4096 + (b1 - 128) * 64 + (b2 - 128))%N in
      if between 224 239 b0 && continues b1 && continues b2
         && (2048 <=? v)%N
      then v else no_char
  | [b0; b1; b2; b3] =>
      let v := ((b0 - 240) * 262144 + (b1 - 128) * 4096
                + (b2 - 128) * 64 + (b3 - 128))%N in
      if between 240 247 b0 && continues b1 && continues b2
         && continues b3 && (65536 <=? v)%N && (v <? no_char)%N
      then v else no_char
  | _ => no_char
  end.

(** The characters of [s], each with its bytes and its code point.
    [pending] holds the bytes read so far of the character being read, and
    [need] the number of bytes it still lacks. *)
Fixpoint scan (s : string) (pending : list ascii) (need : nat)
  : list (string * N) :=
  match s with
  | EmptyString =>
      match pending with
      | [] => []
      | _ => [(string_of_list_ascii pending, no_char)]
      end
  | String a s' =>
      match need with
      | O =>
          match extra (code a) with
          | O => (String a EmptyString, code_point [code a]) :: scan s' [] 0
          | S k => scan s' [a] (S k)
          end
      | S n =>
          let pending := app pending [a] in
          match n with
          | O =>
              (string_of_list_ascii pending, code_point (map code pending))
              :: scan s' [] 0
          | S _ => scan s' pending n
          end
      end
  end.

Definition units (s : string) : list (string * N) := scan s [] 0.

(** The string made of the given characters. *)
Definition text (us : list (string * N)) : string :=
  fold_right (fun u rest => String.append (fst u) rest) EmptyString us.

(** The code points of [s], in order. *)
Definition chars (s : string) : list N := map snd (units s).

Definition len (s : string) : nat := List.length (chars s).

(** Truth value of a [str]: the empty string is false. *)
Definition truthy (s : string) : bool :=
  match s with EmptyString => false | String _ _ => true end.

(** Truth value of an [Optional[str]]. *)
Definition opt_truthy (o : option string) : bool :=
  match o with None => false | Some s => truthy s end.

(** [s.isdigit()]: non-empty and every character a digit. *)
Definition isdigit (s : string) : bool :=
  truthy s && forallb chr_isdigit (chars s).

(** [s.isprintable()]: every character printable (true on the empty string). *)
Definition isprintable (s : string) : bool := forallb chr_isprintable (chars s).

(** [any(c.isalpha() for c in s)] *)
Definition any_isalpha (s : string) : bool := existsb chr_isalpha (chars s).

(** [c in s] for a one-character ASCII [c]. *)
Definition contains_chr (c : ascii) (s : string) : bool :=
  existsb (N.eqb (code c)) (chars s).

(** [s.startswith(p)]: a string starts with another when its bytes do. *)
Definition startswith (s p : string) : bool := String.prefix p s.

(** [s[n:]] *)
Definition slice_from (n : nat) (s : string) : string :=
  text (skipn n (units s)).

(** [s.split()]: the maximal runs of non-whitespace characters. *)
Fixpoint split_loop (cur : list (string * N)) (us : list (string * N))
  : list string :=
  match us with
  | [] =>
      match cur with
      | [] => []
      | _ => [text (rev cur)]
      end
  | u :: us' =>
      if chr_isspace (snd u) then
        match cur with
        | [] => split_loop [] us'
        | _ => text (rev cur) :: split_loop [] us'
        end
      else split_loop (u :: cur) us'
  end.

Definition split (s : string) : list string := split_loop [] (units s).

(** [x in l] for a list of strings. *)
Definition in_list (x : string) (l : list string) : bool :=
  existsb (String.eqb x) l.

End PyStr.

(** ** The fragment of [re] the source uses

    Every pattern of the source has the shape [^ p1 p2 ... pn $] where each
    [pi] is a literal character, an escape or a bracketed class, optionally
    followed by a counted repetition.  [compile] reads such a pattern string;
    [re_match] is [re.match(pattern, data)] turned into a truth value. *)

Module Re.

Inductive citem : Type :=
| CChar (c : ascii)           (* a literal character *)
| CRange (lo hi : ascii)      (* lo-hi inside brackets *)
| CDigit                      (* \d *)
| CSpace.                     (* \s *)

Definition cclass : Type := list citem.

Record piece : Type := Piece {
  p_class : cclass;
  p_min : nat;
  p_max : option nat          (* None: unbounded *)
}.

(** Whether the character of code point [c] is in the item.  The patterns
    of the source are written in ASCII, so a character of a pattern is one
    byte and its code point is the value of the byte. *)
Definition citem_matches (it : citem) (c : N) : bool :=
  match it with
  | CChar a => (PyStr.code a =? c)%N
  | CRange lo hi => PyStr.between (PyStr.code lo) (PyStr.code hi) c
  | CDigit => PyStr.chr_isdecimal c
  | CSpace => PyStr.chr_isspace c
  end.

Definition class_matches (cls : cclass) (c : N) : bool :=
  existsb (fun it => citem_matches it c) cls.

(** [take_class cls k s]: [s] without its first [k] characters when these
    all belong to [cls]. *)
Fixpoint take_class (cls : cclass) (k : nat) (s : list N)
  : option (list N) :=
  match k with
  | O => Some s
  | S k' =>
      match s with
      | [] => None
      | c :: s' => if class_matches cls c then take_class cls k' s' else None
      end
  end.

(** The repetition counts to try for a piece on a subject of length [n]. *)
Definition counts (p : piece) (n : nat) : list nat :=
  match p_max p with
  | Some hi => seq (p_min p) (S hi - p_min p)
  | None => seq (p_min p) (S n - p_min p)
  end.

(** [$] without MULTILINE: at the end of the subject, or just before a
    newline that ends it. *)
Definition at_end (s : list N) : bool :=
  match s with
  | [] => true
  | [c] => (c =? 10)%N
  | _ => false
  end.

Fixpoint match_pieces (ps : list piece) (s : list N) : bool :=
  match ps with
  | [] => at_end s
  | p :: ps' =>
      existsb
        (fun k =>
           match take_class (p_class p) k s with
           | Some rest => match_pieces ps' rest
           | None => false
           end)
        (counts p (List.length s))
  end.

(** *** Reading a pattern string *)

Definition escape (c : ascii) : citem :=
  if Ascii.eqb c "d" then CDigit
  else if Ascii.eqb c "s" then CSpace
  else CChar c.

(** The items of a bracketed class, up to the closing bracket. *)
Fixpoint read_class (fuel : nat) (s : list ascii)
  : option (cclass * list ascii) :=
  match fuel with
  | O => None
  | S fuel' =>
      match s with
      | [] => None
      | "]"%char :: rest => Some ([], rest)
      | "\"%char :: c :: rest =>
          match read_class fuel' rest with
          | Some (its, rest') => Some (escape c :: its, rest')
          | None => None
          end
      | lo :: "-"%char :: hi :: rest =>
          if Ascii.eqb hi "]" then
            match read_class fuel' ("-"%char :: hi :: rest) with
            | Some (its, rest') => Some (CChar lo :: its, rest')
            | None => None
            end
          else
            match read_class fuel' rest with
            | Some (its, rest') => Some (CRange lo hi :: its, rest')
            | None => None
            end
      | c :: rest =>
          match read_class fuel' rest with
          | Some (its, rest') => Some (CChar c :: its, rest')
          | None => None
          end
      end
  end.

Definition digit_val (c : ascii) : option nat :=
  if PyStr.between 48 57 (PyStr.code c)
  then Some (N.to_nat (PyStr.code c) - 48) else None.

(** A decimal number, with what follows it. *)
Fixpoint read_nat (acc : option nat) (s : list ascii)
  : option nat * list ascii :=
  match s with
  | [] => (acc, [])
  | c :: rest =>
      match digit_val c with
      | Some d =>
          read_nat (Some (10 * match acc with Some a => a | None => 0 end + d))
                   rest
      | None => (acc, s)
      end
  end.

(** The quantifier after an atom: [{m}], [{m,n}], [+], [*], [?] or none. *)
Definition read_quant (s : list ascii)
  : option (nat * option nat * list ascii) :=
  match s with
  | "{"%char :: rest =>
      match read_nat None rest with
      | (Some m, "}"%char :: rest') => Some (m, Some m, rest')
      | (Some m, ","%char :: rest') =>
          match read_nat None rest' with
          | (Some n, "}"%char :: rest'') => Some (m, Some n, rest'')
          | _ => None
          end
      | _ => None
      end
  | "+"%char :: rest => Some (1, None, rest)
  | "*"%char :: rest => Some (0, None, rest)
  | "?"%char :: rest => Some (0, Some 1, rest)
  | _ => Some (1, Some 1, s)
  end.

(** Characters that are operators when they stand unescaped outside a
    class; none of them occurs so in the source, and a pattern that has one
    is not read. *)
Definition is_meta (c : ascii) : bool :=
  existsb (Ascii.eqb c) (list_ascii_of_string ".^$*+?{}()|]").

Definition read_atom (s : list ascii) : option (cclass * list ascii) :=
  match s with
  | [] => None
  | "\"%char :: c :: rest => Some ([escape c], rest)
  | "["%char :: rest => read_class (S (List.length rest)) rest
  | c :: rest => if is_meta c then None else Some ([CChar c], rest)
  end.

(** The pieces between [^] and the final [$]. *)
Fixpoint read_pieces (fuel : nat) (s : list ascii) : option (list piece) :=
  match fuel with
  | O => None
  | S fuel' =>
      match s with
      | ["$"%char] => Some []
      | _ =>
          match read_atom s with
          | Some (cls, rest) =>
              match read_quant rest with
              | Some (m, n, rest') =>
                  match read_pieces fuel' rest' with
                  | Some ps => Some (Piece cls m n :: ps)
                  | None => None
                  end
              | None => None
              end
          | None => None
          end
      end
  end.

Definition compile (pattern : string) : option (list piece) :=
  match list_ascii_of_string pattern with
  | "^"%char :: rest => read_pieces (S (List.length rest)) rest
  | _ => None
  end.

(** [bool(re.match(pattern, data))] *)
Definition re_match (pattern data : string) : bool :=
  match compile pattern with
  | Some ps => match_pieces ps (PyStr.chars data)
  | None => false
  end.

End Re.

(** ** Exceptions *)

Inductive result (A : Type) : Type :=
| Ok (a : A)
| Raise (e : string).
Arguments Ok {A} a.
Arguments Raise {A} e.

(** ** utils/constants.py *)

Module Constants.

Record provider_info : Type := ProviderInfo {
  name : string;
  patterns : list string
}.

(** [PROVIDERS]; a [dict] is iterated in insertion order, so the table is
    kept as the ordered list of its items. *)
Definition PROVIDERS : list (string * provider_info) :=
  [ ("seven_ticket",
     ProviderInfo "セブンチケット"
       ["^23\d{6}\s\d{8}\s\d{3}$"; "^\d{6}\s\d{8}\s\d{3}$"]);
    ("ticket_pia",
     ProviderInfo "チケットぴあ"
       ["^64\d{11}$"; "^640032\d{7}$"]);
    ("lawson_ticket",
     ProviderInfo "ローソンチケット"
       ["^30\d{11}$"; "^L\d{10}$"]);
    ("eplus",
     ProviderInfo "イープラス"
       ["^EP\d{10}$"]);
    ("cnplayguide",
     ProviderInfo "CNプレイガイド"
       ["^CN\d{10}$"]) ].

(** [IMAGE_PROCESSING['max_width']], [IMAGE_PROCESSING['max_height']] *)
Definition max_width : Z := 1920.
Definition max_height : Z := 1080.

End Constants.

(** ** services/provider_parser.py *)

Module ProviderParser.

(** The values stored in the dictionaries [parse] returns. *)
Inductive pyval : Type :=
| VStr (s : string)
| VInt (n : Z)
| VBool (b : bool)
| VList (l : list string).

(** [detect_provider]'s loop over [self.providers.items()]: the first
    provider one of whose patterns matches. *)
Fixpoint detect_loop (providers : list (string * Constants.provider_info))
                     (barcode_data : string) : option string :=
  match providers with
  | [] => None
  | (provider_id, provider_info) :: rest =>
      if existsb (fun pattern => Re.re_match pattern barcode_data)
                 (Constants.patterns provider_info)
      then Some provider_id
      else detect_loop rest barcode_data
  end.

Definition detect_provider (barcode_data : string) : option string :=
  if negb (PyStr.truthy barcode_data) then None
  else detect_loop Constants.PROVIDERS barcode_data.

Definition header (provider provider_name data : string)
  : gmap string pyval :=
  <["raw_data" := VStr data]>
    (<["provider_name" := VStr provider_name]>
       (<["provider" := VStr provider]> ∅)).

Definition _parse_seven_ticket (data : string) : gmap string pyval :=
  let parsed := header "seven_ticket" "セブンチケット" data in
  let parts := PyStr.split data in
  match parts with
  | p0 :: p1 :: p2 :: _ =>
      let parsed := <["ticket_number" := VStr p0]> parsed in
      let parsed := <["serial_number" := VStr p1]> parsed in
      let parsed := <["check_digit" := VStr p2]> parsed in
      if PyStr.startswith p0 "23" then
        <["ticket_id" := VStr p1]> (<["store_code" := VStr p0]> parsed)
      else
        <["serial_id" := VStr p1]> (<["ticket_id" := VStr p0]> parsed)
  | _ => parsed
  end.

Definition _parse_ticket_pia (data : string) : gmap string pyval :=
  let parsed := header "ticket_pia" "チケットぴあ" data in
  if PyStr.startswith data "640032" then
    <["ticket_number" := VStr (PyStr.slice_from 6 data)]>
      (<["prefix" := VStr "640032"]> parsed)
  else
    <["ticket_number" := VStr (PyStr.slice_from 2 data)]>
      (<["prefix" := VStr "64"]> parsed).

Definition _parse_lawson_ticket (data : string) : gmap string pyval :=
  let parsed := header "lawson_ticket" "ローソンチケット" data in
  if PyStr.startswith data "30" then
    <["ticket_number" := VStr (PyStr.slice_from 2 data)]>
      (<["prefix" := VStr "30"]> parsed)
  else if PyStr.startswith data "L" then
    <["ticket_number" := VStr (PyStr.slice_from 1 data)]>
      (<["prefix" := VStr "L"]> parsed)
  else parsed.

Definition _parse_eplus (data : string) : gmap string pyval :=
  let parsed := header "eplus" "イープラス" data in
  <["ticket_number" := VStr (PyStr.slice_from 2 data)]>
    (<["prefix" := VStr "EP"]> parsed).

Definition _parse_cnplayguide (data : string) : gmap string pyval :=
  let parsed := header "cnplayguide" "CNプレイガイド" data in
  <["ticket_number" := VStr (PyStr.slice_from 2 data)]>
    (<["prefix" := VStr "CN"]> parsed).

Definition _parse_generic (data : string) : gmap string pyval :=
  let parsed := header "unknown" "Unknown" data in
  let parsed := <["length" := VInt (Z.of_nat (PyStr.len data))]> parsed in
  let parsed := <["is_numeric" := VBool (PyStr.isdigit data)]> parsed in
  let parsed :=
    <["has_spaces" := VBool (PyStr.contains_chr " " data)]> parsed in
  let parsed := <["has_letters" := VBool (PyStr.any_isalpha data)]> parsed in
  if PyStr.contains_chr " " data then
    let parts := PyStr.split data in
    <["part_count" := VInt (Z.of_nat (List.length parts))]>
      (<["parts" := VList parts]> parsed)
  else parsed.

(** [getattr(self, f'_parse_{provider}', None)]: the methods of the class
    whose name starts with [_parse_]. *)
Definition parser_method (provider : string)
  : option (string -> gmap string pyval) :=
  if String.eqb provider "seven_ticket" then Some _parse_seven_ticket
  else if String.eqb provider "ticket_pia" then Some _parse_ticket_pia
  else if String.eqb provider "lawson_ticket" then Some _parse_lawson_ticket
  else if String.eqb provider "eplus" then Some _parse_eplus
  else if String.eqb provider "cnplayguide" then Some _parse_cnplayguide
  else if String.eqb provider "generic" then Some _parse_generic
  else None.

Definition parse (barcode_data : string) (provider : option string)
  : gmap string pyval :=
  if negb (PyStr.truthy barcode_data) then ∅
  else
    let provider :=
      if negb (PyStr.opt_truthy provider) then detect_provider barcode_data
      else provider in
    match provider with
    | Some p =>
        if negb (PyStr.truthy p) then _parse_generic barcode_data
        else
          match parser_method p with
          | Some method => method barcode_data
          | None => _parse_generic barcode_data
          end
    | None => _parse_generic barcode_data
    end.

End ProviderParser.

(** ** Python's [sorted]

    [sorted] is stable.  [before a b] says that [a] must come strictly before
    [b]: [key a < key b] for an ascending sort, [key b < key a] with
    [reverse=True] (which keeps the original order of equal keys too). *)

Section Sorted.
Context {A : Type} (before : A -> A -> bool).

Fixpoint insert (x : A) (l : list A) : list A :=
  match l with
  | [] => [x]
  | y :: l' => if before y x then y :: insert x l' else x :: y :: l'
  end.

Definition py_sorted (l : list A) : list A := fold_right insert [] l.

(** What a stable sort promises of two elements [a], [b] it returns in this
    order: [b] does not belong before [a], and if neither belongs before the
    other they stand as they stood in the input, where [T a b] held. *)
Definition ranked (T : A -> A -> Prop) (a b : A) : Prop :=
  before b a = false /\ (before a b = false -> T a b).
End Sorted.

(** ** The records passed between the components *)

(** An element of the list [create_variants] returns. *)
Record Variant (ndarray : Type) : Type := mkVariant {
  variant_name : string;
  variant_image : ndarray;
  variant_description : string
}.
Arguments mkVariant {ndarray}.
Arguments variant_name {ndarray}.
Arguments variant_image {ndarray}.
Arguments variant_description {ndarray}.

(** An element of [self.engines]. *)
Record Engine (ndarray : Type) : Type := mkEngine {
  engine_name : string;
  engine_function : ndarray -> option string -> result (list string);
  engine_priority : Z;
  engine_formats : list string
}.
Arguments mkEngine {ndarray}.
Arguments engine_name {ndarray}.
Arguments engine_function {ndarray}.
Arguments engine_priority {ndarray}.
Arguments engine_formats {ndarray}.

(** An element of the list [scan_multiple_variants] returns. *)
Record Candidate : Type := mkCandidate {
  data : string;
  format : string;
  engine : string;
  variant : string;
  confidence : float;
  timestamp : float
}.

(** ** services/barcode_scanner.py *)

Module Scanner.

Definition any_match (patterns : list string) (data : string) : bool :=
  existsb (fun pattern => Re.re_match pattern data) patterns.

Definition provider_patterns : gmap string (list string) :=
  list_to_map
    [ ("seven_ticket", ["^23\d{6}\s\d{8}\s\d{3}$"; "^\d{6}\s\d{8}\s\d{3}$"]);
      ("ticket_pia", ["^64\d{11}$"; "^640032\d{7}$"]);
      ("lawson_ticket", ["^30\d{11}$"; "^L\d{10}$"]);
      ("eplus", ["^EP\d{10}$"]);
      ("cnplayguide", ["^CN\d{10}$"]) ].

Definition _validate_provider_pattern (data provider : string) : bool :=
  let patterns := default [] (provider_patterns !! provider) in
  any_match patterns data.

(** The [patterns] list of [_validate_result]. *)
Definition generic_patterns : list string :=
  [ "^\d{6,20}$";
    "^[A-Z]{2}\d{8,15}$";
    "^\d{2,3}\s\d{3,15}$";
    "^[A-Z0-9\-]{6,25}$" ].

Definition _validate_result (data : string) (provider_hint : option string)
  : bool :=
  if negb (PyStr.truthy data) || (PyStr.len data <? 3)%nat then false
  else if negb (PyStr.isprintable data) then false
  else
    match provider_hint with
    | Some provider =>
        if PyStr.truthy provider
        then _validate_provider_pattern data provider
        else any_match generic_patterns data
    | None => any_match generic_patterns data
    end.

Definition _detect_format (data : string) : string :=
  if (PyStr.len data =? 13)%nat && PyStr.isdigit data then "EAN13"
  else if Re.re_match "^[A-Z0-9\-\.\s\$\/\+%]+$" data then
    if (PyStr.len data <=? 43)%nat then "CODE39" else "CODE128"
  else if PyStr.isdigit data && Nat.even (PyStr.len data) then "ITF"
  else "CODE128".

Definition engine_weights : gmap string float :=
  list_to_map [ ("pyzbar", 0.3%float); ("zxing", 0.25%float);
                ("opencv", 0.1%float) ].

Definition variant_weights : gmap string float :=
  list_to_map [ ("standard", 0.2%float); ("high_contrast", 0.15%float);
                ("edge_enhanced", 0.1%float) ].

(** [min(a, b)] on floats: the second argument only when it is smaller. *)
Definition py_min (a b : float) : float := if PrimFloat.ltb b a then b else a.

Definition _calculate_confidence (data variant engine : string)
                                 (provider_hint : option string) : float :=
  let base_score := 0.5%float in
  let base_score :=
    (base_score + default 0.1 (engine_weights !! engine))%float in
  let base_score :=
    (base_score + default 0.05 (variant_weights !! variant))%float in
  let base_score :=
    match provider_hint with
    | Some provider =>
        if PyStr.truthy provider && _validate_provider_pattern data provider
        then (base_score + 0.2)%float else base_score
    | None => base_score
    end in
  let base_score :=
    if PyStr.isdigit data || Re.re_match "^[A-Z0-9\s]+$" data
    then (base_score + 0.1)%float else base_score in
  py_min base_score 1.0.

(** The loop of [_remove_duplicates], with its two accumulators. *)
Fixpoint remove_loop (results : list Candidate) (seen : gset string)
                     (unique_results : list Candidate) : list Candidate :=
  match results with
  | [] => unique_results
  | result :: rest =>
      if decide (data result ∈ seen)
      then remove_loop rest seen unique_results
      else remove_loop rest ({[data result]} ∪ seen)
                       (app unique_results [result])
  end.

Definition _remove_duplicates (results : list Candidate) : list Candidate :=
  remove_loop results ∅ [].

(** [_apply_ml_ranking] returns its argument. *)
Definition _apply_ml_ranking (results : list Candidate) : list Candidate :=
  results.

Definition select_best_result (results : list Candidate)
  : option Candidate :=
  match results with
  | [] => None
  | best :: _ => Some best
  end.

Section Scan.
Context {ndarray : Type}.

(** [time.time()]: the reading taken for the [k]-th appended result. *)
Variable time_time : nat -> float.

(** The instance: [self.engines] and [self.ml_model]. *)
Record Self : Type := mkSelf {
  engines : list (Engine ndarray);
  ml_model : option unit
}.

(** [for result in results: ...] *)
Fixpoint results_loop (results : list string) (variant_name : string)
                      (engine_name : string) (provider_hint : option string)
                      (all_results : list Candidate) : list Candidate :=
  match results with
  | [] => all_results
  | result :: rest =>
      if _validate_result result provider_hint then
        let confidence :=
          _calculate_confidence result variant_name engine_name
                                provider_hint in
        results_loop rest variant_name engine_name provider_hint
          (app all_results
             [ {| data := result;
                  format := _detect_format result;
                  engine := engine_name;
                  variant := variant_name;
                  confidence := confidence;
                  timestamp := time_time (List.length all_results) |} ])
      else
        results_loop rest variant_name engine_name provider_hint all_results
  end.

(** [for engine in self.engines: ...] *)
Fixpoint engines_loop (es : list (Engine ndarray)) (image : ndarray)
                      (variant_name : string)
                      (provider_hint format_hint : option string)
                      (all_results : list Candidate) : list Candidate :=
  match es with
  | [] => all_results
  | e :: rest =>
      let skip :=
        match format_hint with
        | Some f => PyStr.truthy f && negb (PyStr.in_list f (engine_formats e))
        | None => false
        end in
      if skip then
        engines_loop rest image variant_name provider_hint format_hint
                     all_results
      else
        match engine_function e image format_hint with
        | Ok results =>
            engines_loop rest image variant_name provider_hint format_hint
              (results_loop results variant_name (engine_name e)
                            provider_hint all_results)
        | Raise _ =>
            engines_loop rest image variant_name provider_hint format_hint
                         all_results
        end
  end.

(** [for variant in variants: ...] *)
Fixpoint variants_loop (self : Self) (variants : list (Variant ndarray))
                       (provider_hint format_hint : option string)
                       (all_results : list Candidate) : list Candidate :=
  match variants with
  | [] => all_results
  | v :: rest =>
      variants_loop self rest provider_hint format_hint
        (engines_loop (engines self) (variant_image v) (variant_name v)
                      provider_hint format_hint all_results)
  end.

Definition by_confidence_desc (a b : Candidate) : bool :=
  PrimFloat.ltb (confidence b) (confidence a).

Definition scan_multiple_variants
    (self : Self) (variants : list (Variant ndarray))
    (provider_hint format_hint : option string) (enable_ml : bool)
  : list Candidate :=
  let all_results :=
    variants_loop self variants provider_hint format_hint [] in
  let unique_results := _remove_duplicates all_results in
  let unique_results :=
    if enable_ml && (1 <? List.length unique_results)%nat
       && match ml_model self with Some _ => true | None => false end
    then _apply_ml_ranking unique_results
    else unique_results in
  py_sorted by_confidence_desc unique_results.

(** [_scan_with_zxing] and [_scan_with_opencv] return the empty list
    whatever the image: the first is a stub, the second never appends
    to its [results] and returns [[]] from its handler as well. *)
Definition _scan_with_zxing (image : ndarray) (format_hint : option string)
  : result (list string) := Ok [].

Definition _scan_with_opencv (image : ndarray) (format_hint : option string)
  : result (list string) := Ok [].

Definition by_priority (a b : Engine ndarray) : bool :=
  (engine_priority a <? engine_priority b)%Z.

(** [_init_engines]; [_scan_with_pyzbar] wraps the pyzbar library and is
    taken as given. *)
Definition _init_engines
    (PYZBAR_AVAILABLE ZXING_AVAILABLE : bool)
    (_scan_with_pyzbar : ndarray -> option string -> result (list string))
  : list (Engine ndarray) :=
  let engines : list (Engine ndarray) := [] in
  let engines :=
    if PYZBAR_AVAILABLE then
      app engines [ mkEngine "pyzbar" _scan_with_pyzbar 1
                      ["CODE128"; "CODE39"; "EAN13"; "ITF"; "CODABAR"] ]
    else engines in
  let engines :=
    if ZXING_AVAILABLE then
      app engines [ mkEngine "zxing" _scan_with_zxing 2
                      ["CODE128"; "CODE39"; "EAN13"; "ITF"; "CODE93"] ]
    else engines in
  let engines :=
    app engines [ mkEngine "opencv" _scan_with_opencv 3 ["CODE128"] ] in
  py_sorted by_priority engines.

End Scan.

End Scanner.

(** ** services/image_processor.py *)

Module ImageProcessor.

(** The filters of [PIL.ImageFilter] the source applies. *)
Inductive image_filter : Type :=
| EDGE_ENHANCE
| MedianFilter (size : Z)
| UnsharpMask (radius percent threshold : Z).

(** What the source calls in PIL, NumPy and OpenCV.  Each call either
    returns or raises. *)
Record ImageLib (pil ndarray : Type) : Type := mkImageLib {
  (* Image.open(io.BytesIO(image_data)) *)
  Image_open : list byte -> result pil;
  (* image.size *)
  size : pil -> N * N;
  (* image.mode *)
  mode : pil -> string;
  (* image.resize((w, h), Image.Resampling.LANCZOS) *)
  resize_lanczos : pil -> Z * Z -> result pil;
  (* image.convert(mode) *)
  convert : pil -> string -> result pil;
  (* image.filter(f) *)
  filter : pil -> image_filter -> result pil;
  (* ImageEnhance.Contrast(image).enhance(factor) *)
  Contrast_enhance : pil -> float -> result pil;
  (* np.array(image) *)
  np_array : pil -> result ndarray;
  (* cv2.cvtColor(a, cv2.COLOR_RGB2BGR) *)
  cvtColor_RGB2BGR : ndarray -> result ndarray;
  (* cv2.adaptiveThreshold(a, 255, ADAPTIVE_THRESH_GAUSSIAN_C,
                           THRESH_BINARY, 11, 2) *)
  adaptiveThreshold : ndarray -> Z -> Z -> Z -> result ndarray;
  (* Image.fromarray(a) *)
  Image_fromarray : ndarray -> result pil
}.
Arguments Image_open {pil ndarray}.
Arguments size {pil ndarray}.
Arguments mode {pil ndarray}.
Arguments resize_lanczos {pil ndarray}.
Arguments convert {pil ndarray}.
Arguments filter {pil ndarray}.
Arguments Contrast_enhance {pil ndarray}.
Arguments np_array {pil ndarray}.
Arguments cvtColor_RGB2BGR {pil ndarray}.
Arguments adaptiveThreshold {pil ndarray}.
Arguments Image_fromarray {pil ndarray}.

Definition bind {A B : Type} (r : result A) (k : A -> result B) : result B :=
  match r with
  | Ok a => k a
  | Raise e => Raise e
  end.

Notation "x <- r ;; k" := (bind r (fun x => k))
  (at level 100, r at next level, right associativity).

(** [a / b] on two [int]s; the operands are image dimensions and
    configuration constants, far below 2^53, where the quotient of the
    converted operands is the correctly rounded quotient. *)
Definition float_of_N (n : N) : float := of_uint63 (Uint63.of_Z (Z.of_N n)).

Definition truediv (a b : N) : result float :=
  if (b =? 0)%N then Raise "ZeroDivisionError"
  else Ok (float_of_N a / float_of_N b)%float.

(** [int(x)] on a float: truncation towards zero. *)
Definition py_int (x : float) : result Z :=
  match Prim2SF x with
  | S754_zero _ => Ok 0%Z
  | S754_finite s m e =>
      let v := (if (0 <=? e)%Z then Z.pos m * 2 ^ e
                else Z.pos m / 2 ^ (- e))%Z in
      Ok (if s then (- v)%Z else v)
  | S754_infinity _ => Raise "OverflowError"
  | S754_nan => Raise "ValueError"
  end.

Section Processor.
Context {pil ndarray : Type} (lib : ImageLib pil ndarray).

(** [self.max_width], [self.max_height] *)
Definition max_width : N := Z.to_N Constants.max_width.
Definition max_height : N := Z.to_N Constants.max_height.

Definition _resize_image (image : pil) : result pil :=
  let '(width, height) := size lib image in
  if (max_width <? width)%N || (max_height <? height)%N then
    a <- truediv max_width width ;;
    b <- truediv max_height height ;;
    let ratio := Scanner.py_min a b in
    new_width <- py_int (float_of_N width * ratio)%float ;;
    new_height <- py_int (float_of_N height * ratio)%float ;;
    resize_lanczos lib image (new_width, new_height)
  else Ok image.

Definition _enhance_contrast (image : pil) : result pil :=
  Contrast_enhance lib image 2.0%float.

Definition _enhance_edges (image : pil) : result pil :=
  filter lib image EDGE_ENHANCE.

Definition _reduce_noise (image : pil) : result pil :=
  filter lib image (MedianFilter 3).

Definition _reduce_blur (image : pil) : result pil :=
  filter lib image (UnsharpMask 2 150 3).

Definition _convert_grayscale (image : pil) : result pil :=
  if negb (String.eqb (mode lib image) "L") then convert lib image "L"
  else Ok image.

Definition _binarize_image (image : pil) : result pil :=
  gray <- _convert_grayscale image ;;
  gray_array <- np_array lib gray ;;
  binary <- adaptiveThreshold lib gray_array 255 11 2 ;;
  Image_fromarray lib binary.

Definition _pil_to_cv2 (pil_image : pil) : result ndarray :=
  pil_image <-
    (if negb (String.eqb (mode lib pil_image) "RGB")
     then convert lib pil_image "RGB" else Ok pil_image) ;;
  cv2_image <- np_array lib pil_image ;;
  cvtColor_RGB2BGR lib cv2_image.

(** The body of a [try] that appends to [variants] as it goes: the list
    as it stands when the body ends, and how it ended. *)
Definition Body (A : Type) : Type :=
  list (Variant ndarray) -> list (Variant ndarray) * result A.

Definition call {A : Type} (r : result A) : Body A :=
  fun variants => (variants, r).

Definition append (v : Variant ndarray) : Body unit :=
  fun variants => (app variants [v], Ok tt).

Definition andthen {A B : Type} (m : Body A) (k : A -> Body B) : Body B :=
  fun variants =>
    match m variants with
    | (variants', Ok a) => k a variants'
    | (variants', Raise e) => (variants', Raise e)
    end.

Notation "x <~ m ;; k" := (andthen m (fun x => k))
  (at level 100, m at next level, right associativity).
Notation "m ;;; k" := (andthen m (fun _ => k))
  (at level 100, right associativity).

(** One enhanced variant: the transform, the conversion, the append. *)
Definition add_variant (transform : pil -> result pil) (pil_image : pil)
                       (name description : string) : Body unit :=
  enhanced <~ call (transform pil_image) ;;
  image <~ call (_pil_to_cv2 enhanced) ;;
  append (mkVariant name image description).

(** The [try] block of [create_variants]. *)
Definition try_block (image_data : list byte) : Body unit :=
  pil_image <~ call (Image_open lib image_data) ;;
  pil_image <~ call (_resize_image pil_image) ;;
  image <~ call (_pil_to_cv2 pil_image) ;;
  append (mkVariant "standard" image
                    "Original image with basic preprocessing") ;;;
  add_variant _enhance_contrast pil_image "high_contrast"
              "Enhanced contrast for better barcode detection" ;;;
  add_variant _enhance_edges pil_image "edge_enhanced"
              "Edge enhanced for pattern recognition" ;;;
  add_variant _reduce_noise pil_image "noise_reduced"
              "Noise reduced for cleaner barcode lines" ;;;
  add_variant _reduce_blur pil_image "blur_reduced"
              "Blur reduction for sharper barcode edges" ;;;
  add_variant _convert_grayscale pil_image "grayscale"
              "Grayscale conversion for monochrome processing" ;;;
  add_variant _binarize_image pil_image "binary"
              "Binary threshold for clear black/white separation".

(** The [except Exception] handler: a second attempt at the base image,
    whose own failure is passed over. *)
Definition except_block (image_data : list byte) : Body unit :=
  fun variants =>
    match (pil_image <~ call (Image_open lib image_data) ;;
           pil_image <~ call (_resize_image pil_image) ;;
           image <~ call (_pil_to_cv2 pil_image) ;;
           append (mkVariant "standard" image
                             "Original image (fallback)")) variants with
    | (variants', Ok _) => (variants', Ok tt)
    | (variants', Raise _) => (variants', Ok tt)
    end.

(** [create_variants]: what it returns, or the exception it lets out. *)
Definition create_variants (image_data : list byte)
  : result (list (Variant ndarray)) :=
  let variants := [] in
  match try_block image_data variants with
  | (variants, Ok _) => Ok variants
  | (variants, Raise _) =>
      match except_block image_data variants with
      | (variants, Ok _) => Ok variants
      | (variants, Raise e) => Raise e
      end
  end.

End Processor.

End ImageProcessor.

(** ** The specification's own words

    Definitions that follow the text of the specification rather than the
    code, to be compared with the code below. *)

Module Spec.

(** The digits 0 to 9, the letters A to Z and the hyphen. *)
Definition is_ascii_digit (c : N) : bool := PyStr.between 48 57 c.
Definition is_upper (c : N) : bool := PyStr.between 65 90 c.
Definition is_hyphen (c : N) : bool := (c =? 45)%N.

Definition within (lo hi n : nat) : bool := (lo <=? n)%nat && (n <=? hi)%nat.

(** The four generic structures, for a given reading of the word "digit" in
    the first three: the digits 0 to 9 ([is_ascii_digit]), or the decimal
    digits of any script ([PyStr.chr_isdecimal]). *)
Section Structures.
Variable digit : N -> bool.

(** "pure digits of length 6-20" *)
Definition pure_digits (cs : list N) : bool :=
  within 6 20 (List.length cs) && forallb digit cs.

(** "two uppercase letters followed by 8-15 digits" *)
Definition letters_then_digits (cs : list N) : bool :=
  (2 <=? List.length cs)%nat
  && forallb is_upper (firstn 2 cs)
  && within 8 15 (List.length (skipn 2 cs))
  && forallb digit (skipn 2 cs).

(** "[k] digits, one whitespace, 3-15 digits" *)
Definition digits_space_digits (k : nat) (cs : list N) : bool :=
  (k <=? List.length cs)%nat
  && forallb digit (firstn k cs)
  && match nth_error cs k with
     | Some c => PyStr.chr_isspace c
     | None => false
     end
  && within 3 15 (List.length (skipn (S k) cs))
  && forallb digit (skipn (S k) cs).

(** "uppercase-alphanumeric-with-hyphen of length 6-25" *)
Definition alnum_hyphen (cs : list N) : bool :=
  within 6 25 (List.length cs)
  && forallb (fun c => is_upper c || is_ascii_digit c || is_hyphen c) cs.

(** "at least one of exactly four generic patterns" *)
Definition generic_structure (data : string) : bool :=
  let cs := PyStr.chars data in
  pure_digits cs
  || letters_then_digits cs
  || (digits_space_digits 2 cs || digits_space_digits 3 cs)
  || alnum_hyphen cs.

End Structures.

(** The patterns the provider registry ([PROVIDERS]) holds for an id. *)
Fixpoint registered (providers : list (string * Constants.provider_info))
                    (provider : string) : list string :=
  match providers with
  | [] => []
  | (id, info) :: rest =>
      if String.eqb id provider then Constants.patterns info
      else registered rest provider
  end.

Definition matches_registered (provider data : string) : bool :=
  existsb (fun pattern => Re.re_match pattern data)
          (registered Constants.PROVIDERS provider).

(** Validation of a raw decode string as section 4.3 step 2 words it, for
    a reading of "digit"; a hint is given when it is a non-empty string. *)
Definition validate (digit : N -> bool) (data : string)
                    (provider_hint : option string) : bool :=
  (3 <=? PyStr.len data)%nat
  && PyStr.isprintable data
  && match provider_hint with
     | Some provider =>
         if PyStr.truthy provider then matches_registered provider data
         else generic_structure digit data
     | None => generic_structure digit data
     end.

(** The format labels of the specification, and the strings the code writes
    for them. *)
Inductive format_guess : Type :=
| checksummed_13
| compact_alnum
| linear_128
| interleaved.

Definition label (f : format_guess) : string :=
  match f with
  | checksummed_13 => "EAN13"
  | compact_alnum => "CODE39"
  | linear_128 => "CODE128"
  | interleaved => "ITF"
  end.

(** "an uppercase-alphanumeric-plus-symbol character class"; the symbols
    are those of the code's class: - . $ / + % and whitespace. *)
Definition in_symbol_class (c : N) : bool :=
  is_upper c || is_ascii_digit c
  || existsb (N.eqb c) (PyStr.chars "-.$/+%")
  || PyStr.chr_isspace c.

(** The format-guess heuristic, branch by branch. *)
Definition detect_format (data : string) : format_guess :=
  let cs := PyStr.chars data in
  let n := List.length cs in
  let all_digits := negb (n =? 0)%nat && forallb PyStr.chr_isdigit cs in
  if (n =? 13)%nat && all_digits then checksummed_13
  else if negb (n =? 0)%nat && forallb in_symbol_class cs then
    if (n <=? 43)%nat then compact_alnum else linear_128
  else if all_digits && Nat.even n then interleaved
  else linear_128.

(** Deduplication as step 5 words it: a candidate is kept when no earlier
    candidate has the same [data]. *)
Fixpoint keep_first (earlier : list Candidate) (results : list Candidate)
  : list Candidate :=
  match results with
  | [] => []
  | r :: rest =>
      if existsb (fun c => String.eqb (data c) (data r)) earlier
      then keep_first (app earlier [r]) rest
      else r :: keep_first (app earlier [r]) rest
  end.

(** The position at which a [data] value was first generated. *)
Fixpoint sequence_index (all_results : list Candidate) (d : string) : nat :=
  match all_results with
  | [] => 0
  | r :: rest =>
      if String.eqb (data r) d then 0 else S (sequence_index rest d)
  end.

End Spec.

(** ** The scores [_calculate_confidence] can return

    The score depends on its arguments through two dictionary lookups and
    two tests only, so it ranges over finitely many floats. *)

Module Scores.

Definition score (engine_weight variant_weight : float)
                 (provider_match quality : bool) : float :=
  let base_score := (0.5 + engine_weight + variant_weight)%float in
  let base_score :=
    if provider_match then (base_score + 0.2)%float else base_score in
  let base_score :=
    if quality then (base_score + 0.1)%float else base_score in
  Scanner.py_min base_score 1.0.

Definition engine_weight_values : list float := [0.3; 0.25; 0.1]%float.

Definition variant_weight_values : list float := [0.2; 0.15; 0.1; 0.05]%float.

Definition values : list float :=
  flat_map (fun ew =>
    flat_map (fun vw =>
      flat_map (fun provider_match =>
        map (fun quality => score ew vw provider_match quality)
            [false; true])
        [false; true])
      variant_weight_values)
    engine_weight_values.

(** The comparisons behave on [values] as an order should: [<] is
    asymmetric, its negation is transitive, [not (x < y)] is [y <= x], and
    equal scores are not [<]. *)
Definition well_ordered (vs : list float) : bool :=
  forallb (fun x =>
    forallb (fun y =>
      implb (PrimFloat.ltb x y) (negb (PrimFloat.ltb y x))
      && implb (negb (PrimFloat.ltb x y)) (PrimFloat.leb y x)
      && implb (PrimFloat.eqb x y) (negb (PrimFloat.ltb y x))
      && forallb (fun z =>
           implb (negb (PrimFloat.ltb x y) && negb (PrimFloat.ltb y z))
                 (negb (PrimFloat.ltb x z)))
         vs)
      vs)
    vs.

Definition in_unit_interval (x : float) : bool :=
  PrimFloat.leb 0.0 x && PrimFloat.leb x 1.0.

(** A candidate whose [confidence] is what [_calculate_confidence] returns
    for its own [data], [variant] and [engine]. *)
Definition scored (provider_hint : option string) (c : Candidate) : Prop :=
  confidence c
  = Scanner._calculate_confidence (data c) (variant c) (engine c)
                                  provider_hint.

End Scores.

(** ** The transforms of [create_variants], as a table

    The [try] block applies, after the base image, six transforms in a fixed
    order.  The table names them, so that "the transform that fails" and
    "the transforms before it" can be spoken of. *)

Module Transforms.
Import ImageProcessor.

Section Table.
Context {pil ndarray : Type} (lib : ImageLib pil ndarray).

Record transform : Type := mkTransform {
  t_name : string;
  t_apply : pil -> result pil;
  t_description : string
}.

Definition enhancements : list transform :=
  [ mkTransform "high_contrast" (_enhance_contrast lib)
                "Enhanced contrast for better barcode detection";
    mkTransform "edge_enhanced" (_enhance_edges lib)
                "Edge enhanced for pattern recognition";
    mkTransform "noise_reduced" (_reduce_noise lib)
                "Noise reduced for cleaner barcode lines";
    mkTransform "blur_reduced" (_reduce_blur lib)
                "Blur reduction for sharper barcode edges";
    mkTransform "grayscale" (_convert_grayscale lib)
                "Grayscale conversion for monochrome processing";
    mkTransform "binary" (_binarize_image lib)
                "Binary threshold for clear black/white separation" ].

Definition names (ts : list transform) : list string := map t_name ts.

(** The variant a transform of the table leaves. *)
Definition made (t : transform) (image : ndarray) : Variant ndarray :=
  mkVariant (t_name t) image (t_description t).

(** The base image: opened, resized, converted. *)
Definition base (image_data : list byte) : result (pil * ndarray) :=
  bind (Image_open lib image_data) (fun pil_image =>
  bind (_resize_image lib pil_image) (fun pil_image =>
  bind (_pil_to_cv2 lib pil_image) (fun image =>
  Ok (pil_image, image)))).

(** One transform and the conversion of its result. *)
Definition enhanced (t : transform) (pil_image : pil) : result ndarray :=
  bind (t_apply t pil_image) (_pil_to_cv2 lib).

(** The transforms of a list, one after the other, up to the first that
    raises. *)
Fixpoint run (ts : list transform) (pil_image : pil)
  : Body (ndarray := ndarray) unit :=
  match ts with
  | [] => fun variants => (variants, Ok tt)
  | t :: rest =>
      andthen (add_variant lib (t_apply t) pil_image (t_name t)
                           (t_description t))
              (fun _ => run rest pil_image)
  end.

End Table.

Arguments transform pil : clear implicits.

End Transforms.

(** ** Sample inputs *)

Module Samples.
Import ImageProcessor.

(** An image library on one-point images whose calls all succeed, except
    those the two flags make raise. *)
Definition sample_lib (decodable enhanceable : bool) : ImageLib unit unit :=
  let decode := if decodable then Ok tt else Raise "UnidentifiedImageError" in
  let enhance := if enhanceable then Ok tt else Raise "ValueError" in
  {| Image_open := fun _ => decode;
     size := fun _ => (640, 480)%N;
     mode := fun _ => "RGB";
     resize_lanczos := fun _ _ => Ok tt;
     convert := fun _ _ => enhance;
     filter := fun _ _ => enhance;
     Contrast_enhance := fun _ _ => enhance;
     np_array := fun _ => Ok tt;
     cvtColor_RGB2BGR := fun _ => Ok tt;
     adaptiveThreshold := fun _ _ _ _ => enhance;
     Image_fromarray := fun _ => enhance |}.

(** A library whose edge filter alone raises. *)
Definition edge_failing_lib : ImageLib unit unit :=
  {| Image_open := fun _ => Ok tt;
     size := fun _ => (640, 480)%N;
     mode := fun _ => "RGB";
     resize_lanczos := fun _ _ => Ok tt;
     convert := fun _ _ => Ok tt;
     filter := fun _ f =>
       match f with
       | EDGE_ENHANCE => Raise "ValueError"
       | _ => Ok tt
       end;
     Contrast_enhance := fun _ _ => Ok tt;
     np_array := fun _ => Ok tt;
     cvtColor_RGB2BGR := fun _ => Ok tt;
     adaptiveThreshold := fun _ _ _ _ => Ok tt;
     Image_fromarray := fun _ => Ok tt |}.

Definition sample_bytes : list byte := [x89; x50; x4e; x47].

(** Two engines, the second of which repeats a string of the first. *)
Definition sample_engines : list (Engine unit) :=
  [ mkEngine "pyzbar"
      (fun _ _ => Ok ["6412345678901"; "ab"; "EP1234567890"; "6412345678901"])
      1 ["CODE128"; "EAN13"];
    mkEngine "opencv"
      (fun _ _ => Ok ["EP1234567890"; "HELLO-1"])
      3 ["CODE128"] ].

Definition sample_self : Scanner.Self :=
  Scanner.mkSelf sample_engines None.

Definition sample_variants : list (Variant unit) :=
  [ mkVariant "standard" tt "Original image with basic preprocessing" ].

Definition sample_clock (k : nat) : float := 0%float.

(** Six fullwidth digits, U+FF10 to U+FF15. *)
Definition fullwidth_digits : string := "０１２３４５".

Definition sample_candidate (d : string) (e : string) (c : float)
  : Candidate :=
  {| data := d; format := Scanner._detect_format d; engine := e;
     variant := "standard"; confidence := c; timestamp := 0%float |}.

(** What the loops over [sample_variants] and [sample_engines] append, in
    order: the first two strings come back a second time. *)
Definition sample_results : list Candidate :=
  [ sample_candidate "6412345678901" "pyzbar" 1.0;
    sample_candidate "EP1234567890" "pyzbar" 1.0;
    sample_candidate "6412345678901" "pyzbar" 1.0;
    sample_candidate "EP1234567890" "opencv" (0.5 + 0.1 + 0.2 + 0.1);
    sample_candidate "HELLO-1" "opencv" (0.5 + 0.1 + 0.2) ].

End Samples.

(** ** Where a candidate comes from *)

Module Provenance.
Import Scanner.

Section Generated.
Context {ndarray : Type}.

(** An engine the loop does not skip under the format hint. *)
Definition eligible (format_hint : option string) (e : Engine ndarray)
  : Prop :=
  match format_hint with
  | Some f => PyStr.truthy f = true ->
              PyStr.in_list f (engine_formats e) = true
  | None => True
  end.

(** A candidate appended for a string that an eligible engine of [self]
    returned on one of the variants and that passed validation, with the
    fields the loop gives it. *)
Definition generated (self : Self (ndarray := ndarray))
    (variants : list (Variant ndarray))
    (provider_hint format_hint : option string) (c : Candidate) : Prop :=
  exists (v : Variant ndarray) (e : Engine ndarray) (results : list string),
    v ∈ variants
    /\ e ∈ engines self
    /\ eligible format_hint e
    /\ engine_function e (variant_image v) format_hint = Ok results
    /\ data c ∈ results
    /\ variant c = variant_name v
    /\ engine c = engine_name e
    /\ format c = _detect_format (data c)
    /\ _validate_result (data c) provider_hint = true
    /\ confidence c
       = _calculate_confidence (data c) (variant c) (engine c) provider_hint.

End Generated.

End Provenance.

(** ** Patterns whose pieces all have an exact count

    The providers' patterns are of this kind: a subject matches when it has
    the pattern's length and each character lies in the class at its
    position. *)

Module Rigid.
Import Re.

(** Every piece is repeated an exact number of times. *)
Definition rigid (ps : list piece) : bool :=
  forallb (fun p =>
             match p_max p with
             | Some hi => (hi =? p_min p)%nat
             | None => false
             end) ps.

(** The class expected at each position. *)
Fixpoint expand (ps : list piece) : list cclass :=
  match ps with
  | [] => []
  | p :: ps' => repeat (p_class p) (p_min p) ++ expand ps'
  end.

(** The subject lies, position by position, in the classes, up to [$]. *)
Fixpoint fits (classes : list cclass) (s : list N) : bool :=
  match classes with
  | [] => at_end s
  | cls :: classes' =>
      match s with
      | [] => false
      | c :: s' => class_matches cls c && fits classes' s'
      end
  end.

(** The code points an item holds, as ranges. *)
Definition item_ranges (it : citem) : list (N * N) :=
  match it with
  | CChar a => [(PyStr.code a, PyStr.code a)]
  | CRange lo hi => [(PyStr.code lo, PyStr.code hi)]
  | CDigit => PyStr.decimal_ranges
  | CSpace => PyStr.space_ranges
  end.

Definition class_ranges (cls : cclass) : list (N * N) :=
  flat_map item_ranges cls.

(** No range of the one table meets a range of the other. *)
Definition tables_disjoint (t1 t2 : list (N * N)) : bool :=
  forallb (fun r1 =>
    forallb (fun r2 => (snd r1 <? fst r2)%N || (snd r2 <? fst r1)%N) t2) t1.

(** Every range of the first table lies within a range of the second. *)
Definition table_within (t1 t2 : list (N * N)) : bool :=
  forallb (fun r1 =>
    existsb (fun r2 => (fst r2 <=? fst r1)%N && (snd r1 <=? snd r2)%N) t2) t1.

(** Where a range of the one table meets a range of the other, they have
    the code point [c] in common and no other. *)
Definition tables_meet_at (c : N) (t1 t2 : list (N * N)) : bool :=
  forallb (fun r1 =>
    forallb (fun r2 =>
      (snd r1 <? fst r2)%N || (snd r2 <? fst r1)%N
      || ((N.max (fst r1) (fst r2) =? c)%N
          && (N.min (snd r1) (snd r2) =? c)%N)) t2) t1.

Definition classes_disjoint (a b : cclass) : bool :=
  tables_disjoint (class_ranges a) (class_ranges b).

(** At some position both lists have, the two classes share no character. *)
Fixpoint exclusive (a b : list cclass) : bool :=
  match a, b with
  | x :: a', y :: b' => classes_disjoint x y || exclusive a' b'
  | _, _ => false
  end.

(** No subject matches a pattern of the one list and a pattern of the
    other, as far as [exclusive] can tell. *)
Definition patterns_exclusive (pats1 pats2 : list string) : bool :=
  forallb (fun p1 =>
    forallb (fun p2 =>
      match compile p1, compile p2 with
      | Some x, Some y =>
          rigid x && rigid y && exclusive (expand x) (expand y)
      | _, _ => false
      end) pats2) pats1.

(** The characters a validated string is made of: the letters A to Z, the
    decimal digits of any script, the hyphen and the space. *)
Definition barcode_char (c : N) : bool :=
  Spec.is_upper c || PyStr.chr_isdecimal c || Spec.is_hyphen c
  || (c =? 32)%N.

Definition barcode_ranges : list (N * N) :=
  (65, 90)%N :: (45, 45)%N :: (32, 32)%N :: PyStr.decimal_ranges.

(** The printable characters of the class are [barcode_char]s: those of
    [\s] because the space is the one printable whitespace, those of the
    other items because the item lies within [barcode_ranges]. *)
Definition class_within (cls : cclass) : bool :=
  forallb (fun it =>
             match it with
             | CSpace => true
             | _ => table_within (item_ranges it) barcode_ranges
             end) cls.

(** All the patterns of the registry. *)
Definition registry_patterns : list string :=
  flat_map (fun entry => Constants.patterns (snd entry)) Constants.PROVIDERS.

(** A pattern that is rigid, made of [barcode_char] classes, and whose
    length lies between [lo] and [hi]. *)
Definition pattern_ok (lo hi : nat) (pattern : string) : bool :=
  match compile pattern with
  | Some ps =>
      rigid ps && forallb class_within (expand ps)
      && Spec.within lo hi (List.length (expand ps))
  | None => false
  end.

End Rigid.

(** ** services/provider_parser.py, the remaining methods *)

Module ProviderLookup.
Import ProviderParser.

(** [self.providers.get(provider)] *)
Fixpoint providers_get (providers : list (string * Constants.provider_info))
                       (provider : string) : option Constants.provider_info :=
  match providers with
  | [] => None
  | (id, info) :: rest =>
      if String.eqb id provider then Some info else providers_get rest provider
  end.

Definition get_provider_info (provider : string)
  : option Constants.provider_info :=
  providers_get Constants.PROVIDERS provider.

(** [{pid: info['name'] for pid, info in self.providers.items()}] *)
Definition list_providers : gmap string string :=
  list_to_map (map (fun entry => (fst entry, Constants.name (snd entry)))
                   Constants.PROVIDERS).

Definition validate_provider_data (data provider : string)
  : gmap string pyval :=
  match providers_get Constants.PROVIDERS provider with
  | None =>
      <["error" := VStr (String.append "Unknown provider: " provider)]>
        (<["valid" := VBool false]> ∅)
  | Some provider_info =>
      let patterns := Constants.patterns provider_info in
      if existsb (fun pattern => Re.re_match pattern data) patterns then
        <["provider_name" := VStr (Constants.name provider_info)]>
          (<["provider" := VStr provider]>
             (<["valid" := VBool true]> ∅))
      else
        <["expected_patterns" := VList patterns]>
          (<["error" :=
               VStr (String.append "Data does not match "
                       (String.append (Constants.name provider_info)
                                      " pattern"))]>
             (<["valid" := VBool false]> ∅))
  end.

(** The provider [parse] resolves: the one supplied, else the one detected;
    and the id its result carries: that provider when the class has a parser
    of its own for it, [unknown] otherwise. *)
Definition resolved (barcode_data : string) (provider : option string)
  : option string :=
  if PyStr.opt_truthy provider then provider
  else detect_provider barcode_data.

Definition reported (barcode_data : string) (provider : option string)
  : string :=
  match resolved barcode_data provider with
  | Some p =>
      if bool_decide (p ∈ map fst Constants.PROVIDERS) then p else "unknown"
  | None => "unknown"
  end.

(** The fields [prefix] and [ticket_number] are there and, put together,
    give the data back. *)
Definition splits (data : string) (fields : gmap string pyval) : Prop :=
  exists prefix ticket_number : string,
    fields !! "prefix" = Some (VStr prefix)
    /\ fields !! "ticket_number" = Some (VStr ticket_number)
    /\ String.append prefix ticket_number = data.

End ProviderLookup.

(** ** Literal heads of rigid patterns *)

Module Heads.
Import Re Rigid.

(** The literal characters a class list starts with. *)
Fixpoint literal_head (classes : list cclass) : list ascii :=
  match classes with
  | [CChar c] :: classes' => c :: literal_head classes'
  | _ => []
  end.

(** Every pattern of the list is rigid and starts with the literal. *)
Definition patterns_start_with (literal : string) (patterns : list string)
  : bool :=
  forallb (fun pattern =>
             match compile pattern with
             | Some ps =>
                 rigid ps
                 && String.prefix literal
                      (string_of_list_ascii (literal_head (expand ps)))
                 && forallb (fun a => (PyStr.code a <? 128)%N)
                            (list_ascii_of_string literal)
             | None => false
             end) patterns.

End Heads.

(** ** services/barcode_scanner.py: the pyzbar engine and the stock scanner *)

Module Pyzbar.
Import Scanner.

(** One hexadecimal digit, in lower case. *)
Definition hex_digit (n : N) : ascii :=
  nth (N.to_nat n) (list_ascii_of_string "0123456789abcdef") "0"%char.

(** [bytes.hex()] *)
Definition hex (payload : list byte) : string :=
  string_of_list_ascii
    (flat_map (fun b => [hex_digit (Byte.to_N b / 16);
                         hex_digit (Byte.to_N b mod 16)])
              payload).

Section Engine.
Context {ndarray : Type}.

(** Whether the import of pyzbar succeeded. *)
Variable PYZBAR_AVAILABLE : bool.

(** [pyzbar.decode(image)]: the [data] of each symbol found, or an
    exception. *)
Variable pyzbar_decode : ndarray -> result (list (list byte)).

(** [payload.decode('utf-8')]; [None] stands for [UnicodeDecodeError]. *)
Variable decode_utf8 : list byte -> option string.

(** [for barcode in barcodes: ...] *)
Fixpoint barcodes_loop (barcodes : list (list byte)) (results : list string)
  : list string :=
  match barcodes with
  | [] => results
  | payload :: rest =>
      match decode_utf8 payload with
      | Some data =>
          if PyStr.truthy data && (2 <? PyStr.len data)%nat
          then barcodes_loop rest (app results [data])
          else barcodes_loop rest results
      | None => barcodes_loop rest (app results [hex payload])
      end
  end.

Definition _scan_with_pyzbar (image : ndarray) (format_hint : option string)
  : result (list string) :=
  if negb PYZBAR_AVAILABLE then Ok []
  else
    match pyzbar_decode image with
    | Ok barcodes => Ok (barcodes_loop barcodes [])
    | Raise _ => Ok []
    end.

(** [MultiFormatBarcodeScanner()]: [__init__] with the engines the module
    can build. *)
Definition stock_scanner (ZXING_AVAILABLE : bool) : Self :=
  mkSelf (_init_engines PYZBAR_AVAILABLE ZXING_AVAILABLE _scan_with_pyzbar)
         None.

End Engine.

(** The formats the pyzbar engine declares. *)
Definition pyzbar_formats : list string :=
  ["CODE128"; "CODE39"; "EAN13"; "ITF"; "CODABAR"].

End Pyzbar.

(** ** Rigid patterns made of groups of digits *)

Module Groups.
Import Re Rigid.

(** Every character of the class is a decimal digit. *)
Definition digit_class (cls : cclass) : bool :=
  table_within (class_ranges cls) PyStr.decimal_ranges.

(** Every character of the class is whitespace. *)
Definition space_class (cls : cclass) : bool :=
  table_within (class_ranges cls) PyStr.space_ranges.

(** The pattern is rigid and reads [n1] digits, one whitespace character,
    [n2] digits, one whitespace character and [n3] digits. *)
Definition groups_of (pattern : string) (n1 n2 n3 : nat) : bool :=
  match compile pattern with
  | Some ps =>
      rigid ps
      && match skipn n1 (expand ps) with
         | w1 :: rest1 =>
             match skipn n2 rest1 with
             | w2 :: rest2 =>
                 forallb digit_class (firstn n1 (expand ps))
                 && space_class w1
                 && forallb digit_class (firstn n2 rest1)
                 && space_class w2
                 && forallb digit_class rest2
                 && (List.length rest2 =? n3)%nat
             | [] => false
             end
         | [] => false
         end
  | None => false
  end.

(** What [_parse_seven_ticket] reads in data cut into the groups [t], [s]
    and [c]. *)
Definition seven_fields (t s c : string)
                        (fields : gmap string ProviderParser.pyval) : Prop :=
  fields !! "ticket_number" = Some (ProviderParser.VStr t)
  /\ fields !! "serial_number" = Some (ProviderParser.VStr s)
  /\ fields !! "check_digit" = Some (ProviderParser.VStr c)
  /\ fields !! "ticket_id"
     = Some (ProviderParser.VStr (if PyStr.startswith t "23" then s else t))
  /\ (if PyStr.startswith t "23"
      then fields !! "store_code" = Some (ProviderParser.VStr t)
           /\ fields !! "serial_id" = None
      else fields !! "serial_id" = Some (ProviderParser.VStr s)
           /\ fields !! "store_code" = None).

End Groups.

(** ** utils/validation.py *)

Module Validation.

(** [SUPPORTED_FORMATS] and [MAX_FILE_SIZE] of utils/constants.py *)
Definition SUPPORTED_FORMATS : list string :=
  ["CODE128"; "CODE39"; "EAN13"; "ITF"; "CODABAR"; "CODE93"].

Definition MAX_FILE_SIZE : Z := 10 * 1024 * 1024.

(** [sep.join(items)] *)
Fixpoint join (sep : string) (items : list string) : string :=
  match items with
  | [] => ""
  | x :: rest =>
      match rest with
      | [] => x
      | _ => String.append x (String.append sep (join sep rest))
      end
  end.

(** [data.startswith(magic)] on bytes *)
Fixpoint bytes_startswith (data magic : list byte) {struct magic} : bool :=
  match magic with
  | [] => true
  | m :: magic' =>
      match data with
      | [] => false
      | d :: data' => Byte.eqb d m && bytes_startswith data' magic'
      end
  end.

(** The local [magic_numbers], in the order of its items. *)
Definition magic_numbers : list (list byte * string) :=
  [ ([xff; xd8; xff], "image/jpeg");
    ([x89; x50; x4e; x47; x0d; x0a; x1a; x0a], "image/png");
    ([x47; x49; x46; x38; x37; x61], "image/gif");
    ([x47; x49; x46; x38; x39; x61], "image/gif") ].

(** [for magic, mime_type in magic_numbers.items(): ...]: the value of
    [is_valid_image] after the loop. *)
Fixpoint magic_loop (image_data : list byte)
                    (items : list (list byte * string)) : bool :=
  match items with
  | [] => false
  | (magic, _) :: rest =>
      if bytes_startswith image_data magic then true
      else magic_loop image_data rest
  end.

(** A returned value is an error message, or [None]. *)
Definition validate_image_file (image_data : list byte) (max_size : Z)
  : option string :=
  match image_data with
  | [] => Some "No image data provided"
  | _ =>
      if (max_size <? Z.of_nat (List.length image_data))%Z then
        Some (String.append "File size exceeds maximum limit of "
                (String.append (pretty (max_size / (1024 * 1024))%Z) "MB"))
      else if (List.length image_data <? 10)%nat then
        Some "Invalid image file - too small"
      else if negb (magic_loop image_data magic_numbers) then
        Some "Unsupported image format. Please use JPEG, PNG, or GIF"
      else None
  end.

Definition validate_barcode_data (data : string) : option string :=
  if negb (PyStr.truthy data) then Some "Barcode data is required"
  else if (PyStr.len data <? 3)%nat then Some "Barcode data too short"
  else if (100 <? PyStr.len data)%nat then Some "Barcode data too long"
  else if negb (PyStr.isprintable data) then
    Some "Barcode data contains non-printable characters"
  else None.

Definition validate_format (format_name : string) : option string :=
  if negb (PyStr.truthy format_name) then None
  else if negb (PyStr.in_list format_name SUPPORTED_FORMATS) then
    Some (String.append "Unsupported format: "
            (String.append format_name
               (String.append ". Supported formats: "
                  (join ", " SUPPORTED_FORMATS))))
  else None.

Definition validate_provider (provider : string) : option string :=
  if negb (PyStr.truthy provider) then None
  else if negb (PyStr.in_list provider (map fst Constants.PROVIDERS)) then
    Some (String.append "Unsupported provider: "
            (String.append provider
               (String.append ". Supported providers: "
                  (join ", " (map fst Constants.PROVIDERS)))))
  else None.

(** [if error: return error]: the message returned there, if any. *)
Definition returned_error (error : option string) : option string :=
  match error with
  | Some message => if PyStr.truthy message then Some message else None
  | None => None
  end.

(** [if hint: error = validate(hint); if error: return error] *)
Definition hint_error (validate : string -> option string)
                      (hint : option string) : option string :=
  match hint with
  | Some h => if PyStr.truthy h then returned_error (validate h) else None
  | None => None
  end.

(** The parameters are the form fields of the request, all strings. *)
Definition validate_scan_params (params : gmap string string)
  : option string :=
  let provider_hint := params !! "provider_hint" in
  match hint_error validate_provider provider_hint with
  | Some error => Some error
  | None =>
      let format_hint := params !! "format_hint" in
      match hint_error validate_format format_hint with
      | Some error => Some error
      | None =>
          let enable_ml := default "true" (params !! "enable_ml") in
          if negb (PyStr.in_list enable_ml ["true"; "false"]) then
            Some "enable_ml must be 'true' or 'false'"
          else None
      end
  end.

(** [for i, image_data in enumerate(images_data): ...] *)
Fixpoint images_loop (i : nat) (images_data : list (list byte))
  : option string :=
  match images_data with
  | [] => None
  | image_data :: rest =>
      match returned_error (validate_image_file image_data MAX_FILE_SIZE)
      with
      | Some error =>
          Some (String.append "Image "
                  (String.append (pretty (Z.of_nat i + 1)%Z)
                     (String.append ": " error)))
      | None => images_loop (S i) rest
      end
  end.

Definition validate_batch_request (images_data : list (list byte))
                                  (max_images : Z) : option string :=
  match images_data with
  | [] => Some "No images provided"
  | _ =>
      if (max_images <? Z.of_nat (List.length images_data))%Z then
        Some (String.append "Too many images. Maximum allowed: "
                (pretty max_images))
      else images_loop 0 images_data
  end.

End Validation.

(** ** utils/response.py and handlers/scan.py *)

Module Handler.
Import Scanner ProviderParser Validation.

(** [CORS_HEADERS] of utils/constants.py *)
Definition CORS_HEADERS : gmap string string :=
  list_to_map
    [ ("Access-Control-Allow-Origin", "*");
      ("Access-Control-Allow-Headers",
       "Content-Type,X-Amz-Date,Authorization,X-Api-Key,X-Amz-Security-Token");
      ("Access-Control-Allow-Methods", "GET,POST,PUT,DELETE,OPTIONS") ].

(** [response_data['processing_info']]; [list(set(...))] has no order of
    its own, so [engines_tried] is kept as the set. *)
Record ProcessingInfo : Type := mkProcessingInfo {
  total_time_ms : Z;
  preprocessing_variants : list string;
  engines_tried : gset string;
  ml_prediction_used : bool
}.

(** [response_data] of [lambda_handler]. *)
Record ResponseData : Type := mkResponseData {
  success : bool;
  barcode_data : string;
  detected_format : string;
  best_confidence : float;               (* key [confidence] *)
  provider : option string;
  parsed_data : gmap string pyval;
  candidates : list Candidate;
  processing_info : ProcessingInfo
}.

(** The dictionaries given to [create_response]. *)
Inductive Body : Type :=
| EmptyDict
| ErrorDict (message code : string) (details : option (gmap string string))
| DataDict (response_data : ResponseData).

Record Response : Type := mkResponse {
  statusCode : Z;
  headers : gmap string string;
  body : string
}.

(** The request: [event.get('httpMethod')], [event.get('body', '')],
    [event.get('isBase64Encoded', False)] and [event.get('headers', {})]. *)
Record Event : Type := mkEvent {
  httpMethod : option string;
  event_body : string;
  isBase64Encoded : bool;
  event_headers : gmap string string
}.

(** [body] is a [str], or [bytes] once decoded. *)
Inductive Payload : Type :=
| Text (s : string)
| Bytes (b : list byte).

(** [sub in s] *)
Fixpoint contains (s sub : string) : bool :=
  String.prefix sub s
  || match s with
     | EmptyString => false
     | String _ s' => contains s' sub
     end.

Section Handlers.
Context {pil ndarray : Type}.

(** [json.dumps(body, ensure_ascii=False, default=str)] *)
Variable json_dumps : Body -> string.

(** [base64.b64decode] *)
Variable b64decode : string -> result (list byte).

(** [s.lower()] *)
Variable lower : string -> string.

(** [extract_multipart_data], which rests on the [email] package: the
    bytes of the part named [image], if any, and the other parts. *)
Variable extract_multipart_data :
  Payload -> string -> result (option (list byte) * gmap string string).

(** The libraries behind [ImageProcessor] and [MultiFormatBarcodeScanner]. *)
Variable lib : ImageProcessor.ImageLib pil ndarray.
Variable PYZBAR_AVAILABLE ZXING_AVAILABLE : bool.
Variable pyzbar_decode : ndarray -> result (list (list byte)).
Variable decode_utf8 : list byte -> option string.
Variable time_time : nat -> float.

(** [int((time.time() - start_time) * 1000)] *)
Variable processing_time : Z.

Definition create_response (status_code : Z) (body : Body) (cors : bool)
  : Response :=
  let headers : gmap string string := ∅ in
  let headers := if cors then CORS_HEADERS ∪ headers else headers in
  let headers := <["Content-Type" := "application/json"]> headers in
  mkResponse status_code headers (json_dumps body).

Definition create_error_response
    (status_code : Z) (message : string) (error_code : option string)
    (details : option (gmap string string)) (cors : bool) : Response :=
  let code :=
    match error_code with
    | Some c =>
        if PyStr.truthy c then c
        else String.append "HTTP_" (pretty status_code)
    | None => String.append "HTTP_" (pretty status_code)
    end in
  let details :=
    match details with
    | Some d => if decide (d = ∅) then None else Some d
    | None => None
    end in
  create_response status_code (ErrorDict message code details) cors.

(** Lines 57 to 103 of [lambda_handler]: the image and the parameters have
    passed validation.  [save_scan_result] returns nothing and catches what
    it raises. *)
Definition scan_and_respond (image_data : list byte)
                            (params : gmap string string)
  : result Response :=
  match ImageProcessor.create_variants lib image_data with
  | Raise e => Raise e
  | Ok variants =>
      let scanner :=
        Pyzbar.stock_scanner PYZBAR_AVAILABLE pyzbar_decode decode_utf8
                             ZXING_AVAILABLE in
      let enable_ml :=
        String.eqb (lower (default "true" (params !! "enable_ml"))) "true" in
      let results :=
        scan_multiple_variants time_time scanner variants
          (params !! "provider_hint") (params !! "format_hint") enable_ml in
      match results with
      | [] =>
          Ok (create_error_response 404 "No barcode detected" None None true)
      | _ =>
          match select_best_result results with
          | None => Raise "'NoneType' object is not subscriptable"
          | Some best_result =>
              let provider := detect_provider (data best_result) in
              let parsed_data := parse (data best_result) provider in
              let response_data :=
                {| success := true;
                   barcode_data := data best_result;
                   detected_format := format best_result;
                   best_confidence := confidence best_result;
                   provider := provider;
                   parsed_data := parsed_data;
                   candidates := firstn 5 results;
                   processing_info :=
                     {| total_time_ms := processing_time;
                        preprocessing_variants := map variant_name variants;
                        engines_tried := list_to_set (map engine results);
                        ml_prediction_used :=
                          (1 <? List.length results)%nat && enable_ml |} |}
              in
              Ok (create_response 200 (DataDict response_data) true)
          end
      end
  end.

(** [body] once [if is_base64: body = base64.b64decode(body)] has run. *)
Definition request_body (event : Event) : result Payload :=
  if isBase64Encoded event then
    match b64decode (event_body event) with
    | Ok b => Ok (Bytes b)
    | Raise e => Raise e
    end
  else Ok (Text (event_body event)).

(** The [try] block of [lambda_handler]. *)
Definition handle (event : Event) : result Response :=
  if bool_decide (httpMethod event = Some "OPTIONS") then
    Ok (create_response 200 EmptyDict true)
  else
    match request_body event with
    | Raise e => Raise e
    | Ok body =>
        let content_type :=
          default "" (event_headers event !! "content-type") in
        if negb (contains content_type "multipart/form-data") then
          Ok (create_error_response
                400 "Content-Type must be multipart/form-data" None None true)
        else
          match extract_multipart_data body content_type with
          | Raise e => Raise e
          | Ok (image_data, params) =>
              match image_data with
              | None | Some [] =>
                  Ok (create_error_response 400 "No image data found"
                                            None None true)
              | Some image_data =>
                  match returned_error
                          (validate_image_file image_data MAX_FILE_SIZE) with
                  | Some validation_error =>
                      Ok (create_error_response 400 validation_error
                                                None None true)
                  | None =>
                      match returned_error (validate_scan_params params) with
                      | Some param_error =>
                          Ok (create_error_response 400 param_error
                                                    None None true)
                      | None => scan_and_respond image_data params
                      end
                  end
              end
          end
    end.

Definition lambda_handler (event : Event) : Response :=
  match handle event with
  | Ok response => response
  | Raise e =>
      create_error_response
        500 (String.append "Internal server error: " e) None None true
  end.

(** A request that is not a preflight, whose parts were extracted and whose
    image and parameters pass validation. *)
Definition accepted (event : Event) (image_data : list byte)
                    (params : gmap string string) : Prop :=
  httpMethod event <> Some "OPTIONS"
  /\ contains (default "" (event_headers event !! "content-type"))
              "multipart/form-data" = true
  /\ (exists body,
        request_body event = Ok body
        /\ extract_multipart_data
             body (default "" (event_headers event !! "content-type"))
           = Ok (Some image_data, params))
  /\ validate_image_file image_data MAX_FILE_SIZE = None
  /\ validate_scan_params params = None.

End Handlers.

End Handler.

(** ** Sample requests *)

Module Requests.
Import Handler.

(** The first bytes of a PNG file. *)
Definition sample_png : list byte :=
  [x89; x50; x4e; x47; x0d; x0a; x1a; x0a; x00; x00; x00; x0d].

(** The bytes of [EP1234567890]. *)
Definition sample_payload : list byte :=
  [x45; x50; x31; x32; x33; x34; x35; x36; x37; x38; x39; x30].

(** pyzbar finding two symbols, the second of which is not text. *)
Definition sample_pyzbar_decode (image : unit)
  : result (list (list byte)) :=
  Ok [sample_payload; [xff; xfe; x01]].

(** UTF-8 decoding of ASCII bytes; the samples hold no other text. *)
Definition sample_decode_utf8 (payload : list byte) : option string :=
  if forallb (fun b => (Byte.to_N b <? 128)%N) payload
  then Some (string_of_list_byte payload)
  else None.

(** A serialiser that keeps one field of the dictionary. *)
Definition sample_json_dumps (body : Body) : string :=
  match body with
  | EmptyDict => "{}"
  | ErrorDict message _ _ => message
  | DataDict response_data => barcode_data response_data
  end.

Definition sample_b64decode (s : string) : result (list byte) :=
  Raise "binascii.Error".

(** Lower-casing of the letters A to Z; the samples hold no other
    capital. *)
Definition sample_lower (s : string) : string :=
  string_of_list_ascii
    (map (fun a => if PyStr.between 65 90 (PyStr.code a)
                   then ascii_of_N (PyStr.code a + 32) else a)
         (list_ascii_of_string s)).

Definition sample_params : gmap string string :=
  {[ "provider_hint" := "eplus" ]}.

Definition sample_extract (body : Payload) (content_type : string)
  : result (option (list byte) * gmap string string) :=
  Ok (Some sample_png, sample_params).

Definition sample_event : Event :=
  mkEvent (Some "POST") "" false
          {[ "content-type" := "multipart/form-data; boundary=frontier" ]}.

(** The handler over the sample libraries, with an image library that can
    or cannot open the image. *)
Definition sample_handler (decodable : bool) : Event -> Response :=
  lambda_handler sample_json_dumps sample_b64decode sample_lower
    sample_extract (Samples.sample_lib decodable true) true true
    sample_pyzbar_decode sample_decode_utf8 Samples.sample_clock 12.

End Requests.

(** * Properties *)

(** ** Tables of ranges and characters of a string *)

Module PyStrFacts.
Import PyStr.

Lemma between_spec (lo hi c : N) :
  between lo hi c = true <-> (lo <= c <= hi)%N.
Proof. unfold between. rewrite andb_true_iff, !N.leb_le. done. Qed.

Lemma in_ranges_spec (table : list (N * N)) (c : N) :
  in_ranges table c = true
  <-> exists r, In r table /\ (fst r <= c <= snd r)%N.
Proof.
  unfold in_ranges. rewrite existsb_exists.
  split; intros (r & Hr & H); exists r; split; try done;
    by apply between_spec.
Qed.

Lemma tables_disjoint_sound (t1 t2 : list (N * N)) (c : N) :
  Rigid.tables_disjoint t1 t2 = true ->
  in_ranges t1 c = true -> in_ranges t2 c = false.
Proof.
  unfold Rigid.tables_disjoint. rewrite forallb_forall.
  intros H (r1 & Hr1 & Hc1)%in_ranges_spec.
  destruct (in_ranges t2 c) eqn:E; [|done].
  apply in_ranges_spec in E as (r2 & Hr2 & Hc2).
  specialize (H r1 Hr1). rewrite forallb_forall in H.
  specialize (H r2 Hr2).
  apply orb_prop in H as [H%N.ltb_lt|H%N.ltb_lt]; lia.
Qed.

Lemma table_within_sound (t1 t2 : list (N * N)) (c : N) :
  Rigid.table_within t1 t2 = true ->
  in_ranges t1 c = true -> in_ranges t2 c = true.
Proof.
  unfold Rigid.table_within. rewrite forallb_forall.
  intros H (r1 & Hr1 & Hc1)%in_ranges_spec.
  specialize (H r1 Hr1). apply existsb_exists in H as (r2 & Hr2 & H).
  apply andb_prop in H as [Hlo%N.leb_le Hhi%N.leb_le].
  apply in_ranges_spec. exists r2. split; [done|lia].
Qed.

Lemma tables_meet_at_sound (x : N) (t1 t2 : list (N * N)) (c : N) :
  Rigid.tables_meet_at x t1 t2 = true ->
  in_ranges t1 c = true -> in_ranges t2 c = true -> c = x.
Proof.
  unfold Rigid.tables_meet_at. rewrite forallb_forall.
  intros H (r1 & Hr1 & Hc1)%in_ranges_spec (r2 & Hr2 & Hc2)%in_ranges_spec.
  specialize (H r1 Hr1). rewrite forallb_forall in H.
  specialize (H r2 Hr2).
  apply orb_prop in H as [H|H].
  - apply orb_prop in H as [H%N.ltb_lt|H%N.ltb_lt]; lia.
  - apply andb_prop in H as [Hlo%N.eqb_eq Hhi%N.eqb_eq]. lia.
Qed.

(** The space is the one printable whitespace. *)
Lemma printable_space (c : N) :
  chr_isspace c = true -> chr_isprintable c = true -> c = 32%N.
Proof.
  apply tables_meet_at_sound. vm_compute. reflexivity.
Qed.

Lemma decimal_not_space (c : N) :
  chr_isdecimal c = true -> chr_isspace c = false.
Proof. apply tables_disjoint_sound. vm_compute. reflexivity. Qed.

Lemma decimal_isdigit (c : N) :
  chr_isdecimal c = true -> chr_isdigit c = true.
Proof. apply table_within_sound. vm_compute. reflexivity. Qed.

(** The decimal digits below U+0080 are the digits 0 to 9. *)
Lemma decimal_ascii (c : N) :
  (c < 128)%N -> chr_isdecimal c = Spec.is_ascii_digit c.
Proof.
  intros Hc. unfold chr_isdecimal, decimal_ranges.
  cbn [in_ranges existsb fst snd]. fold (Spec.is_ascii_digit c).
  destruct (Spec.is_ascii_digit c); [done|]. cbn [orb].
  repeat match goal with
  | |- context [between ?lo ?hi c] =>
      replace (between lo hi c) with false
        by (symmetry; unfold between; apply andb_false_iff; left;
            apply N.leb_gt; lia)
  end.
  reflexivity.
Qed.

Lemma ascii_digit_decimal (c : N) :
  Spec.is_ascii_digit c = true -> chr_isdecimal c = true.
Proof.
  intros H. unfold chr_isdecimal, decimal_ranges.
  cbn [in_ranges existsb fst snd]. fold (Spec.is_ascii_digit c).
  by rewrite H.
Qed.

(** *** Characters *)

Lemma extra_ascii (b : N) : (b <? 128)%N = true -> extra b = 0%nat.
Proof.
  intros H%N.ltb_lt. unfold extra, between.
  repeat match goal with
  | |- context [(?lo <=? b)%N] =>
      replace (lo <=? b)%N with false by (symmetry; apply N.leb_gt; lia)
  end.
  reflexivity.
Qed.

(** A byte below 128 is a character by itself. *)
Lemma units_ascii (a : ascii) (s : string) :
  (code a <? 128)%N = true ->
  units (String a s) = (String a EmptyString, code a) :: units s.
Proof.
  intros H. unfold units. cbn [scan]. rewrite (extra_ascii _ H).
  cbn [code_point]. by rewrite H.
Qed.

Lemma chars_ascii (a : ascii) (s : string) :
  (code a <? 128)%N = true -> chars (String a s) = code a :: chars s.
Proof. intros H. unfold chars. by rewrite units_ascii. Qed.

(** The characters of a string written in ASCII are its bytes. *)
Lemma chars_of_ascii (l : list ascii) :
  forallb (fun a => (code a <? 128)%N) l = true ->
  chars (string_of_list_ascii l) = map code l.
Proof.
  induction l as [|a l IH]; [done|]. cbn [forallb].
  intros [Ha Hl]%andb_prop. cbn [string_of_list_ascii map].
  by rewrite chars_ascii, IH.
Qed.

Lemma string_app_cons (x : ascii) (a b : string) :
  String.append (String x a) b = String x (String.append a b).
Proof. reflexivity. Qed.

Lemma string_app_assoc (a b c : string) :
  String.append (String.append a b) c = String.append a (String.append b c).
Proof.
  induction a as [|x a IH]; [done|]. by rewrite !string_app_cons, IH.
Qed.

Lemma string_of_list_app (l1 l2 : list ascii) :
  string_of_list_ascii (l1 ++ l2)
  = String.append (string_of_list_ascii l1) (string_of_list_ascii l2).
Proof.
  induction l1 as [|x l1 IH]; [done|].
  cbn [app string_of_list_ascii]. by rewrite string_app_cons, IH.
Qed.

Lemma string_app_nil (a : string) : String.append a EmptyString = a.
Proof.
  induction a as [|x a IH]; [done|]. by rewrite string_app_cons, IH.
Qed.

Lemma text_cons (u : string * N) (us : list (string * N)) :
  text (u :: us) = String.append (fst u) (text us).
Proof. reflexivity. Qed.

(** The bytes of the characters, put together, are the string. *)
Lemma text_scan (s : string) (pending : list ascii) (need : nat) :
  (need = 0%nat -> pending = []) ->
  text (scan s pending need)
  = String.append (string_of_list_ascii pending) s.
Proof.
  revert pending need. induction s as [|a s IH]; intros pending need Hp.
  - cbn [scan]. rewrite string_app_nil.
    destruct pending as [|p pending]; [done|].
    rewrite text_cons. cbn [fst text fold_right]. apply string_app_nil.
  - cbn [scan]. destruct need as [|n].
    + rewrite (Hp eq_refl). cbn [string_of_list_ascii String.append].
      destruct (extra (code a)) as [|k].
      * rewrite text_cons, (IH [] 0%nat) by done. reflexivity.
      * by rewrite (IH [a] (S k)).
    + assert (String.append (string_of_list_ascii pending) (String a s)
              = String.append (string_of_list_ascii (pending ++ [a])) s)
        as ->.
      { by rewrite string_of_list_app, string_app_assoc. }
      destruct n as [|n].
      * rewrite text_cons, (IH [] 0%nat) by done. reflexivity.
      * by rewrite (IH (pending ++ [a]) (S n)).
Qed.

Lemma text_units (s : string) : text (units s) = s.
Proof. unfold units. by rewrite text_scan. Qed.

Lemma scan_nonempty (s : string) (pending : list ascii) (need : nat) :
  s <> EmptyString \/ pending <> [] -> scan s pending need <> [].
Proof.
  revert pending need. induction s as [|a s IH]; intros pending need H.
  - destruct H as [H|H]; [done|]. cbn [scan]. by destruct pending.
  - destruct need as [|[|n]]; cbn [scan].
    + destruct (extra (code a)); [done|]. apply IH. by right.
    + done.
    + apply IH. right. by destruct pending.
Qed.

Lemma units_nil (s : string) : units s = [] <-> s = EmptyString.
Proof.
  split; [|by intros ->]. destruct s as [|a s]; [done|].
  intros H. apply scan_nonempty in H; [done|by left].
Qed.

Lemma truthy_nonempty (s : string) :
  truthy s = negb (len s =? 0)%nat.
Proof.
  destruct s as [|a s]; [done|]. cbn [truthy]. unfold len, chars.
  rewrite length_map.
  destruct (units (String a s)) eqn:E; [by apply units_nil in E|done].
Qed.

(** A character written on several bytes, or on bytes that encode
    nothing, has no code below 128. *)
Lemma code_point_several (bs : list N) :
  (2 <= List.length bs)%nat -> (128 <= code_point bs)%N.
Proof.
  destruct bs as [|b0 [|b1 [|b2 [|b3 [|b4 bs]]]]]; cbn [List.length];
    try lia; intros _; unfold code_point, no_char; try lia.
  - destruct (between 192 223 b0 && continues b1) ; cbn [andb]; [|lia].
    destruct (N.leb_spec 128 ((b0 - 192) * 64 + (b1 - 128))); lia.
  - destruct (between 224 239 b0 && continues b1 && continues b2);
      cbn [andb]; [|lia].
    destruct (N.leb_spec 2048
                ((b0 - 224) * 4096 + (b1 - 128) * 64 + (b2 - 128))); lia.
  - destruct (between 240 247 b0 && continues b1 && continues b2
              && continues b3); cbn [andb]; [|lia].
    destruct (N.leb_spec 65536
                ((b0 - 240) * 262144 + (b1 - 128) * 4096 + (b2 - 128) * 64
                 + (b3 - 128))); cbn [andb]; [|lia].
    destruct (N.ltb_spec
                ((b0 - 240) * 262144 + (b1 - 128) * 4096 + (b2 - 128) * 64
                 + (b3 - 128)) 1114112); lia.
Qed.

(** The first character read once some bytes are pending. *)
Lemma scan_pending_head (s : string) (pending : list ascii) (n : nat) :
  pending <> [] ->
  exists u us, scan s pending (S n) = u :: us /\ (128 <= snd u)%N.
Proof.
  revert pending n. induction s as [|a s IH]; intros pending n Hp.
  - cbn. destruct pending; [done|]. eexists _, _. split; [done|].
    cbn. unfold no_char. lia.
  - cbn [scan]. destruct n as [|n].
    + eexists _, _. split; [done|]. cbn [snd].
      apply code_point_several. rewrite length_map, length_app. cbn.
      destruct pending; [done|]. cbn. lia.
    + apply IH. by destruct pending.
Qed.

(** A string whose first character has a code below 128 starts with the
    byte of that code. *)
Lemma units_head_ascii (s : string) (u : string * N)
                       (us : list (string * N)) :
  units s = u :: us -> (snd u < 128)%N ->
  exists s', s = String (ascii_of_N (snd u)) s' /\ units s' = us.
Proof.
  destruct s as [|a s]; [done|]. unfold units. cbn [scan].
  destruct (extra (code a)) as [|k] eqn:E.
  - intros [= <- <-]. cbn [snd code_point].
    destruct (N.ltb_spec (code a) 128) as [Ha|Ha];
      [|unfold no_char; lia].
    intros _. exists s. split; [|done]. unfold code.
    by rewrite ascii_N_embedding.
  - intros H Hu. destruct (scan_pending_head s [a] k) as (v & vs & Hv & Hge);
      [done|].
    rewrite Hv in H. injection H as <- <-. lia.
Qed.

Lemma chars_head_ascii (s : string) (c : N) (cs : list N) :
  chars s = c :: cs -> (c < 128)%N ->
  exists s', s = String (ascii_of_N c) s' /\ chars s' = cs.
Proof.
  unfold chars. destruct (units s) as [|u us] eqn:E; [done|].
  cbn [map]. intros [= <- <-] Hc.
  destruct (units_head_ascii s u us E Hc) as (s' & -> & <-). by exists s'.
Qed.

(** *** Characters that are their own encoding *)

(** A character of a string: its bytes, and the code point they encode or,
    for bytes cut short by the end of the string, none. *)
Lemma scan_units (s : string) (pending : list ascii) (need : nat)
                 (u : string * N) :
  In u (scan s pending need) ->
  exists bs, fst u = string_of_list_ascii bs
             /\ (snd u = code_point (map code bs) \/ snd u = no_char).
Proof.
  revert pending need. induction s as [|a s IH]; intros pending need.
  - cbn [scan]. destruct pending as [|p pending]; [done|].
    intros [<-|[]]. exists (p :: pending). split; [done|by right].
  - cbn [scan]. destruct need as [|[|n]].
    + destruct (extra (code a)); [|apply IH].
      intros [<-|H]; [|by apply (IH [] 0%nat)].
      exists [a]. split; [done|by left].
    + intros [<-|H]; [|by apply (IH [] 0%nat)].
      exists (pending ++ [a]). split; [done|by left].
    + apply IH.
Qed.

Lemma extra_lead (b : N) :
  (between 192 223 b = true -> extra b = 1%nat)
  /\ (between 224 239 b = true -> extra b = 2%nat)
  /\ (between 240 247 b = true -> extra b = 3%nat).
Proof.
  unfold extra. repeat split; intros H.
  - by rewrite H.
  - apply between_spec in H.
    destruct (between 192 223 b) eqn:E1; [apply between_spec in E1; lia|].
    destruct (between 224 239 b) eqn:E2; [done|].
    rewrite <- not_true_iff_false, between_spec in E2. lia.
  - apply between_spec in H.
    destruct (between 192 223 b) eqn:E1; [apply between_spec in E1; lia|].
    destruct (between 224 239 b) eqn:E2; [apply between_spec in E2; lia|].
    destruct (between 240 247 b) eqn:E3; [done|].
    rewrite <- not_true_iff_false, between_spec in E3. lia.
Qed.

(** The first of the bytes that encode a code point tells their number. *)
Lemma code_point_lead (bs : list N) :
  (code_point bs < no_char)%N ->
  match bs with
  | [b0] => (b0 <? 128)%N = true
  | [b0; _] => between 192 223 b0 = true
  | [b0; _; _] => between 224 239 b0 = true
  | [b0; _; _; _] => between 240 247 b0 = true
  | _ => False
  end.
Proof.
  destruct bs as [|b0 [|b1 [|b2 [|b3 [|b4 bs]]]]]; unfold code_point;
    try apply N.lt_irrefl.
  - destruct (b0 <? 128)%N; [done|]. intros H. by apply N.lt_irrefl in H.
  - destruct (between 192 223 b0); [done|].
    intros H. by apply N.lt_irrefl in H.
  - destruct (between 224 239 b0); [done|].
    intros H. by apply N.lt_irrefl in H.
  - destruct (between 240 247 b0); [done|].
    intros H. by apply N.lt_irrefl in H.
Qed.

(** Bytes that encode a code point are read as one character, whatever
    follows them. *)
Lemma units_encoded (bs : list ascii) (rest : string) :
  (code_point (map code bs) < no_char)%N ->
  units (String.append (string_of_list_ascii bs) rest)
  = (string_of_list_ascii bs, code_point (map code bs)) :: units rest.
Proof.
  intros H%code_point_lead.
  destruct bs as [|a0 [|a1 [|a2 [|a3 [|a4 bs]]]]]; cbn [map] in H;
    try done; unfold units; cbn [string_of_list_ascii];
    rewrite !string_app_cons; cbn [scan].
  - by rewrite (extra_ascii _ H).
  - by rewrite (proj1 (extra_lead _) H).
  - by rewrite (proj1 (proj2 (extra_lead _)) H).
  - by rewrite (proj2 (proj2 (extra_lead _)) H).
Qed.

(** Characters of a string that stand for code points, put together, are
    read again as the same characters. *)
Lemma units_text (s : string) (us : list (string * N)) (rest : string) :
  (forall u, In u us -> In u (units s) /\ (snd u < no_char)%N) ->
  units (String.append (text us) rest) = us ++ units rest.
Proof.
  induction us as [|u us IH]; intros H; [done|].
  destruct (H u (or_introl eq_refl)) as [Hu Hlt].
  apply scan_units in Hu as (bs & Hbytes & [Hcode|Hcode]); [|lia].
  rewrite text_cons, string_app_assoc, Hbytes.
  rewrite units_encoded by by rewrite <- Hcode.
  rewrite <- Hcode, <- Hbytes, <- surjective_pairing. cbn [app]. f_equal.
  apply IH. intros v Hv. apply H. by right.
Qed.

Lemma chars_text (s : string) (us : list (string * N)) :
  (forall u, In u us -> In u (units s) /\ (snd u < no_char)%N) ->
  chars (text us) = map snd us.
Proof.
  intros H. unfold chars.
  rewrite <- (string_app_nil (text us)), (units_text s us EmptyString H).
  cbn [units scan]. by rewrite app_nil_r.
Qed.

(** The decimal digits are code points. *)
Lemma decimal_code_point (c : N) :
  chr_isdecimal c = true -> (c < no_char)%N.
Proof.
  intros (r & Hr & Hc)%in_ranges_spec.
  assert (forallb (fun r => (snd r <? no_char)%N) decimal_ranges = true)
    as Hall by (vm_compute; reflexivity).
  rewrite forallb_forall in Hall. specialize (Hall r Hr).
  apply N.ltb_lt in Hall. lia.
Qed.

End PyStrFacts.

(** ** ProviderParser *)

Module ProviderParserFacts.
Import ProviderParser.

Lemma detect_provider_empty : detect_provider "" = None.
Proof. reflexivity. Qed.

Lemma parse_empty (provider : option string) : parse "" provider = ∅.
Proof. reflexivity. Qed.

(** The two fields [_parse_ticket_pia] adds, whatever the data. *)
Lemma ticket_pia_fields (data : string) :
  (_parse_ticket_pia data !! "prefix",
   _parse_ticket_pia data !! "ticket_number")
  = if PyStr.startswith data "640032"
    then (Some (VStr "640032"), Some (VStr (PyStr.slice_from 6 data)))
    else (Some (VStr "64"), Some (VStr (PyStr.slice_from 2 data))).
Proof.
  unfold _parse_ticket_pia.
  destruct (PyStr.startswith data "640032"); by simplify_map_eq.
Qed.

(** A supplied provider [ticket_pia] is dispatched to [_parse_ticket_pia]. *)
Lemma parse_dispatch_ticket_pia (data : string) :
  PyStr.truthy data = true ->
  parse data (Some "ticket_pia") = _parse_ticket_pia data.
Proof. intros H. unfold parse. by rewrite H. Qed.

(** C7. [detect_provider "6412345678901"] is [ticket_pia]; [parse] of the
    same string has [prefix = "64"] and [ticket_number = "12345678901"];
    and for every data the ticket_pia rule gives [prefix = "640032"],
    [ticket_number = data[6:]] when the data starts with "640032", and
    [prefix = "64"], [ticket_number = data[2:]] otherwise. *)
Theorem ticket_pia_detect_and_parse :
  detect_provider "6412345678901" = Some "ticket_pia"
  /\ parse "6412345678901" None !! "prefix" = Some (VStr "64")
  /\ parse "6412345678901" None !! "ticket_number"
     = Some (VStr "12345678901")
  /\ forall data : string,
       (_parse_ticket_pia data !! "prefix",
        _parse_ticket_pia data !! "ticket_number")
       = if PyStr.startswith data "640032"
         then (Some (VStr "640032"), Some (VStr (PyStr.slice_from 6 data)))
         else (Some (VStr "64"), Some (VStr (PyStr.slice_from 2 data))).
Proof.
  split; [vm_compute; reflexivity|].
  split; [vm_compute; reflexivity|].
  split; [vm_compute; reflexivity|].
  apply ticket_pia_fields.
Qed.

(** C9. Whatever the provider argument, [parse] of the empty string is the
    empty mapping: it holds no key at all, not even [provider],
    [provider_name] or [raw_data]; and [detect_provider] of the empty
    string is [None]. *)
Theorem parse_and_detect_on_empty_string :
  (forall provider : option string, parse "" provider = ∅)
  /\ (forall (provider : option string) (key : string),
        parse "" provider !! key = None)
  /\ detect_provider "" = None.
Proof.
  split; [apply parse_empty|].
  split; [|apply detect_provider_empty].
  intros provider key. rewrite parse_empty. apply lookup_empty.
Qed.

(** The other two examples of section 8. *)
Example parse_eplus_autodetected :
  detect_provider "EP1234567890" = Some "eplus"
  /\ parse "EP1234567890" None !! "ticket_number" = Some (VStr "1234567890").
Proof. split; vm_compute; reflexivity. Qed.

Example parse_generic_parts :
  detect_provider "ABC 123 456" = None
  /\ parse "ABC 123 456" None !! "parts" = Some (VList ["ABC"; "123"; "456"])
  /\ parse "ABC 123 456" None !! "part_count" = Some (VInt 3)
  /\ parse "ABC 123 456" None !! "has_spaces" = Some (VBool true)
  /\ parse "ABC 123 456" None !! "is_numeric" = Some (VBool false).
Proof. repeat split; vm_compute; reflexivity. Qed.

End ProviderParserFacts.

(** ** The matcher *)

Module ReFacts.
Import Re.

Lemma existsb_pointwise {A : Type} (f g : A -> bool) (l : list A) :
  (forall x, f x = g x) -> existsb f l = existsb g l.
Proof.
  intros H. induction l as [|x l IH]; simpl; [done|]. by rewrite H, IH.
Qed.

Lemma forallb_pointwise {A : Type} (f g : A -> bool) (l : list A) :
  (forall x, f x = g x) -> forallb f l = forallb g l.
Proof.
  intros H. induction l as [|x l IH]; simpl; [done|]. by rewrite H, IH.
Qed.

Lemma forallb_skipn {A : Type} (f : A -> bool) (k : nat) (l : list A) :
  forallb f l = true -> forallb f (skipn k l) = true.
Proof.
  revert l. induction k as [|k IH]; intros [|x l]; simpl; try done.
  intros [_ H]%andb_prop. by apply IH.
Qed.

(** [take_class] in closed form. *)
Lemma take_class_eq (cls : cclass) (k : nat) (s : list N) :
  take_class cls k s
  = if (k <=? List.length s)%nat && forallb (class_matches cls) (firstn k s)
    then Some (skipn k s) else None.
Proof.
  revert s. induction k as [|k IH]; intros s; [done|].
  destruct s as [|c s]; [done|]. cbn [take_class].
  rewrite IH. cbn [List.length firstn skipn forallb].
  change (S k <=? S (List.length s))%nat with (k <=? List.length s)%nat.
  destruct (class_matches cls c); [|by rewrite andb_false_r].
  by rewrite andb_true_l.
Qed.

(** One piece, then the rest of the pattern on the rest of the subject. *)
Lemma match_pieces_cons (p : piece) (ps : list piece) (s : list N) :
  match_pieces (p :: ps) s
  = existsb (fun k => (k <=? List.length s)%nat
                      && forallb (class_matches (p_class p)) (firstn k s)
                      && match_pieces ps (skipn k s))
            (counts p (List.length s)).
Proof.
  cbn [match_pieces]. apply existsb_pointwise. intros k.
  rewrite take_class_eq.
  by destruct ((k <=? List.length s)%nat
               && forallb (class_matches (p_class p)) (firstn k s)).
Qed.

(** A printable subject has no newline for [$] to step over. *)
Lemma at_end_printable (s : list N) :
  forallb PyStr.chr_isprintable s = true ->
  at_end s = match s with [] => true | _ => false end.
Proof.
  destruct s as [|c [|c' s]]; try done. cbn [forallb at_end]. intros H.
  destruct (N.eqb_spec c 10) as [->|]; [|done]. by vm_compute in H.
Qed.

(** The last piece of a pattern, on a printable subject. *)
Lemma match_last_piece (cls : cclass) (lo hi : nat) (s : list N) :
  forallb PyStr.chr_isprintable s = true ->
  match_pieces [Piece cls lo (Some hi)] s
  = Spec.within lo hi (List.length s) && forallb (class_matches cls) s.
Proof.
  intros Hp. rewrite match_pieces_cons. cbn [p_class counts p_max p_min].
  apply eq_true_iff_eq. rewrite existsb_exists. unfold Spec.within. split.
  - intros (k & Hk%in_seq & H).
    apply andb_prop in H as [[Hle%Nat.leb_le Hall]%andb_prop Hend].
    cbn [match_pieces] in Hend.
    rewrite at_end_printable in Hend by by apply forallb_skipn.
    assert (k = List.length s) as ->.
    { destruct (skipn k s) eqn:E; [|done].
      apply (f_equal (@List.length _)) in E. rewrite length_skipn in E.
      simpl in E. lia. }
    rewrite firstn_all in Hall. rewrite Hall, andb_true_r.
    apply andb_true_intro; split; apply Nat.leb_le; lia.
  - intros [[Hlo%Nat.leb_le Hhi%Nat.leb_le]%andb_prop Hall]%andb_prop.
    exists (List.length s). split; [apply in_seq; lia|].
    rewrite firstn_all, Hall, skipn_all, Nat.leb_refl. done.
Qed.

(** A piece repeated exactly [k] times. *)
Lemma match_pieces_exactly (cls : cclass) (k : nat) (ps : list piece)
                           (s : list N) :
  match_pieces (Piece cls k (Some k) :: ps) s
  = (k <=? List.length s)%nat
    && forallb (class_matches cls) (firstn k s)
    && match_pieces ps (skipn k s).
Proof.
  rewrite match_pieces_cons. cbn [p_class counts p_max p_min].
  replace (S k - k)%nat with 1%nat by lia. cbn [seq existsb].
  by rewrite orb_false_r.
Qed.

(** A single character of a class at position [k]. *)
Lemma one_char_at (f : N -> bool) (k : nat) (s : list N) :
  (1 <=? List.length (skipn k s))%nat && forallb f (firstn 1 (skipn k s))
  = match nth_error s k with Some c => f c | None => false end.
Proof.
  revert s. induction k as [|k IH]; intros [|c s]; try done.
  - cbn. by rewrite andb_true_r.
  - apply IH.
Qed.

End ReFacts.

(** ** Validation of raw decode strings *)

Module ValidateFacts.
Import Re ReFacts Scanner.

Lemma class_digit (c : N) :
  class_matches [CDigit] c = PyStr.chr_isdecimal c.
Proof. apply orb_false_r. Qed.

Lemma class_space (c : N) :
  class_matches [CSpace] c = PyStr.chr_isspace c.
Proof. apply orb_false_r. Qed.

Lemma class_upper (c : N) :
  class_matches [CRange "A" "Z"] c = Spec.is_upper c.
Proof. apply orb_false_r. Qed.

Lemma class_alnum_hyphen (c : N) :
  class_matches [CRange "A" "Z"; CRange "0" "9"; CChar "-"] c
  = Spec.is_upper c || Spec.is_ascii_digit c || Spec.is_hyphen c.
Proof.
  unfold class_matches. cbn [existsb citem_matches].
  rewrite orb_false_r, orb_assoc. f_equal. apply N.eqb_sym.
Qed.

Lemma compile_digits :
  compile "^\d{6,20}$" = Some [Piece [CDigit] 6 (Some 20)].
Proof. reflexivity. Qed.

Lemma compile_letters_digits :
  compile "^[A-Z]{2}\d{8,15}$"
  = Some [Piece [CRange "A" "Z"] 2 (Some 2); Piece [CDigit] 8 (Some 15)].
Proof. reflexivity. Qed.

Lemma compile_digits_space_digits :
  compile "^\d{2,3}\s\d{3,15}$"
  = Some [Piece [CDigit] 2 (Some 3); Piece [CSpace] 1 (Some 1);
          Piece [CDigit] 3 (Some 15)].
Proof. reflexivity. Qed.

Lemma compile_alnum_hyphen :
  compile "^[A-Z0-9\-]{6,25}$"
  = Some [Piece [CRange "A" "Z"; CRange "0" "9"; CChar "-"] 6 (Some 25)].
Proof. reflexivity. Qed.

Section Printable.
Variable cs : list N.
Hypothesis printable : forallb PyStr.chr_isprintable cs = true.

Lemma pattern_digits :
  match_pieces [Piece [CDigit] 6 (Some 20)] cs
  = Spec.pure_digits PyStr.chr_isdecimal cs.
Proof using printable.
  rewrite match_last_piece by done. unfold Spec.pure_digits.
  f_equal. apply forallb_pointwise, class_digit.
Qed.

Lemma pattern_letters_digits :
  match_pieces [Piece [CRange "A" "Z"] 2 (Some 2); Piece [CDigit] 8 (Some 15)]
               cs
  = Spec.letters_then_digits PyStr.chr_isdecimal cs.
Proof using printable.
  rewrite match_pieces_exactly, match_last_piece by by apply forallb_skipn.
  unfold Spec.letters_then_digits.
  rewrite (forallb_pointwise _ _ (firstn 2 cs) class_upper).
  rewrite (forallb_pointwise _ _ (skipn 2 cs) class_digit).
  by rewrite !andb_assoc.
Qed.

Lemma tail_digits_space_digits (k : nat) :
  (k <=? List.length cs)%nat
  && forallb (class_matches [CDigit]) (firstn k cs)
  && match_pieces [Piece [CSpace] 1 (Some 1); Piece [CDigit] 3 (Some 15)]
                  (skipn k cs)
  = Spec.digits_space_digits PyStr.chr_isdecimal k cs.
Proof using printable.
  rewrite match_pieces_exactly, match_last_piece
    by by do 2 apply forallb_skipn.
  rewrite one_char_at, skipn_skipn. unfold Spec.digits_space_digits.
  replace (1 + k)%nat with (S k) by lia.
  rewrite (forallb_pointwise _ _ (firstn k cs) class_digit).
  rewrite (forallb_pointwise _ _ (skipn (S k) cs) class_digit).
  destruct (nth_error cs k) as [c|]; [rewrite class_space|];
    by rewrite !andb_assoc.
Qed.

Lemma pattern_digits_space_digits :
  match_pieces [Piece [CDigit] 2 (Some 3); Piece [CSpace] 1 (Some 1);
                Piece [CDigit] 3 (Some 15)] cs
  = Spec.digits_space_digits PyStr.chr_isdecimal 2 cs
    || Spec.digits_space_digits PyStr.chr_isdecimal 3 cs.
Proof using printable.
  rewrite match_pieces_cons.
  cbn [p_class counts p_max p_min Nat.sub seq existsb].
  by rewrite !tail_digits_space_digits, orb_false_r.
Qed.

Lemma pattern_alnum_hyphen :
  match_pieces [Piece [CRange "A" "Z"; CRange "0" "9"; CChar "-"] 6 (Some 25)]
               cs
  = Spec.alnum_hyphen cs.
Proof using printable.
  rewrite match_last_piece by done. unfold Spec.alnum_hyphen.
  f_equal. apply forallb_pointwise, class_alnum_hyphen.
Qed.

End Printable.

(** The four generic patterns say what the specification says. *)
Lemma generic_patterns_spec (data : string) :
  PyStr.isprintable data = true ->
  any_match generic_patterns data
  = Spec.generic_structure PyStr.chr_isdecimal data.
Proof.
  intros Hp. unfold any_match, generic_patterns, Spec.generic_structure.
  cbn [existsb]. unfold re_match.
  rewrite compile_digits, compile_letters_digits,
    compile_digits_space_digits, compile_alnum_hyphen.
  rewrite pattern_digits, pattern_letters_digits,
    pattern_digits_space_digits, pattern_alnum_hyphen by done.
  by rewrite orb_false_r, !orb_assoc.
Qed.

(** The dictionary inside [_validate_provider_pattern] holds the patterns of
    [PROVIDERS], and nothing for any other id. *)
Lemma provider_patterns_registered (provider : string) :
  default [] (provider_patterns !! provider)
  = Spec.registered Constants.PROVIDERS provider.
Proof.
  unfold Spec.registered, Constants.PROVIDERS.
  repeat match goal with
  | |- context [String.eqb ?id provider] =>
      destruct (String.eqb_spec id provider) as [<-|]; [reflexivity|]
  end.
  unfold provider_patterns. cbn [list_to_map foldr uncurry fst snd].
  by rewrite !lookup_insert_ne, lookup_empty.
Qed.

Lemma short_or_empty (data : string) :
  negb (PyStr.truthy data) || (PyStr.len data <? 3)%nat
  = negb (3 <=? PyStr.len data)%nat.
Proof.
  destruct data as [|c data]; [reflexivity|]. cbn [PyStr.truthy negb orb].
  rewrite Nat.ltb_antisym. done.
Qed.

(** C6, as the code has it.  [_validate_result] accepts a raw decode
    string exactly when the string has at least 3 characters, is
    printable, and, with no provider hint or an empty one, has one of the
    four generic structures (6-20 digits; two letters A-Z then 8-15 digits;
    two or three digits, one whitespace, 3-15 digits; 6-25 characters among
    A-Z, 0-9 and the hyphen) or, with a non-empty provider hint, matches
    one of the patterns registered for that provider.  A digit of the first
    three structures is a decimal digit of any script, as [\d] has it, not
    only 0 to 9. *)
Theorem validate_result_spec (data : string) (provider_hint : option string) :
  _validate_result data provider_hint
  = Spec.validate PyStr.chr_isdecimal data provider_hint.
Proof.
  unfold _validate_result, Spec.validate. rewrite short_or_empty.
  destruct (3 <=? PyStr.len data)%nat; [|reflexivity]. cbn [negb andb].
  destruct (PyStr.isprintable data) eqn:Hp; [|reflexivity]. cbn [negb].
  unfold _validate_provider_pattern, Spec.matches_registered, any_match.
  destruct provider_hint as [provider|].
  - destruct (PyStr.truthy provider).
    + by rewrite provider_patterns_registered.
    + by apply generic_patterns_spec.
  - by apply generic_patterns_spec.
Qed.

End ValidateFacts.

(** ** The format guess *)

Module FormatFacts.
Import Re ReFacts Scanner.

Lemma compile_symbol_class :
  compile "^[A-Z0-9\-\.\s\$\/\+%]+$"
  = Some [Piece [CRange "A" "Z"; CRange "0" "9"; CChar "-"; CChar ".";
                 CSpace; CChar "$"; CChar "/"; CChar "+"; CChar "%"]
                1 None].
Proof. reflexivity. Qed.

Lemma class_symbol (c : N) :
  class_matches [CRange "A" "Z"; CRange "0" "9"; CChar "-"; CChar ".";
                 CSpace; CChar "$"; CChar "/"; CChar "+"; CChar "%"] c
  = Spec.in_symbol_class c.
Proof.
  unfold class_matches, Spec.in_symbol_class.
  change (PyStr.chars "-.$/+%") with [45; 46; 36; 47; 43; 37]%N.
  cbn [existsb citem_matches].
  change (PyStr.between (PyStr.code "A") (PyStr.code "Z") c)
    with (Spec.is_upper c).
  change (PyStr.between (PyStr.code "0") (PyStr.code "9") c)
    with (Spec.is_ascii_digit c).
  change (PyStr.code "-") with 45%N. change (PyStr.code ".") with 46%N.
  change (PyStr.code "$") with 36%N. change (PyStr.code "/") with 47%N.
  change (PyStr.code "+") with 43%N. change (PyStr.code "%") with 37%N.
  rewrite !(N.eqb_sym c).
  destruct (Spec.is_upper c), (Spec.is_ascii_digit c), (PyStr.chr_isspace c),
    (45 =? c)%N, (46 =? c)%N, (36 =? c)%N, (47 =? c)%N, (43 =? c)%N,
    (37 =? c)%N; reflexivity.
Qed.

Lemma at_end_cases (s : list N) :
  at_end s = true -> s = [] \/ s = [10%N].
Proof.
  destruct s as [|c [|c' s]]; cbn [at_end]; try done; [by left|].
  intros ->%N.eqb_eq. by right.
Qed.

(** [cls+] up to [$], for a class that holds the newline: the subject is
    not empty and lies in the class. *)
Lemma match_one_or_more (cls : cclass) (s : list N) :
  class_matches cls 10 = true ->
  match_pieces [Piece cls 1 None] s
  = negb (List.length s =? 0)%nat && forallb (class_matches cls) s.
Proof.
  intros Hnl. rewrite match_pieces_cons. cbn [p_class counts p_max p_min].
  apply eq_true_iff_eq. rewrite existsb_exists. split.
  - intros (k & Hk%in_seq & H).
    apply andb_prop in H as [[Hle%Nat.leb_le Hall]%andb_prop Hend].
    cbn [match_pieces] in Hend. apply at_end_cases in Hend.
    apply andb_true_intro; split.
    { apply negb_true_iff, Nat.eqb_neq. lia. }
    rewrite <- (firstn_skipn k s), forallb_app, Hall.
    destruct Hend as [-> | ->]; [done|]. cbn. by rewrite Hnl.
  - intros [Hne%negb_true_iff%Nat.eqb_neq Hall]%andb_prop.
    exists (List.length s). split; [apply in_seq; lia|].
    by rewrite firstn_all, Hall, skipn_all, Nat.leb_refl.
Qed.

Lemma symbol_pattern (data : string) :
  re_match "^[A-Z0-9\-\.\s\$\/\+%]+$" data
  = negb (PyStr.len data =? 0)%nat
    && forallb Spec.in_symbol_class (PyStr.chars data).
Proof.
  unfold re_match. rewrite compile_symbol_class.
  rewrite match_one_or_more by reflexivity.
  f_equal. apply forallb_pointwise, class_symbol.
Qed.

Lemma truthy_len (data : string) :
  PyStr.truthy data = negb (PyStr.len data =? 0)%nat.
Proof. apply PyStrFacts.truthy_nonempty. Qed.

(** The code's guess is the specification's, branch for branch. *)
Lemma detect_format_label (data : string) :
  _detect_format data = Spec.label (Spec.detect_format data).
Proof.
  unfold _detect_format, Spec.detect_format, PyStr.isdigit.
  rewrite symbol_pattern, truthy_len. unfold PyStr.len.
  repeat match goal with
  | |- context [if ?b then _ else _] => destruct b
  end; reflexivity.
Qed.

Lemma ascii_digit_isdigit (cs : list N) :
  forallb Spec.is_ascii_digit cs = true -> forallb PyStr.chr_isdigit cs = true.
Proof.
  induction cs as [|c cs IH]; [done|]. cbn [forallb].
  intros [Hc Hcs]%andb_prop. rewrite IH by done.
  by rewrite PyStrFacts.decimal_isdigit
    by by apply PyStrFacts.ascii_digit_decimal.
Qed.

(** C8. The format guess of "4901234567894" is the specification's
    "checksummed-13" (the string 'EAN13' in the code); so is the guess of
    every string of exactly 13 digits; and for every string the guess is the
    one the stated branch order gives: 13 digits, "checksummed-13"; else
    inside the uppercase-alphanumeric-plus-symbol class, "compact-alnum" up
    to length 43 and "linear-128" beyond; else all digits of even length,
    "interleaved"; else "linear-128". *)
Theorem detect_format_spec :
  _detect_format "4901234567894" = Spec.label Spec.checksummed_13
  /\ (forall data : string,
        PyStr.len data = 13%nat ->
        forallb Spec.is_ascii_digit (PyStr.chars data) = true ->
        _detect_format data = Spec.label Spec.checksummed_13)
  /\ (forall data : string,
        _detect_format data = Spec.label (Spec.detect_format data)).
Proof.
  split; [reflexivity|]. split; [|apply detect_format_label].
  intros data Hlen Hdigits. rewrite detect_format_label.
  unfold Spec.detect_format. unfold PyStr.len in Hlen.
  by rewrite Hlen, (ascii_digit_isdigit _ Hdigits).
Qed.

Lemma detect_format_spec_witness :
  _detect_format "0123456789012" = "EAN13".
Proof.
  exact (proj1 (proj2 detect_format_spec) "0123456789012" eq_refl eq_refl).
Defined.

End FormatFacts.

(** ** Confidence scores *)

Module ScoreFacts.
Import Scanner Scores.

Lemma engine_weight_in (engine : string) :
  In (default 0.1%float (engine_weights !! engine)) engine_weight_values.
Proof.
  unfold engine_weights, engine_weight_values.
  cbn [list_to_map foldr uncurry fst snd].
  destruct (decide (engine = "pyzbar")) as [->|]; [by left|].
  destruct (decide (engine = "zxing")) as [->|]; [by right; left|].
  destruct (decide (engine = "opencv")) as [->|]; [by right; right; left|].
  rewrite !lookup_insert_ne, lookup_empty by done. by right; right; left.
Qed.

Lemma variant_weight_in (variant : string) :
  In (default 0.05%float (variant_weights !! variant)) variant_weight_values.
Proof.
  unfold variant_weights, variant_weight_values.
  cbn [list_to_map foldr uncurry fst snd].
  destruct (decide (variant = "standard")) as [->|]; [by left|].
  destruct (decide (variant = "high_contrast")) as [->|]; [by right; left|].
  destruct (decide (variant = "edge_enhanced")) as [->|];
    [by right; right; left|].
  rewrite !lookup_insert_ne, lookup_empty by done.
  by right; right; right; left.
Qed.

Lemma score_in (ew vw : float) (provider_match quality : bool) :
  In ew engine_weight_values -> In vw variant_weight_values ->
  In (score ew vw provider_match quality) values.
Proof.
  intros Hew Hvw. unfold values.
  apply in_flat_map. exists ew. split; [done|].
  apply in_flat_map. exists vw. split; [done|].
  apply in_flat_map. exists provider_match.
  split; [destruct provider_match; cbn; tauto|].
  apply in_map. destruct quality; cbn; tauto.
Qed.

(** Every score [_calculate_confidence] returns is one of [values]. *)
Lemma calculate_confidence_in (data variant engine : string)
                              (provider_hint : option string) :
  In (_calculate_confidence data variant engine provider_hint) values.
Proof.
  unfold _calculate_confidence.
  pose proof (engine_weight_in engine) as Hew.
  pose proof (variant_weight_in variant) as Hvw.
  set (q := PyStr.isdigit data || Re.re_match "^[A-Z0-9\s]+$" data).
  destruct provider_hint as [provider|].
  - set (b := PyStr.truthy provider
              && _validate_provider_pattern data provider).
    by apply (score_in _ _ b q).
  - by apply (score_in _ _ false q).
Qed.

Lemma values_well_ordered : well_ordered values = true.
Proof. vm_compute. reflexivity. Qed.

Lemma values_in_unit_interval : forallb in_unit_interval values = true.
Proof. vm_compute. reflexivity. Qed.

Lemma in_unit_interval_of_values (x : float) :
  In x values -> PrimFloat.leb 0.0 x = true /\ PrimFloat.leb x 1.0 = true.
Proof.
  intros Hx. pose proof values_in_unit_interval as H.
  rewrite forallb_forall in H. by apply andb_prop, H.
Qed.

Section Order.
Variables x y : float.
Hypothesis Hx : In x values.
Hypothesis Hy : In y values.

Lemma pairwise_facts :
  implb (PrimFloat.ltb x y) (negb (PrimFloat.ltb y x))
  && implb (negb (PrimFloat.ltb x y)) (PrimFloat.leb y x)
  && implb (PrimFloat.eqb x y) (negb (PrimFloat.ltb y x))
  && forallb (fun z =>
       implb (negb (PrimFloat.ltb x y) && negb (PrimFloat.ltb y z))
             (negb (PrimFloat.ltb x z)))
     values = true.
Proof using Hx Hy.
  pose proof values_well_ordered as H. unfold well_ordered in H.
  rewrite forallb_forall in H. specialize (H x Hx).
  rewrite forallb_forall in H. exact (H y Hy).
Qed.

Lemma ltb_asym : PrimFloat.ltb x y = true -> PrimFloat.ltb y x = false.
Proof using Hx Hy.
  pose proof pairwise_facts as [H _]%andb_prop. intros E. rewrite E in H.
  by destruct (PrimFloat.ltb y x).
Qed.

Lemma not_ltb_leb : PrimFloat.ltb x y = false -> PrimFloat.leb y x = true.
Proof using Hx Hy.
  pose proof pairwise_facts as [H _]%andb_prop. intros E. rewrite E in H.
  by destruct (PrimFloat.leb y x).
Qed.

Lemma eqb_not_ltb : PrimFloat.eqb x y = true -> PrimFloat.ltb y x = false.
Proof using Hx Hy.
  pose proof pairwise_facts as [[_ H]%andb_prop _]%andb_prop.
  intros E. rewrite E in H. by destruct (PrimFloat.ltb y x).
Qed.

Lemma not_ltb_trans (z : float) :
  In z values ->
  PrimFloat.ltb x y = false -> PrimFloat.ltb y z = false ->
  PrimFloat.ltb x z = false.
Proof using Hx Hy.
  pose proof pairwise_facts as H. intros Hz E1 E2.
  apply andb_prop in H as [_ H]. rewrite forallb_forall in H.
  specialize (H z Hz). rewrite E1, E2 in H. cbn in H.
  by destruct (PrimFloat.ltb x z).
Qed.

End Order.

End ScoreFacts.

(** ** The stable sort *)

Module SortFacts.

Section Elements.
Context {A : Type} (before : A -> A -> bool).

Lemma Forall_insert (P : A -> Prop) (x : A) (l : list A) :
  Forall P (insert before x l) <-> P x /\ Forall P l.
Proof.
  induction l as [|y l IH]; cbn [insert].
  - by rewrite !Forall_cons.
  - destruct (before y x).
    + rewrite !Forall_cons, IH. tauto.
    + by rewrite !Forall_cons.
Qed.

Lemma Forall_py_sorted (P : A -> Prop) (l : list A) :
  Forall P (py_sorted before l) <-> Forall P l.
Proof.
  induction l as [|x l IH]; [done|]. cbn [py_sorted fold_right].
  fold (py_sorted before l). by rewrite Forall_insert, Forall_cons, IH.
Qed.

Lemma insert_Permutation (x : A) (l : list A) : insert before x l ≡ₚ x :: l.
Proof.
  induction l as [|y l IH]; cbn [insert]; [done|].
  destruct (before y x); [|done]. rewrite IH. apply perm_swap.
Qed.

(** The sorted list holds the elements of the input, each as often. *)
Lemma py_sorted_Permutation (l : list A) : py_sorted before l ≡ₚ l.
Proof.
  induction l as [|x l IH]; [done|]. cbn [py_sorted fold_right].
  fold (py_sorted before l). by rewrite insert_Permutation, IH.
Qed.

End Elements.

Section Stable.
Context {A : Type} (before : A -> A -> bool).
Context (good : A -> Prop) (T : A -> A -> Prop).

Hypothesis asym :
  forall x y, good x -> good y -> before x y = true -> before y x = false.
Hypothesis neg_trans :
  forall x y z, good x -> good y -> good z ->
    before x y = false -> before y z = false -> before x z = false.

Lemma insert_ranked (x : A) (l : list A) :
  good x -> Forall good l -> Forall (T x) l ->
  StronglySorted (ranked before T) l ->
  StronglySorted (ranked before T) (insert before x l).
Proof using asym neg_trans.
  intros Hx Hl HT Hs. induction Hs as [|y l Hs IH Hy]; cbn [insert].
  - repeat constructor.
  - apply Forall_cons in Hl as [Hgy Hl]. apply Forall_cons in HT as [HTy HT].
    destruct (before y x) eqn:E.
    + constructor; [by apply IH|]. apply Forall_insert. split; [|done].
      split; [by apply asym|]. by rewrite E.
    + constructor; [by constructor|]. constructor; [by split|].
      rewrite Forall_forall in Hy, Hl, HT. apply Forall_forall.
      intros z Hz. split; [|intros _; by apply HT].
      apply (neg_trans z y x); try done; [by apply Hl|by apply Hy].
Qed.

(** Sorting a list whose elements already stand in the order [T] yields a
    list ranked by [before], ties standing in the order [T]. *)
Lemma py_sorted_ranked (l : list A) :
  Forall good l -> StronglySorted T l ->
  StronglySorted (ranked before T) (py_sorted before l).
Proof using asym neg_trans.
  intros Hl Hs. induction Hs as [|x l Hs IH Hx]; [constructor|].
  apply Forall_cons in Hl as [Hgx Hl].
  cbn [py_sorted fold_right]. fold (py_sorted before l).
  apply insert_ranked; [done|by apply Forall_py_sorted..|by apply IH].
Qed.

End Stable.

(** A strongly sorted list relates the elements at any two increasing
    positions. *)
Lemma StronglySorted_lookup {A : Type} (R : A -> A -> Prop) (l : list A)
                            (i j : nat) (a b : A) :
  StronglySorted R l -> (i < j)%nat ->
  l !! i = Some a -> l !! j = Some b -> R a b.
Proof.
  intros Hs. revert i j. induction Hs as [|x l Hs IH Hx]; intros i j Hij Hi Hj.
  - done.
  - destruct j as [|j]; [lia|]. destruct i as [|i]; cbn in Hi, Hj.
    + injection Hi as ->. rewrite Forall_forall in Hx. apply Hx.
      by eapply list_elem_of_lookup_2.
    + apply (IH i j); [lia|done..].
Qed.

End SortFacts.

(** ** Deduplication *)

Module DedupFacts.
Import Scanner.

Lemma seen_before (earlier : list Candidate) (d : string) :
  existsb (fun c => String.eqb (data c) d) earlier = true
  <-> d ∈ data <$> earlier.
Proof.
  rewrite existsb_exists, list_elem_of_fmap. split.
  - intros (c & Hc%list_elem_of_In & E%String.eqb_eq). by exists c.
  - intros (c & -> & Hc%list_elem_of_In). exists c. by rewrite String.eqb_refl.
Qed.

(** The loop with its [seen] set computes what the specification words:
    keep a candidate when no earlier one has its [data]. *)
Lemma remove_loop_keep_first (results : list Candidate) (seen : gset string)
                             (unique_results earlier : list Candidate) :
  (forall d, d ∈ seen <-> d ∈ data <$> earlier) ->
  remove_loop results seen unique_results
  = unique_results ++ Spec.keep_first earlier results.
Proof.
  revert seen unique_results earlier.
  induction results as [|r rest IH]; intros seen unique_results earlier Hseen.
  - cbn. by rewrite app_nil_r.
  - cbn [remove_loop Spec.keep_first].
    destruct (decide (data r ∈ seen)) as [Hin|Hnin].
    + assert (existsb (fun c => String.eqb (data c) (data r)) earlier = true)
        as -> by by apply seen_before, Hseen.
      apply IH. intros d. rewrite Hseen, fmap_app, elem_of_app. cbn.
      rewrite list_elem_of_singleton. split; [tauto|].
      intros [H| ->]; [done|]. by apply Hseen.
    + assert (existsb (fun c => String.eqb (data c) (data r)) earlier = false)
        as ->.
      { apply not_true_is_false. rewrite seen_before, <- Hseen. done. }
      rewrite (IH _ _ (earlier ++ [r])).
      * by rewrite <- app_assoc.
      * intros d. rewrite elem_of_union, elem_of_singleton, Hseen, fmap_app,
          elem_of_app. cbn. rewrite list_elem_of_singleton. tauto.
Qed.

Lemma remove_duplicates_keep_first (results : list Candidate) :
  _remove_duplicates results = Spec.keep_first [] results.
Proof.
  unfold _remove_duplicates.
  rewrite (remove_loop_keep_first _ _ _ []); [done|].
  intros d. cbn. rewrite elem_of_empty, elem_of_nil. done.
Qed.

(** [sequence_index] finds the first candidate with the given [data]. *)
Lemma sequence_index_least (l : list Candidate) (j : nat) (c : Candidate) :
  l !! j = Some c -> (Spec.sequence_index l (data c) <= j)%nat.
Proof.
  revert j. induction l as [|r l IH]; intros j Hj; [done|].
  cbn [Spec.sequence_index]. destruct (String.eqb_spec (data r) (data c)).
  - lia.
  - destruct j as [|j]; cbn in Hj; [congruence|].
    specialize (IH j Hj). lia.
Qed.

Lemma sequence_index_skip (earlier l : list Candidate) (d : string) :
  d ∉ data <$> earlier ->
  Spec.sequence_index (earlier ++ l) d
  = (List.length earlier + Spec.sequence_index l d)%nat.
Proof.
  induction earlier as [|r earlier IH]; intros Hd; [done|].
  cbn [app Spec.sequence_index List.length].
  rewrite fmap_cons, not_elem_of_cons in Hd. destruct Hd as [Hr Hd].
  destruct (String.eqb_spec (data r) d); [congruence|].
  rewrite IH by done. lia.
Qed.

Lemma sequence_index_here (earlier rest : list Candidate) (r : Candidate) :
  data r ∉ data <$> earlier ->
  Spec.sequence_index (earlier ++ r :: rest) (data r) = List.length earlier.
Proof.
  intros Hr. rewrite sequence_index_skip by done. cbn.
  rewrite String.eqb_refl. lia.
Qed.

Section KeepFirst.

(** The position at which the [data] of [c] was first generated. *)
Let index (all_results : list Candidate) (c : Candidate) : nat :=
  Spec.sequence_index all_results (data c).

(** What is kept stands in [results], after [earlier], where its [data]
    first occurs. *)
Lemma keep_first_origin (earlier results : list Candidate) :
  Forall (fun k =>
            (earlier ++ results) !! index (earlier ++ results) k = Some k
            /\ (List.length earlier <= index (earlier ++ results) k)%nat)
         (Spec.keep_first earlier results).
Proof.
  revert earlier. induction results as [|r rest IH]; intros earlier.
  - constructor.
  - cbn [Spec.keep_first]. specialize (IH (earlier ++ [r])).
    rewrite <- app_assoc in IH. cbn [app] in IH.
    assert (Forall (fun k =>
              (earlier ++ r :: rest) !! index (earlier ++ r :: rest) k = Some k
              /\ (List.length earlier <= index (earlier ++ r :: rest) k)%nat)
              (Spec.keep_first (earlier ++ [r]) rest)) as IH'.
    { eapply Forall_impl; [exact IH|]. cbn. intros k [H1 H2].
      split; [done|]. rewrite length_app in H2. cbn in H2. lia. }
    destruct (existsb _ earlier) eqn:E; [done|].
    constructor; [|done].
    assert (data r ∉ data <$> earlier) as Hr.
    { rewrite <- seen_before. by rewrite E. }
    unfold index. rewrite sequence_index_here by done.
    split; [|lia]. by rewrite list_lookup_middle.
Qed.

(** What is kept stands in the order of generation. *)
Lemma keep_first_increasing (earlier results : list Candidate) :
  StronglySorted (fun a b => (index (earlier ++ results) a
                              < index (earlier ++ results) b)%nat)
                 (Spec.keep_first earlier results).
Proof.
  revert earlier. induction results as [|r rest IH]; intros earlier.
  - constructor.
  - cbn [Spec.keep_first]. pose proof (keep_first_origin (earlier ++ [r]) rest)
      as Ho. specialize (IH (earlier ++ [r])).
    rewrite <- app_assoc in IH, Ho. cbn [app] in IH, Ho.
    destruct (existsb _ earlier) eqn:E; [done|].
    constructor; [done|].
    assert (data r ∉ data <$> earlier) as Hr.
    { rewrite <- seen_before. by rewrite E. }
    eapply Forall_impl; [exact Ho|]. cbn. intros k [_ Hk].
    unfold index at 1. rewrite sequence_index_here by done.
    rewrite length_app in Hk. cbn in Hk. lia.
Qed.

(** Every [data] value of [results] not seen earlier is kept. *)
Lemma keep_first_covers (earlier results : list Candidate) (c : Candidate) :
  c ∈ results ->
  data c ∈ data <$> earlier
  \/ exists k, k ∈ Spec.keep_first earlier results /\ data k = data c.
Proof.
  revert earlier. induction results as [|r rest IH]; intros earlier Hc.
  - by apply elem_of_nil in Hc.
  - cbn [Spec.keep_first]. apply elem_of_cons in Hc as [->|Hc].
    + destruct (existsb _ earlier) eqn:E.
      * left. by apply seen_before.
      * right. exists r. split; [by left|done].
    + destruct (IH (earlier ++ [r]) Hc) as [Hin|(k & Hk & Hd)].
      * rewrite fmap_app, elem_of_app in Hin. cbn in Hin.
        rewrite list_elem_of_singleton in Hin. destruct Hin as [Hin|Hin].
        { by left. }
        destruct (existsb _ earlier) eqn:E.
        { left. rewrite Hin. by apply seen_before. }
        right. exists r. split; [by left|done].
      * right. exists k. split; [|done].
        destruct (existsb _ earlier); [done|by right].
Qed.

(** No two kept candidates share their [data]. *)
Lemma keep_first_NoDup (earlier results : list Candidate) :
  NoDup (data <$> Spec.keep_first earlier results).
Proof.
  pose proof (keep_first_increasing earlier results) as Hs.
  induction Hs as [|k l Hs IH Hk]; [constructor|].
  rewrite fmap_cons. constructor; [|done].
  rewrite list_elem_of_fmap. intros (k' & Hd & Hk').
  rewrite Forall_forall in Hk. specialize (Hk k' Hk').
  unfold index in Hk. rewrite Hd in Hk. lia.
Qed.

End KeepFirst.

(** A kept candidate stands in the argument where its [data] first occurs. *)
Lemma kept_is_earliest (results : list Candidate)
                                           (k : Candidate) :
  k ∈ _remove_duplicates results ->
  results !! Spec.sequence_index results (data k) = Some k
  /\ forall j c, results !! j = Some c -> data c = data k ->
       (Spec.sequence_index results (data k) <= j)%nat.
Proof.
  rewrite remove_duplicates_keep_first. intros Hk.
  pose proof (keep_first_origin [] results) as Ho.
  rewrite Forall_forall in Ho. destruct (Ho k Hk) as [H _]. cbn in H.
  split; [done|]. intros j c Hj <-. by apply sequence_index_least.
Qed.

Lemma remove_duplicates_increasing (results : list Candidate) :
  StronglySorted (fun a b => (Spec.sequence_index results (data a)
                              < Spec.sequence_index results (data b))%nat)
                 (_remove_duplicates results).
Proof.
  rewrite remove_duplicates_keep_first.
  exact (keep_first_increasing [] results).
Qed.

(** C3. [_remove_duplicates] keeps, for each distinct [data] value of its
    argument, exactly one candidate, the one generated first: the result is
    the list of the candidates that no earlier candidate equals in [data];
    no two of its candidates share their [data]; every [data] value of the
    argument is still there; and each kept candidate stands in the argument
    at the smallest position that holds its [data]. *)
Theorem remove_duplicates_keeps_earliest (results : list Candidate) :
  _remove_duplicates results = Spec.keep_first [] results
  /\ NoDup (data <$> _remove_duplicates results)
  /\ (forall c, c ∈ results ->
        exists k, k ∈ _remove_duplicates results /\ data k = data c)
  /\ (forall k, k ∈ _remove_duplicates results ->
        results !! Spec.sequence_index results (data k) = Some k
        /\ forall j c, results !! j = Some c -> data c = data k ->
             (Spec.sequence_index results (data k) <= j)%nat).
Proof.
  rewrite remove_duplicates_keep_first. split; [done|].
  split; [apply keep_first_NoDup|]. split.
  - intros c Hc. destruct (keep_first_covers [] results c Hc) as [H|H]; [|done].
    cbn in H. by apply elem_of_nil in H.
  - intros k Hk. apply kept_is_earliest.
    by rewrite remove_duplicates_keep_first.
Qed.

End DedupFacts.

(** ** scan_multiple_variants *)

Module ScanFacts.
Import Scanner Scores.

Section Loops.
Context {ndarray : Type} (time_time : nat -> float).

Lemma results_loop_scored (results : list string) (variant_name : string)
    (engine_name : string) (provider_hint : option string)
    (all_results : list Candidate) :
  Forall (scored provider_hint) all_results ->
  Forall (scored provider_hint)
         (results_loop time_time results variant_name engine_name
                       provider_hint all_results).
Proof.
  revert all_results. induction results as [|r rest IH]; intros acc Hacc.
  - done.
  - cbn [results_loop]. destruct (_validate_result r provider_hint).
    + apply IH. apply Forall_app. split; [done|]. by repeat constructor.
    + by apply IH.
Qed.

Lemma engines_loop_scored (es : list (Engine ndarray)) (image : ndarray)
    (variant_name : string) (provider_hint format_hint : option string)
    (all_results : list Candidate) :
  Forall (scored provider_hint) all_results ->
  Forall (scored provider_hint)
         (engines_loop time_time es image variant_name provider_hint
                       format_hint all_results).
Proof.
  revert all_results. induction es as [|e rest IH]; intros acc Hacc.
  - done.
  - cbn [engines_loop].
    destruct (match format_hint with Some _ => _ | None => _ end).
    + by apply IH.
    + destruct (engine_function e image format_hint).
      * by apply IH, results_loop_scored.
      * by apply IH.
Qed.

Lemma variants_loop_scored (self : Self) (variants : list (Variant ndarray))
    (provider_hint format_hint : option string)
    (all_results : list Candidate) :
  Forall (scored provider_hint) all_results ->
  Forall (scored provider_hint)
         (variants_loop time_time self variants provider_hint format_hint
                        all_results).
Proof.
  revert all_results. induction variants as [|v rest IH]; intros acc Hacc.
  - done.
  - cbn [variants_loop]. by apply IH, engines_loop_scored.
Qed.

(** What [scan_multiple_variants] returns, with the re-ranking step, which
    changes nothing, taken out. *)
Lemma scan_multiple_variants_eq (self : Self)
    (variants : list (Variant ndarray))
    (provider_hint format_hint : option string) (enable_ml : bool) :
  scan_multiple_variants time_time self variants provider_hint format_hint
                         enable_ml
  = py_sorted by_confidence_desc
      (_remove_duplicates
         (variants_loop time_time self variants provider_hint format_hint [])).
Proof.
  unfold scan_multiple_variants, _apply_ml_ranking.
  by destruct (enable_ml && _ && _).
Qed.

End Loops.

Lemma remove_duplicates_subseteq (results : list Candidate) :
  _remove_duplicates results ⊆ results.
Proof.
  intros k Hk.
  destruct (DedupFacts.kept_is_earliest results k Hk)
    as [H _].
  by eapply list_elem_of_lookup_2.
Qed.

Lemma scored_in_values (provider_hint : option string) (c : Candidate) :
  scored provider_hint c -> In (confidence c) values.
Proof. intros ->. apply ScoreFacts.calculate_confidence_in. Qed.

Section Scan.
Context {ndarray : Type} (time_time : nat -> float).
Context (self : Self (ndarray := ndarray)).
Context (variants : list (Variant ndarray)).
Context (provider_hint format_hint : option string) (enable_ml : bool).

Let all_results : list Candidate :=
  variants_loop time_time self variants provider_hint format_hint [].

Let returned : list Candidate :=
  scan_multiple_variants time_time self variants provider_hint format_hint
                         enable_ml.

Lemma all_results_scored : Forall (scored provider_hint) all_results.
Proof. by apply variants_loop_scored. Qed.

Lemma returned_scored : Forall (scored provider_hint) returned.
Proof.
  unfold returned. rewrite scan_multiple_variants_eq.
  apply SortFacts.Forall_py_sorted. apply Forall_forall. intros c Hc.
  apply remove_duplicates_subseteq in Hc.
  pose proof all_results_scored as H. rewrite Forall_forall in H. by apply H.
Qed.

(** The returned list is ranked: by confidence, and among equal confidences
    by the position of first generation. *)
Lemma returned_ranked :
  StronglySorted
    (ranked by_confidence_desc
       (fun a b => (Spec.sequence_index all_results (data a)
                    < Spec.sequence_index all_results (data b))%nat))
    returned.
Proof.
  unfold returned. rewrite scan_multiple_variants_eq.
  apply (SortFacts.py_sorted_ranked _
           (fun c => In (confidence c) values)).
  - intros x y Hx Hy. unfold by_confidence_desc.
    by apply ScoreFacts.ltb_asym.
  - intros x y z Hx Hy Hz. unfold by_confidence_desc. intros H1 H2.
    by apply (ScoreFacts.not_ltb_trans _ (confidence y)).
  - apply Forall_forall. intros c Hc.
    apply remove_duplicates_subseteq in Hc.
    pose proof all_results_scored as H. rewrite Forall_forall in H.
    by eapply scored_in_values, H.
  - apply DedupFacts.remove_duplicates_increasing.
Qed.

End Scan.

(** C1. The score [_calculate_confidence] returns lies between 0.0 and 1.0
    whatever its arguments; and every candidate [scan_multiple_variants]
    returns, for any variants, engines and hints, carries the score
    [_calculate_confidence] gives for it, hence a confidence between 0.0
    and 1.0. *)
Theorem confidence_in_unit_interval :
  (forall (data variant engine : string) (provider_hint : option string),
     PrimFloat.leb 0.0
       (_calculate_confidence data variant engine provider_hint) = true
     /\ PrimFloat.leb
          (_calculate_confidence data variant engine provider_hint) 1.0
        = true)
  /\ (forall (ndarray : Type) (time_time : nat -> float)
             (self : Self (ndarray := ndarray))
             (variants : list (Variant ndarray))
             (provider_hint format_hint : option string) (enable_ml : bool)
             (c : Candidate),
        c ∈ scan_multiple_variants time_time self variants provider_hint
                                   format_hint enable_ml ->
        confidence c
        = _calculate_confidence (data c) (variant c) (engine c) provider_hint
        /\ PrimFloat.leb 0.0 (confidence c) = true
        /\ PrimFloat.leb (confidence c) 1.0 = true).
Proof.
  split.
  - intros. apply ScoreFacts.in_unit_interval_of_values,
      ScoreFacts.calculate_confidence_in.
  - intros ndarray time_time self variants provider_hint format_hint enable_ml
      c Hc.
    pose proof (returned_scored time_time self variants provider_hint
                  format_hint enable_ml) as H.
    rewrite Forall_forall in H. specialize (H c Hc). split; [exact H|].
    by eapply ScoreFacts.in_unit_interval_of_values, scored_in_values.
Qed.

(** C2. In the list [scan_multiple_variants] returns, a candidate never has
    a smaller confidence than one that follows it, and of two candidates
    with equal confidence the one that comes first was generated first:
    each stands in the list of generated results at the first position
    holding its [data], and these positions increase. *)
Theorem returned_sorted_by_confidence_stable
    (ndarray : Type) (time_time : nat -> float)
    (self : Self (ndarray := ndarray)) (variants : list (Variant ndarray))
    (provider_hint format_hint : option string) (enable_ml : bool)
    (i j : nat) (a b : Candidate) :
  let all_results :=
    variants_loop time_time self variants provider_hint format_hint [] in
  let returned :=
    scan_multiple_variants time_time self variants provider_hint format_hint
                           enable_ml in
  (i < j)%nat -> returned !! i = Some a -> returned !! j = Some b ->
  PrimFloat.leb (confidence b) (confidence a) = true
  /\ all_results !! Spec.sequence_index all_results (data a) = Some a
  /\ all_results !! Spec.sequence_index all_results (data b) = Some b
  /\ (PrimFloat.eqb (confidence a) (confidence b) = true ->
      (Spec.sequence_index all_results (data a)
       < Spec.sequence_index all_results (data b))%nat).
Proof.
  intros all_results returned Hij Ha Hb.
  pose proof (returned_ranked time_time self variants provider_hint
                format_hint enable_ml) as Hs.
  destruct (SortFacts.StronglySorted_lookup _ _ i j a b Hs Hij Ha Hb)
    as [Hba Htie].
  pose proof (returned_scored time_time self variants provider_hint
                format_hint enable_ml) as Hsc.
  rewrite Forall_forall in Hsc.
  assert (a ∈ returned) as Hina by by eapply list_elem_of_lookup_2.
  assert (b ∈ returned) as Hinb by by eapply list_elem_of_lookup_2.
  pose proof (scored_in_values _ _ (Hsc a Hina)) as Hva.
  pose proof (scored_in_values _ _ (Hsc b Hinb)) as Hvb.
  unfold by_confidence_desc in Hba, Htie.
  assert (forall c, c ∈ returned ->
            all_results !! Spec.sequence_index all_results (data c) = Some c)
    as Hpos.
  { intros c Hc. unfold returned in Hc.
    rewrite scan_multiple_variants_eq in Hc.
    rewrite (SortFacts.py_sorted_Permutation by_confidence_desc) in Hc.
    by apply DedupFacts.kept_is_earliest. }
  split; [by apply ScoreFacts.not_ltb_leb|].
  split; [by apply Hpos|]. split; [by apply Hpos|].
  intros Heq. apply Htie. by apply ScoreFacts.eqb_not_ltb.
Qed.

Lemma registered_unknown (provider : string) :
  ~ In provider (map fst Constants.PROVIDERS) ->
  Spec.registered Constants.PROVIDERS provider = [].
Proof.
  intros Hp. induction Constants.PROVIDERS as [|[id info] rest IH]; [done|].
  cbn [Spec.registered]. cbn in Hp.
  destruct (String.eqb_spec id provider); [tauto|]. apply IH. tauto.
Qed.

(** No string passes validation against a provider that is not registered. *)
Lemma validate_result_unknown (data provider : string) :
  PyStr.truthy provider = true ->
  ~ In provider (map fst Constants.PROVIDERS) ->
  _validate_result data (Some provider) = false.
Proof.
  intros Ht Hp. unfold _validate_result. rewrite Ht.
  unfold _validate_provider_pattern.
  rewrite ValidateFacts.provider_patterns_registered.
  rewrite registered_unknown by done.
  cbn. by repeat match goal with |- context [if ?b then _ else _] =>
                                   destruct b end.
Qed.

Section Unknown.
Context {ndarray : Type} (time_time : nat -> float) (provider : string).
Hypothesis given : PyStr.truthy provider = true.
Hypothesis unknown : ~ In provider (map fst Constants.PROVIDERS).

Lemma results_loop_unknown (results : list string)
    (variant_name engine_name : string) (all_results : list Candidate) :
  results_loop time_time results variant_name engine_name (Some provider)
               all_results
  = all_results.
Proof using given unknown.
  induction results as [|r rest IH]; [done|]. cbn [results_loop].
  by rewrite validate_result_unknown.
Qed.

Lemma engines_loop_unknown (es : list (Engine ndarray)) (image : ndarray)
    (variant_name : string) (format_hint : option string)
    (all_results : list Candidate) :
  engines_loop time_time es image variant_name (Some provider) format_hint
               all_results
  = all_results.
Proof using given unknown.
  induction es as [|e rest IH]; [done|]. cbn [engines_loop].
  destruct (match format_hint with Some _ => _ | None => _ end); [done|].
  destruct (engine_function e image format_hint); [|done].
  by rewrite results_loop_unknown.
Qed.

Lemma variants_loop_unknown (self : Self)
    (variants : list (Variant ndarray)) (format_hint : option string)
    (all_results : list Candidate) :
  variants_loop time_time self variants (Some provider) format_hint
                all_results
  = all_results.
Proof using given unknown.
  induction variants as [|v rest IH]; [done|]. cbn [variants_loop].
  by rewrite engines_loop_unknown.
Qed.

End Unknown.

(** C10, as the code has it.  With a provider hint that is given (a
    non-empty string) and is not one of the registered provider ids,
    validation rejects every raw decode string, and
    [scan_multiple_variants] returns the empty list whatever the variants,
    the engines and the other arguments. *)
Theorem unknown_provider_hint_no_candidates
    (ndarray : Type) (time_time : nat -> float)
    (self : Self (ndarray := ndarray)) (variants : list (Variant ndarray))
    (provider : string) (format_hint : option string) (enable_ml : bool) :
  PyStr.truthy provider = true ->
  ~ In provider (map fst Constants.PROVIDERS) ->
  (forall data : string, _validate_result data (Some provider) = false)
  /\ scan_multiple_variants time_time self variants (Some provider)
                            format_hint enable_ml = [].
Proof.
  intros Ht Hp. split; [intros data; by apply validate_result_unknown|].
  rewrite scan_multiple_variants_eq, variants_loop_unknown by done.
  reflexivity.
Qed.

(** An empty provider hint is no hint. *)
Lemma empty_provider_hint
    (ndarray : Type) (time_time : nat -> float)
    (self : Self (ndarray := ndarray)) (variants : list (Variant ndarray))
    (format_hint : option string) (enable_ml : bool) :
  scan_multiple_variants time_time self variants (Some "") format_hint
                         enable_ml
  = scan_multiple_variants time_time self variants None format_hint
                           enable_ml.
Proof.
  rewrite !scan_multiple_variants_eq. do 2 f_equal.
  generalize (@nil Candidate) as acc.
  induction variants as [|v rest IH]; intros acc; [done|].
  cbn [variants_loop]. rewrite <- IH. f_equal.
  generalize (engines self) as es. clear IH. revert acc.
  intros acc es. revert acc. induction es as [|e es IH]; intros acc; [done|].
  cbn [engines_loop].
  destruct (match format_hint with Some _ => _ | None => _ end); [done|].
  destruct (engine_function e (variant_image v) format_hint) as [rs|]; [|done].
  rewrite <- IH. f_equal. clear IH. revert acc.
  induction rs as [|r rs IH]; intros acc; [done|]. cbn [results_loop].
  change (_validate_result r (Some "")) with (_validate_result r None).
  change (_calculate_confidence r (variant_name v) (engine_name e) (Some ""))
    with (_calculate_confidence r (variant_name v) (engine_name e) None).
  by destruct (_validate_result r None).
Qed.

End ScanFacts.

(** ** create_variants *)

Module ImageFacts.
Import ImageProcessor Transforms.

Section Facts.
Context {pil ndarray : Type} (lib : ImageLib pil ndarray).

Lemma add_variant_eq (t : pil -> result pil) (pil_image : pil)
    (name description : string) (variants : list (Variant ndarray)) :
  add_variant lib t pil_image name description variants
  = match bind (t pil_image) (_pil_to_cv2 lib) with
    | Ok image => (variants ++ [mkVariant name image description], Ok tt)
    | Raise e => (variants, Raise e)
    end.
Proof.
  unfold add_variant, andthen, call, append, bind.
  destruct (t pil_image) as [p|]; [|done].
  by destruct (_pil_to_cv2 lib p).
Qed.

(** The [try] block is the base image followed by the table of transforms. *)
Lemma try_block_eq (image_data : list byte)
                   (variants : list (Variant ndarray)) :
  try_block lib image_data variants
  = match base lib image_data with
    | Ok (pil_image, image) =>
        run lib (enhancements lib) pil_image
            (variants ++ [mkVariant "standard" image
                            "Original image with basic preprocessing"])
    | Raise e => (variants, Raise e)
    end.
Proof.
  unfold try_block, base. unfold andthen at 1 2 3. unfold call, bind.
  destruct (Image_open lib image_data) as [p0|]; [|done].
  destruct (_resize_image lib p0) as [p|]; [|done].
  destruct (_pil_to_cv2 lib p) as [image|]; [|done].
  unfold andthen at 1. unfold append at 1.
  cbn [run enhancements t_apply t_name t_description].
  unfold andthen. rewrite !add_variant_eq.
  repeat match goal with
  | |- context [match bind ?a ?b with _ => _ end] =>
      destruct (bind a b); try rewrite !add_variant_eq; try reflexivity
  end.
Qed.

Lemma except_block_eq (image_data : list byte)
                      (variants : list (Variant ndarray)) :
  except_block lib image_data variants
  = match base lib image_data with
    | Ok (_, image) =>
        (variants ++ [mkVariant "standard" image "Original image (fallback)"],
         Ok tt)
    | Raise _ => (variants, Ok tt)
    end.
Proof.
  unfold except_block, base, andthen, call, append, bind.
  destruct (Image_open lib image_data) as [p0|]; [|done].
  destruct (_resize_image lib p0) as [p|]; [|done].
  by destruct (_pil_to_cv2 lib p).
Qed.

(** The transforms run up to the first that raises, and leave the variants
    of those before it. *)
Lemma run_until_failure (done_ts : list (transform pil))
    (failing : transform pil)
    (rest : list (transform pil)) (images : list ndarray) (e : string)
    (pil_image : pil) (variants : list (Variant ndarray)) :
  Forall2 (fun t image => enhanced lib t pil_image = Ok image)
          done_ts images ->
  enhanced lib failing pil_image = Raise e ->
  run lib (done_ts ++ failing :: rest) pil_image variants
  = (variants ++ zip_with made done_ts images, Raise e).
Proof.
  intros Hdone Hfail. revert variants.
  induction Hdone as [|t image ts images Ht Hts IH]; intros variants.
  - cbn [app run zip_with]. unfold andthen. rewrite add_variant_eq.
    unfold enhanced in Hfail. rewrite Hfail. by rewrite app_nil_r.
  - cbn [app run zip_with]. unfold andthen. rewrite add_variant_eq.
    unfold enhanced in Ht. rewrite Ht, IH. by rewrite <- app_assoc.
Qed.

(** What [create_variants] returns when a transform raises on a valid base
    image. *)
Lemma create_variants_on_failure (image_data : list byte) (pil_image : pil)
    (image : ndarray) (done_ts : list (transform pil)) (failing : transform pil)
    (rest : list (transform pil)) (images : list ndarray) (e : string) :
  base lib image_data = Ok (pil_image, image) ->
  enhancements lib = done_ts ++ failing :: rest ->
  Forall2 (fun t image => enhanced lib t pil_image = Ok image)
          done_ts images ->
  enhanced lib failing pil_image = Raise e ->
  create_variants lib image_data
  = Ok (mkVariant "standard" image "Original image with basic preprocessing"
        :: zip_with made done_ts images
        ++ [mkVariant "standard" image "Original image (fallback)"]).
Proof.
  intros Hbase Hsplit Hdone Hfail. unfold create_variants.
  rewrite try_block_eq, Hbase, Hsplit.
  rewrite (run_until_failure _ _ _ images e) by done.
  by rewrite except_block_eq, Hbase.
Qed.

Lemma run_all (ts : list (transform pil)) (images : list ndarray)
    (pil_image : pil) (variants : list (Variant ndarray)) :
  Forall2 (fun t image => enhanced lib t pil_image = Ok image) ts images ->
  run lib ts pil_image variants = (variants ++ zip_with made ts images, Ok tt).
Proof.
  intros Hall. revert variants.
  induction Hall as [|t image ts images Ht Hts IH]; intros variants.
  - cbn [run zip_with]. by rewrite app_nil_r.
  - cbn [run zip_with]. unfold andthen. rewrite add_variant_eq.
    unfold enhanced in Ht. rewrite Ht, IH. by rewrite <- app_assoc.
Qed.

(** When nothing raises, the seven variants come back in the fixed order. *)
Lemma create_variants_all (image_data : list byte) (pil_image : pil)
    (image : ndarray) (images : list ndarray) :
  base lib image_data = Ok (pil_image, image) ->
  Forall2 (fun t image => enhanced lib t pil_image = Ok image)
          (enhancements lib) images ->
  exists variants,
    create_variants lib image_data = Ok variants
    /\ map variant_name variants
       = ["standard"; "high_contrast"; "edge_enhanced"; "noise_reduced";
          "blur_reduced"; "grayscale"; "binary"].
Proof.
  intros Hbase Hall. unfold create_variants.
  rewrite try_block_eq, Hbase, (run_all _ images) by done.
  eexists. split; [done|]. apply Forall2_length in Hall.
  unfold enhancements. unfold enhancements in Hall. cbn in Hall.
  do 7 (destruct images as [|? images]; [done|]). done.
Qed.

Lemma Forall_exists_Forall2 {A B : Type} (P : A -> B -> Prop) (l : list A) :
  Forall (fun a => exists b, P a b) l -> exists k, Forall2 P l k.
Proof.
  induction 1 as [|a l [b Hb] _ [k IH]]; [by exists []|].
  exists (b :: k). by constructor.
Qed.

Lemma made_names (ts : list (transform pil)) (images : list ndarray)
                 (w : Variant ndarray) :
  w ∈ zip_with made ts images -> variant_name w ∈ names ts.
Proof.
  revert images. induction ts as [|t ts IH]; intros [|image images] Hw;
    cbn in Hw; try by apply elem_of_nil in Hw.
  cbn [names map]. apply elem_of_cons in Hw as [->|Hw]; [by left|].
  right. by eapply IH.
Qed.

(** C4, as the code has it.  On a valid base image, when one of the
    transforms raises, those after it leave no variant: [create_variants]
    returns a list that begins with a variant named [standard], in which
    every variant is named [standard] or after a transform that succeeded
    before the failing one, and none after the failing transform or a later
    one.  In particular, when the first enhancement raises (as when all of
    them do), every variant returned is named [standard] and the list is
    not empty. *)
Theorem create_variants_stops_at_failing_transform
    (image_data : list byte) (pil_image : pil) (image : ndarray)
    (done_ts : list (transform pil)) (failing : transform pil)
    (rest : list (transform pil)) :
  base lib image_data = Ok (pil_image, image) ->
  enhancements lib = done_ts ++ failing :: rest ->
  Forall (fun t => exists image', enhanced lib t pil_image = Ok image')
         done_ts ->
  (exists e, enhanced lib failing pil_image = Raise e) ->
  exists (v : Variant ndarray) (variants : list (Variant ndarray)),
    create_variants lib image_data = Ok (v :: variants)
    /\ variant_name v = "standard"
    /\ forall w, w ∈ v :: variants ->
         (variant_name w = "standard"
          \/ variant_name w ∈ names done_ts)
         /\ variant_name w ∉ names (failing :: rest).
Proof.
  intros Hbase Hsplit Hdone [e Hfail].
  destruct (Forall_exists_Forall2 _ _ Hdone) as [images Himages].
  eexists _, _. split; [by eapply create_variants_on_failure|].
  split; [done|]. intros w Hw.
  assert (variant_name w = "standard" \/ variant_name w ∈ names done_ts)
    as Hname.
  { apply elem_of_cons in Hw as [->|Hw]; [by left|].
    apply elem_of_app in Hw as [Hw|Hw]; [right; by eapply made_names|].
    apply list_elem_of_singleton in Hw as ->. by left. }
  split; [done|]. intros Hlater.
  assert (NoDup ("standard" :: (names (enhancements lib)))) as Hnodup.
  { cbn. apply NoDup_ListNoDup. repeat constructor; cbn; intuition congruence. }
  unfold names in Hnodup. rewrite Hsplit, map_app in Hnodup.
  apply NoDup_cons in Hnodup as [Hstd Hnodup].
  apply NoDup_app in Hnodup as (_ & Hdisj & _).
  destruct Hname as [Hname|Hname].
  - apply Hstd. rewrite <- Hname. apply elem_of_app. by right.
  - by apply (Hdisj (variant_name w)).
Qed.

(** C5, as the code has it.  When the bytes cannot be opened as an image,
    [create_variants] raises nothing: the handler's second attempt fails as
    the first did, the failure is passed over, and the empty list is
    returned. *)
Theorem create_variants_on_undecodable_bytes (image_data : list byte)
                                             (e : string) :
  Image_open lib image_data = Raise e ->
  create_variants lib image_data = Ok [].
Proof.
  intros Hopen. unfold create_variants.
  rewrite try_block_eq. unfold base at 1, bind at 1. rewrite Hopen.
  rewrite except_block_eq. unfold base, bind. by rewrite Hopen.
Qed.

End Facts.

End ImageFacts.

(** ** The properties at sample inputs *)

Module AtSamples.
Import Scanner ImageProcessor Transforms Samples.

Lemma sample_results_generated :
  variants_loop sample_clock sample_self sample_variants None None []
  = sample_results.
Proof. vm_compute. reflexivity. Qed.

Lemma confidence_in_unit_interval_witness :
  PrimFloat.leb 0.0 (0.5 + 0.1 + 0.2) = true
  /\ PrimFloat.leb (0.5 + 0.1 + 0.2) 1.0 = true.
Proof.
  refine (proj2 (proj2 ScanFacts.confidence_in_unit_interval
                   unit sample_clock sample_self sample_variants None None
                   true (sample_candidate "HELLO-1" "opencv" (0.5 + 0.1 + 0.2))
                   _)).
  apply list_elem_of_In. vm_compute. right. right. left. reflexivity.
Defined.

Lemma returned_sorted_by_confidence_stable_witness :
  let a := sample_candidate "6412345678901" "pyzbar" 1.0 in
  let b := sample_candidate "EP1234567890" "pyzbar" 1.0 in
  let all_results :=
    variants_loop sample_clock sample_self sample_variants None None [] in
  PrimFloat.leb (confidence b) (confidence a) = true
  /\ all_results !! Spec.sequence_index all_results (data a) = Some a
  /\ all_results !! Spec.sequence_index all_results (data b) = Some b
  /\ (PrimFloat.eqb (confidence a) (confidence b) = true ->
      (Spec.sequence_index all_results (data a)
       < Spec.sequence_index all_results (data b))%nat).
Proof.
  apply (ScanFacts.returned_sorted_by_confidence_stable
           unit sample_clock sample_self sample_variants None None true 0 1).
  - lia.
  - vm_compute. reflexivity.
  - vm_compute. reflexivity.
Defined.

Lemma remove_duplicates_keeps_earliest_witness :
  sample_results !! Spec.sequence_index sample_results "EP1234567890"
  = Some (sample_candidate "EP1234567890" "pyzbar" 1.0).
Proof.
  refine (proj1 (proj2 (proj2 (proj2
            (DedupFacts.remove_duplicates_keeps_earliest sample_results)))
            (sample_candidate "EP1234567890" "pyzbar" 1.0) _)).
  apply list_elem_of_In. vm_compute. right. left. reflexivity.
Defined.

Lemma unknown_provider_hint_no_candidates_witness :
  scan_multiple_variants sample_clock sample_self sample_variants
                         (Some "ticketmaster") None true = [].
Proof.
  refine (proj2 (ScanFacts.unknown_provider_hint_no_candidates
                   unit sample_clock sample_self sample_variants
                   "ticketmaster" None true _ _)).
  - reflexivity.
  - vm_compute. intuition discriminate.
Defined.

Lemma create_variants_stops_at_failing_transform_witness :
  exists (v : Variant unit) (variants : list (Variant unit)),
    create_variants edge_failing_lib sample_bytes = Ok (v :: variants)
    /\ variant_name v = "standard"
    /\ Forall (fun w => variant_name w <> "noise_reduced") (v :: variants).
Proof.
  destruct (ImageFacts.create_variants_stops_at_failing_transform
              edge_failing_lib sample_bytes tt tt
              (firstn 1 (enhancements edge_failing_lib))
              (mkTransform "edge_enhanced" (_enhance_edges edge_failing_lib)
                           "Edge enhanced for pattern recognition")
              (skipn 2 (enhancements edge_failing_lib)))
    as (v & variants & Hret & Hv & Hnames).
  - reflexivity.
  - reflexivity.
  - repeat constructor. by exists tt.
  - by exists "ValueError".
  - exists v, variants. split; [done|]. split; [done|].
    apply Forall_forall. intros w Hw E.
    destruct (Hnames w Hw) as [_ Hlater]. apply Hlater. rewrite E.
    apply list_elem_of_In. vm_compute. tauto.
Defined.

Lemma create_variants_on_undecodable_bytes_witness :
  create_variants (sample_lib false true) sample_bytes = Ok [].
Proof.
  apply (ImageFacts.create_variants_on_undecodable_bytes
           (sample_lib false true) sample_bytes "UnidentifiedImageError").
  reflexivity.
Defined.

(** Counterexample to C4 as stated.  On an image that decodes and on which
    every enhancement raises, two variants come back, not one; and when the
    edge filter alone raises, the four transforms after it, which would all
    succeed, leave no variant. *)
Lemma hostile_image_yields_two_variants :
  base (sample_lib true false) sample_bytes = Ok (tt, tt)
  /\ Forall (fun t => exists e,
               enhanced (sample_lib true false) t tt = Raise e)
            (enhancements (sample_lib true false))
  /\ create_variants (sample_lib true false) sample_bytes
     = Ok [ mkVariant "standard" tt "Original image with basic preprocessing";
            mkVariant "standard" tt "Original image (fallback)" ]
  /\ ~ (exists v : Variant unit,
          create_variants (sample_lib true false) sample_bytes = Ok [v])
  /\ Forall (fun t => t_name t <> "edge_enhanced" ->
               enhanced edge_failing_lib t tt = Ok tt)
            (enhancements edge_failing_lib)
  /\ create_variants edge_failing_lib sample_bytes
     = Ok [ mkVariant "standard" tt "Original image with basic preprocessing";
            mkVariant "high_contrast" tt
                      "Enhanced contrast for better barcode detection";
            mkVariant "standard" tt "Original image (fallback)" ].
Proof.
  split; [reflexivity|].
  split; [repeat constructor; by exists "ValueError"|].
  split; [reflexivity|].
  split; [intros [v Hv]; vm_compute in Hv; discriminate|].
  split; [|reflexivity].
  repeat constructor; cbn; intros H; try reflexivity. by destruct H.
Qed.

(** Counterexample to C5 as stated.  On bytes that cannot be opened, no
    exception comes out of [create_variants]: the empty list is returned. *)
Lemma undecodable_bytes_raise_nothing :
  Image_open (sample_lib false true) sample_bytes
  = Raise "UnidentifiedImageError"
  /\ create_variants (sample_lib false true) sample_bytes = Ok []
  /\ ~ (exists e : string,
          create_variants (sample_lib false true) sample_bytes = Raise e).
Proof.
  split; [reflexivity|]. split; [reflexivity|].
  intros [e He]. vm_compute in He. discriminate.
Qed.

(** Counterexample to C6 with its digits read as 0 to 9.  Six fullwidth
    digits are printable and match [^\d{6,20}$], so [_validate_result]
    accepts them. *)
Lemma fullwidth_digits_pass_validation :
  PyStr.chars fullwidth_digits
  = [65296; 65297; 65298; 65299; 65300; 65301]%N
  /\ forallb Spec.is_ascii_digit (PyStr.chars fullwidth_digits) = false
  /\ _validate_result fullwidth_digits None = true
  /\ Spec.validate Spec.is_ascii_digit fullwidth_digits None = false.
Proof. repeat split; vm_compute; reflexivity. Qed.

(** Counterexample to C10 as stated.  The empty string is none of the five
    provider ids, yet under it as a hint the candidates come back as they
    do with no hint. *)
Lemma empty_provider_hint_yields_candidates :
  ~ In "" (map fst Constants.PROVIDERS)
  /\ map data
        (scan_multiple_variants sample_clock sample_self sample_variants
                                (Some "") None true)
     = ["6412345678901"; "EP1234567890"; "HELLO-1"].
Proof.
  split; [|vm_compute; reflexivity].
  cbn. intuition discriminate.
Qed.

End AtSamples.

(** * Further properties *)

(** ** What scan_multiple_variants returns *)

Module ReturnedFacts.
Import Scanner Scores Provenance.

Section Loops.
Context {ndarray : Type} (time_time : nat -> float).
Context (provider_hint format_hint : option string).

(** What the loop over one engine's results appends. *)
Let appended (v : Variant ndarray) (e : Engine ndarray)
    (results : list string) (c : Candidate) : Prop :=
  data c ∈ results
  /\ variant c = variant_name v
  /\ engine c = engine_name e
  /\ format c = _detect_format (data c)
  /\ _validate_result (data c) provider_hint = true
  /\ confidence c
     = _calculate_confidence (data c) (variant c) (engine c) provider_hint.

Lemma results_loop_appended (P : Candidate -> Prop) (v : Variant ndarray)
    (e : Engine ndarray) (results rest : list string)
    (all_results : list Candidate) :
  (forall c, appended v e results c -> P c) ->
  rest ⊆ results ->
  Forall P all_results ->
  Forall P (results_loop time_time rest (variant_name v) (engine_name e)
                         provider_hint all_results).
Proof.
  intros HP. revert all_results.
  induction rest as [|r rest IH]; intros acc Hsub Hacc; [done|].
  cbn [results_loop].
  assert (rest ⊆ results) as Hrest by set_solver.
  destruct (_validate_result r provider_hint) eqn:Hv; [|by apply IH].
  apply IH; [done|]. apply Forall_app. split; [done|].
  constructor; [|done]. apply HP. unfold appended. cbn.
  split; [set_solver|done].
Qed.

Lemma engines_loop_generated (P : Candidate -> Prop) (v : Variant ndarray)
    (es : list (Engine ndarray)) (all_results : list Candidate) :
  (forall e results c,
     e ∈ es -> eligible format_hint e ->
     engine_function e (variant_image v) format_hint = Ok results ->
     appended v e results c -> P c) ->
  Forall P all_results ->
  Forall P (engines_loop time_time es (variant_image v) (variant_name v)
                         provider_hint format_hint all_results).
Proof.
  revert all_results. induction es as [|e es IH]; intros acc HP Hacc; [done|].
  cbn [engines_loop].
  assert (forall e' results c,
            e' ∈ es -> eligible format_hint e' ->
            engine_function e' (variant_image v) format_hint = Ok results ->
            appended v e' results c -> P c) as HP'.
  { intros e' results c He'. apply HP. by right. }
  destruct (match format_hint with Some _ => _ | None => _ end) eqn:Hskip;
    [by apply IH|].
  destruct (engine_function e (variant_image v) format_hint) as [results|]
    eqn:Hcall; [|by apply IH].
  apply IH; [done|].
  apply (results_loop_appended P v e results); [|done..].
  intros c Hc. apply (HP e results c); [by left| |done..].
  unfold eligible. destruct format_hint as [f|]; [|done].
  intros Hf. rewrite Hf in Hskip. cbn in Hskip.
  by apply negb_false_iff in Hskip.
Qed.

Lemma variants_loop_generated (self : Self) (P : Candidate -> Prop)
    (variants : list (Variant ndarray)) (all_results : list Candidate) :
  (forall c, generated self variants provider_hint format_hint c -> P c) ->
  Forall P all_results ->
  Forall P (variants_loop time_time self variants provider_hint format_hint
                          all_results).
Proof.
  revert all_results.
  induction variants as [|v variants IH]; intros acc HP Hacc; [done|].
  cbn [variants_loop]. apply IH.
  - intros c (v' & e & results & Hv' & H). apply HP.
    exists v', e, results. split; [by right|done].
  - apply engines_loop_generated; [|done].
    intros e results c He Hel Hcall (Hd & Hvar & Heng & Hrest). apply HP.
    exists v, e, results. split; [by left|]. done.
Qed.

End Loops.

End ReturnedFacts.

Module Returned.
Import Scanner Scores Provenance.

Section Returned.
Context {ndarray : Type} (time_time : nat -> float).
Context (self : Self (ndarray := ndarray)).
Context (variants : list (Variant ndarray)).
Context (provider_hint format_hint : option string) (enable_ml : bool).

Let all_results : list Candidate :=
  variants_loop time_time self variants provider_hint format_hint [].

Let returned : list Candidate :=
  scan_multiple_variants time_time self variants provider_hint format_hint
                         enable_ml.

Lemma returned_from_all_results (c : Candidate) :
  c ∈ returned -> c ∈ all_results.
Proof.
  unfold returned. rewrite ScanFacts.scan_multiple_variants_eq.
  rewrite (SortFacts.py_sorted_Permutation by_confidence_desc).
  apply ScanFacts.remove_duplicates_subseteq.
Qed.

Lemma returned_from_generated (c : Candidate) :
  c ∈ returned -> generated self variants provider_hint format_hint c.
Proof.
  intros Hc%returned_from_all_results.
  pose proof (ReturnedFacts.variants_loop_generated time_time provider_hint
                format_hint self
                (generated self variants provider_hint format_hint)
                variants [] (fun c H => H) (Forall_nil_2 _)) as H.
  rewrite Forall_forall in H. by apply H.
Qed.

(** X1. Every candidate [scan_multiple_variants] returns was generated: its
    [data] is a string that an engine of [self], not skipped under the
    format hint, returned without raising on one of the variants; the string
    passed [_validate_result]; and [variant], [engine], [format] and
    [confidence] are that variant's name, that engine's name, the guess and
    the score of the string. *)
Theorem returned_candidates_generated (c : Candidate) :
  c ∈ scan_multiple_variants time_time self variants provider_hint
                             format_hint enable_ml ->
  generated self variants provider_hint format_hint c.
Proof. apply returned_from_generated. Qed.

Lemma returned_data_distinct_and_complete_aux (d : string) :
  d ∈ data <$> returned <-> d ∈ data <$> all_results.
Proof.
  unfold returned, all_results. rewrite ScanFacts.scan_multiple_variants_eq.
  rewrite (SortFacts.py_sorted_Permutation by_confidence_desc).
  rewrite DedupFacts.remove_duplicates_keep_first.
  rewrite !list_elem_of_fmap. split.
  - intros (k & -> & Hk). exists k. split; [done|].
    rewrite <- DedupFacts.remove_duplicates_keep_first in Hk.
    by apply ScanFacts.remove_duplicates_subseteq.
  - intros (c & -> & Hc).
    destruct (DedupFacts.keep_first_covers [] _ c Hc) as [H|(k & Hk & E)].
    + cbn in H. by apply elem_of_nil in H.
    + by exists k.
Qed.

(** X2. The returned list holds every [data] value that was generated, and
    holds it once: no two returned candidates share their [data], and a
    [data] value is returned exactly when some engine result with that value
    passed validation. *)
Theorem returned_data_distinct_and_complete :
  NoDup (data <$> scan_multiple_variants time_time self variants
                    provider_hint format_hint enable_ml)
  /\ forall d : string,
       d ∈ data <$> scan_multiple_variants time_time self variants
                      provider_hint format_hint enable_ml
       <-> d ∈ data <$> variants_loop time_time self variants provider_hint
                          format_hint [].
Proof.
  split; [|apply returned_data_distinct_and_complete_aux].
  rewrite ScanFacts.scan_multiple_variants_eq.
  rewrite (SortFacts.py_sorted_Permutation by_confidence_desc).
  rewrite DedupFacts.remove_duplicates_keep_first.
  apply DedupFacts.keep_first_NoDup.
Qed.

Lemma best_of_returned :
  match select_best_result
          (scan_multiple_variants time_time self variants provider_hint
                                  format_hint enable_ml) with
  | None =>
      variants_loop time_time self variants provider_hint format_hint [] = []
  | Some best =>
      best ∈ scan_multiple_variants time_time self variants provider_hint
                                    format_hint enable_ml
      /\ forall c,
           c ∈ scan_multiple_variants time_time self variants provider_hint
                                      format_hint enable_ml ->
           PrimFloat.leb (confidence c) (confidence best) = true
  end.
Proof.
  pose proof (ScanFacts.returned_ranked time_time self variants provider_hint
                format_hint enable_ml) as Hs.
  pose proof (ScanFacts.returned_scored time_time self variants provider_hint
                format_hint enable_ml) as Hsc.
  pose proof returned_data_distinct_and_complete_aux as Hall.
  fold returned in Hs, Hsc, Hall |- *. fold all_results in Hall |- *.
  destruct returned as [|best rest] eqn:E; cbn [select_best_result].
  - destruct all_results as [|c cs]; [done|].
    assert (data c ∈ data <$> @nil Candidate) as H
      by (apply Hall; rewrite fmap_cons; by left).
    by apply elem_of_nil in H.
  - split; [by left|]. intros c Hc.
    apply Forall_cons in Hsc as [Hbest Hrest].
    apply ScanFacts.scored_in_values in Hbest.
    apply elem_of_cons in Hc as [->|Hc].
    + apply ScoreFacts.not_ltb_leb; [done..|].
      destruct (PrimFloat.ltb (confidence best) (confidence best)) eqn:El;
        [|done].
      by rewrite (ScoreFacts.ltb_asym _ _ Hbest Hbest El) in El.
    + rewrite Forall_forall in Hrest.
      pose proof (ScanFacts.scored_in_values _ _ (Hrest c Hc)) as Hcv.
      apply StronglySorted_inv in Hs as [_ Hhd].
      rewrite Forall_forall in Hhd. destruct (Hhd c Hc) as [Hlt _].
      unfold by_confidence_desc in Hlt.
      by apply ScoreFacts.not_ltb_leb.
Qed.

(** X3. [select_best_result] on the returned list is [None] exactly when no
    engine result passed validation; otherwise it is a returned candidate
    whose confidence no returned candidate exceeds. *)
Theorem select_best_result_of_scan :
  match select_best_result
          (scan_multiple_variants time_time self variants provider_hint
                                  format_hint enable_ml) with
  | None =>
      variants_loop time_time self variants provider_hint format_hint [] = []
  | Some best =>
      best ∈ scan_multiple_variants time_time self variants provider_hint
                                    format_hint enable_ml
      /\ forall c,
           c ∈ scan_multiple_variants time_time self variants provider_hint
                                      format_hint enable_ml ->
           PrimFloat.leb (confidence c) (confidence best) = true
  end.
Proof. apply best_of_returned. Qed.

End Returned.

End Returned.

(** ** Rigid patterns *)

Module RigidFacts.
Import Re ReFacts Rigid.

Lemma between_same (x c : N) : PyStr.between x x c = (x =? c)%N.
Proof.
  unfold PyStr.between. apply eq_true_iff_eq.
  rewrite andb_true_iff, !N.leb_le, N.eqb_eq. lia.
Qed.

Lemma in_ranges_app (t1 t2 : list (N * N)) (c : N) :
  PyStr.in_ranges (t1 ++ t2) c
  = PyStr.in_ranges t1 c || PyStr.in_ranges t2 c.
Proof. apply existsb_app. Qed.

Lemma item_ranges_spec (it : citem) (c : N) :
  citem_matches it c = PyStr.in_ranges (item_ranges it) c.
Proof.
  destruct it as [a|lo hi| |]; cbn [citem_matches item_ranges]; try done.
  - unfold PyStr.in_ranges. cbn [existsb fst snd].
    by rewrite orb_false_r, between_same.
  - unfold PyStr.in_ranges. cbn [existsb fst snd]. by rewrite orb_false_r.
Qed.

(** A class holds the code points of its ranges. *)
Lemma class_ranges_spec (cls : cclass) (c : N) :
  class_matches cls c = PyStr.in_ranges (class_ranges cls) c.
Proof.
  unfold class_matches, class_ranges.
  induction cls as [|it cls IH]; [done|].
  cbn [existsb flat_map]. by rewrite in_ranges_app, IH, item_ranges_spec.
Qed.

Lemma barcode_ranges_spec (c : N) :
  PyStr.in_ranges barcode_ranges c = true -> barcode_char c = true.
Proof.
  unfold barcode_ranges, barcode_char, PyStr.in_ranges.
  cbn [existsb fst snd]. rewrite !between_same.
  fold (PyStr.in_ranges PyStr.decimal_ranges c).
  fold (PyStr.chr_isdecimal c). fold (Spec.is_upper c).
  unfold Spec.is_hyphen. rewrite (N.eqb_sym c 45), (N.eqb_sym c 32).
  destruct (Spec.is_upper c), (45 =? c)%N, (32 =? c)%N,
    (PyStr.chr_isdecimal c); done.
Qed.

(** The printable characters of a class that [class_within] accepts. *)
Lemma class_within_sound (cls : cclass) (c : N) :
  class_within cls = true ->
  class_matches cls c = true -> PyStr.chr_isprintable c = true ->
  barcode_char c = true.
Proof.
  unfold class_within, class_matches.
  rewrite forallb_forall, existsb_exists.
  intros Hall (it & Hin & Hit) Hp. specialize (Hall it Hin).
  assert (table_within (item_ranges it) barcode_ranges = true ->
          barcode_char c = true) as Hranges.
  { intros Hw. apply barcode_ranges_spec.
    apply (PyStrFacts.table_within_sound _ _ c Hw).
    by rewrite <- item_ranges_spec. }
  destruct it as [a|lo hi| |]; try by apply Hranges.
  cbn [citem_matches] in Hit.
  rewrite (PyStrFacts.printable_space c Hit Hp). reflexivity.
Qed.

Lemma fits_repeat (cls : cclass) (k : nat) (rest : list cclass)
                  (s : list N) :
  fits (repeat cls k ++ rest) s
  = (k <=? List.length s)%nat
    && forallb (class_matches cls) (firstn k s)
    && fits rest (skipn k s).
Proof.
  revert s. induction k as [|k IH]; intros s; [done|].
  cbn [repeat app fits]. destruct s as [|c s]; [done|].
  rewrite IH. cbn [List.length firstn skipn forallb].
  change (S k <=? S (List.length s))%nat with (k <=? List.length s)%nat.
  destruct (class_matches cls c); [|by rewrite andb_false_r].
  by rewrite andb_true_l.
Qed.

(** Matching a rigid pattern is fitting its classes. *)
Lemma rigid_match (ps : list piece) (s : list N) :
  rigid ps = true -> match_pieces ps s = fits (expand ps) s.
Proof.
  revert s. induction ps as [|[cls lo hi] ps IH]; intros s Hr; [done|].
  cbn [rigid forallb p_max p_min] in Hr.
  apply andb_prop in Hr as [Hhi Hr]. destruct hi as [hi|]; [|done].
  apply Nat.eqb_eq in Hhi as ->.
  rewrite match_pieces_exactly. cbn [expand p_class p_min].
  by rewrite fits_repeat, IH.
Qed.

Lemma classes_disjoint_sound (a b : cclass) (c : N) :
  classes_disjoint a b = true ->
  class_matches a c = true -> class_matches b c = false.
Proof.
  unfold classes_disjoint. rewrite !class_ranges_spec.
  apply PyStrFacts.tables_disjoint_sound.
Qed.

Lemma exclusive_sound (a b : list cclass) (s : list N) :
  exclusive a b = true -> fits a s = true -> fits b s = false.
Proof.
  revert b s. induction a as [|x a IH]; intros [|y b] s; try done.
  cbn [exclusive fits]. destruct s as [|c s]; [done|].
  intros [Hd|He]%orb_prop [Hx Ha]%andb_prop.
  - by rewrite (classes_disjoint_sound x y c).
  - rewrite (IH b s) by done. by rewrite andb_false_r.
Qed.

(** Two pattern lists that [patterns_exclusive] accepts match no common
    subject. *)
Lemma patterns_exclusive_sound (pats1 pats2 : list string) (data : string) :
  patterns_exclusive pats1 pats2 = true ->
  Scanner.any_match pats1 data = true ->
  Scanner.any_match pats2 data = false.
Proof.
  unfold patterns_exclusive, Scanner.any_match.
  rewrite forallb_forall, existsb_exists.
  intros Hex (p1 & Hp1 & Hm1). apply not_true_is_false.
  rewrite existsb_exists. intros (p2 & Hp2 & Hm2).
  specialize (Hex p1 Hp1). rewrite forallb_forall in Hex.
  specialize (Hex p2 Hp2). unfold re_match in Hm1, Hm2.
  destruct (compile p1) as [x|]; [|done].
  destruct (compile p2) as [y|]; [|done].
  apply andb_prop in Hex as [[Hx Hy]%andb_prop Hex].
  rewrite rigid_match in Hm1, Hm2 by done.
  by rewrite (exclusive_sound _ _ _ Hex Hm1) in Hm2.
Qed.

(** A printable subject that fits has the length of the class list, and
    lies in [barcode_char] when the classes do. *)
Lemma fits_printable (classes : list cclass) (s : list N) :
  forallb PyStr.chr_isprintable s = true ->
  forallb class_within classes = true ->
  fits classes s = true ->
  List.length s = List.length classes /\ forallb barcode_char s = true.
Proof.
  revert s. induction classes as [|cls classes IH]; intros s Hp Hw Hf.
  - cbn [fits] in Hf. rewrite at_end_printable in Hf by done.
    by destruct s.
  - destruct s as [|c s]; [done|]. cbn [fits forallb] in *.
    apply andb_prop in Hp as [Hpc Hp]. apply andb_prop in Hw as [Hwc Hw].
    apply andb_prop in Hf as [Hc Hf].
    destruct (IH s Hp Hw Hf) as [Hlen Hall]. split; [cbn; lia|].
    by rewrite Hall, andb_true_r, (class_within_sound cls c).
Qed.

Lemma pattern_ok_sound (lo hi : nat) (pattern data : string) :
  pattern_ok lo hi pattern = true ->
  PyStr.isprintable data = true ->
  re_match pattern data = true ->
  Spec.within lo hi (PyStr.len data) = true
  /\ forallb barcode_char (PyStr.chars data) = true.
Proof.
  unfold pattern_ok, re_match, PyStr.isprintable, PyStr.len.
  destruct (compile pattern) as [ps|]; [|done].
  intros [[Hr Hw]%andb_prop Hlen]%andb_prop Hp Hm.
  rewrite rigid_match in Hm by done.
  destruct (fits_printable _ _ Hp Hw Hm) as [-> Hall]. done.
Qed.

Lemma registry_patterns_ok :
  forallb (pattern_ok 11 21) registry_patterns = true.
Proof. vm_compute. reflexivity. Qed.

Lemma registered_in_registry (provider pattern : string) :
  In pattern (Spec.registered Constants.PROVIDERS provider) ->
  In pattern registry_patterns.
Proof.
  unfold registry_patterns.
  induction Constants.PROVIDERS as [|[id info] rest IH]; [done|].
  cbn [Spec.registered flat_map snd]. intros H. apply in_app_iff.
  destruct (String.eqb id provider); [by left|right; by apply IH].
Qed.

End RigidFacts.

(** ** What a validated string looks like *)

Module ValidatedFacts.
Import Re ReFacts Rigid RigidFacts Scanner.

Lemma forallb_weaken {A : Type} (f g : A -> bool) (l : list A) :
  (forall x, f x = true -> g x = true) ->
  forallb f l = true -> forallb g l = true.
Proof.
  intros H. induction l as [|x l IH]; [done|]. cbn [forallb].
  intros [Hx Hl]%andb_prop. by rewrite (H x Hx), IH.
Qed.

Lemma digit_barcode_char (c : N) :
  PyStr.chr_isdecimal c = true -> barcode_char c = true.
Proof. unfold barcode_char. intros ->. by rewrite orb_true_r. Qed.

Lemma upper_barcode_char (c : N) :
  Spec.is_upper c = true -> barcode_char c = true.
Proof. unfold barcode_char. by intros ->. Qed.

Lemma printable_space_barcode_char (c : N) :
  PyStr.chr_isspace c = true -> PyStr.chr_isprintable c = true ->
  barcode_char c = true.
Proof. intros Hs Hp. by rewrite (PyStrFacts.printable_space c Hs Hp). Qed.

Lemma split_at (cs : list N) (k : nat) (c : N) :
  nth_error cs k = Some c -> cs = firstn k cs ++ c :: skipn (S k) cs.
Proof.
  revert cs. induction k as [|k IH]; intros [|x cs] H; try done.
  - cbn in H. by injection H as ->.
  - cbn [firstn skipn app]. f_equal. by apply IH.
Qed.

Section Generic.
Variable cs : list N.
Hypothesis printable : forallb PyStr.chr_isprintable cs = true.

Lemma pure_digits_shape :
  Spec.pure_digits PyStr.chr_isdecimal cs = true ->
  Spec.within 6 25 (List.length cs) = true /\ forallb barcode_char cs = true.
Proof.
  unfold Spec.pure_digits, Spec.within.
  intros [[Hlo%Nat.leb_le Hhi%Nat.leb_le]%andb_prop Hd]%andb_prop. split.
  - apply andb_true_intro; split; apply Nat.leb_le; lia.
  - by apply (forallb_weaken _ _ _ digit_barcode_char).
Qed.

Lemma letters_then_digits_shape :
  Spec.letters_then_digits PyStr.chr_isdecimal cs = true ->
  Spec.within 6 25 (List.length cs) = true /\ forallb barcode_char cs = true.
Proof.
  unfold Spec.letters_then_digits, Spec.within.
  intros [[[H2%Nat.leb_le Hu]%andb_prop
            [Hlo%Nat.leb_le Hhi%Nat.leb_le]%andb_prop]%andb_prop
           Hd]%andb_prop.
  rewrite length_skipn in Hlo, Hhi. split.
  - apply andb_true_intro; split; apply Nat.leb_le; lia.
  - rewrite <- (firstn_skipn 2 cs), forallb_app.
    rewrite (forallb_weaken _ _ _ upper_barcode_char Hu).
    by rewrite (forallb_weaken _ _ _ digit_barcode_char Hd).
Qed.

Lemma digits_space_digits_shape (k : nat) :
  (2 <= k <= 3)%nat ->
  Spec.digits_space_digits PyStr.chr_isdecimal k cs = true ->
  Spec.within 6 25 (List.length cs) = true /\ forallb barcode_char cs = true.
Proof using printable.
  unfold Spec.digits_space_digits, Spec.within.
  intros Hk [[[[Hle%Nat.leb_le Hd1]%andb_prop Hsp]%andb_prop
               [Hlo%Nat.leb_le Hhi%Nat.leb_le]%andb_prop]%andb_prop
              Hd2]%andb_prop.
  rewrite length_skipn in Hlo, Hhi.
  destruct (nth_error cs k) as [c|] eqn:Hc; [|done]. split.
  - apply andb_true_intro; split; apply Nat.leb_le; lia.
  - pose proof printable as Hp. rewrite (split_at cs k c Hc) in Hp |- *.
    rewrite forallb_app in Hp |- *. cbn [forallb] in Hp |- *.
    apply andb_prop in Hp as [_ [Hpc _]%andb_prop].
    rewrite (forallb_weaken _ _ _ digit_barcode_char Hd1).
    rewrite (forallb_weaken _ _ _ digit_barcode_char Hd2).
    by rewrite (printable_space_barcode_char c Hsp Hpc).
Qed.

Lemma alnum_hyphen_shape :
  Spec.alnum_hyphen cs = true ->
  Spec.within 6 25 (List.length cs) = true /\ forallb barcode_char cs = true.
Proof.
  unfold Spec.alnum_hyphen. intros [Hlen Hall]%andb_prop. split; [done|].
  eapply forallb_weaken; [|exact Hall]. cbn beta. unfold barcode_char.
  intros c H. destruct (Spec.is_upper c); [done|].
  destruct (Spec.is_hyphen c); [by rewrite !orb_true_r|].
  rewrite orb_false_r in H. cbn [orb] in H.
  by rewrite (PyStrFacts.ascii_digit_decimal c H).
Qed.

End Generic.

Lemma generic_structure_shape (data : string) :
  PyStr.isprintable data = true ->
  Spec.generic_structure PyStr.chr_isdecimal data = true ->
  Spec.within 6 25 (PyStr.len data) = true
  /\ forallb barcode_char (PyStr.chars data) = true.
Proof.
  unfold Spec.generic_structure, PyStr.len. intros Hp.
  intros [[[H|H]%orb_prop|[H|H]%orb_prop]%orb_prop|H]%orb_prop.
  - by apply pure_digits_shape.
  - by apply letters_then_digits_shape.
  - apply (digits_space_digits_shape _ Hp 2); [lia|done].
  - apply (digits_space_digits_shape _ Hp 3); [lia|done].
  - by apply alnum_hyphen_shape.
Qed.

Lemma provider_pattern_shape (data provider : string) :
  PyStr.isprintable data = true ->
  _validate_provider_pattern data provider = true ->
  Spec.within 11 21 (PyStr.len data) = true
  /\ forallb barcode_char (PyStr.chars data) = true.
Proof.
  unfold _validate_provider_pattern, any_match. intros Hp.
  rewrite ValidateFacts.provider_patterns_registered, existsb_exists.
  intros (pattern & Hin%registered_in_registry & Hm).
  pose proof registry_patterns_ok as Hok. rewrite forallb_forall in Hok.
  apply (pattern_ok_sound 11 21 pattern); [by apply Hok|done..].
Qed.

Lemma validated_string_shape_aux (data : string)
                                   (provider_hint : option string) :
  _validate_result data provider_hint = true ->
  (6 <= PyStr.len data <= 25)%nat
  /\ forallb barcode_char (PyStr.chars data) = true.
Proof.
  unfold _validate_result. rewrite ValidateFacts.short_or_empty.
  destruct (3 <=? PyStr.len data)%nat; [|done]. cbn [negb].
  destruct (PyStr.isprintable data) eqn:Hp; [|done]. cbn [negb].
  assert (forall lo hi, (6 <= lo)%nat -> (hi <= 25)%nat ->
            Spec.within lo hi (PyStr.len data) = true ->
            (6 <= PyStr.len data <= 25)%nat) as Hwithin.
  { unfold Spec.within.
    intros lo hi ? ? [?%Nat.leb_le ?%Nat.leb_le]%andb_prop. lia. }
  assert (any_match generic_patterns data = true ->
          (6 <= PyStr.len data <= 25)%nat
          /\ forallb barcode_char (PyStr.chars data) = true) as Hgeneric.
  { rewrite ValidateFacts.generic_patterns_spec by done.
    intros [H1 H2]%generic_structure_shape; [|done].
    split; [by apply (Hwithin 6 25)|done]. }
  destruct provider_hint as [provider|]; [|done].
  destruct (PyStr.truthy provider); [|done].
  intros [H1 H2]%provider_pattern_shape; [|done].
  split; [apply (Hwithin 11 21); [lia..|done]|done].
Qed.

(** X4. A string [_validate_result] accepts, with any provider hint, has
    between 6 and 25 characters, each a letter A to Z, a decimal digit
    (of any script, as [\d] has it), a hyphen or a space. *)
Theorem validated_string_shape (data : string)
                               (provider_hint : option string) :
  _validate_result data provider_hint = true ->
  (6 <= PyStr.len data <= 25)%nat
  /\ forallb barcode_char (PyStr.chars data) = true.
Proof. apply validated_string_shape_aux. Qed.

(** Among the characters of a validated string, those of the class of
    [_detect_format] are the ones below U+0080: the others are digits of
    another script. *)
Lemma barcode_char_symbol (c : N) :
  barcode_char c = true -> Spec.in_symbol_class c = (c <? 128)%N.
Proof.
  unfold barcode_char, Spec.in_symbol_class.
  change (PyStr.chars "-.$/+%") with [45; 46; 36; 47; 43; 37]%N.
  cbn [existsb]. unfold Spec.is_hyphen.
  destruct (N.ltb_spec c 128) as [Hc|Hc].
  - rewrite (PyStrFacts.decimal_ascii c Hc).
    destruct (Spec.is_upper c); [done|].
    destruct (Spec.is_ascii_digit c); [done|].
    destruct (N.eqb_spec c 45) as [->|]; [done|].
    destruct (N.eqb_spec c 32) as [->|];
      [intros _; vm_compute; reflexivity|cbn [orb]; discriminate].
  - assert (Spec.is_upper c = false) as ->.
    { unfold Spec.is_upper, PyStr.between. apply andb_false_iff. right.
      apply N.leb_gt. lia. }
    assert (Spec.is_ascii_digit c = false) as ->.
    { unfold Spec.is_ascii_digit, PyStr.between. apply andb_false_iff.
      right. apply N.leb_gt. lia. }
    repeat match goal with
    | |- context [(c =? ?n)%N] =>
        replace (c =? n)%N with false by (symmetry; apply N.eqb_neq; lia)
    end.
    cbn [orb]. rewrite !orb_false_r. apply PyStrFacts.decimal_not_space.
Qed.

Lemma forallb_agree {A : Type} (p f g : A -> bool) (l : list A) :
  (forall x, p x = true -> f x = g x) ->
  forallb p l = true -> forallb f l = forallb g l.
Proof.
  intros H. induction l as [|x l IH]; [done|]. cbn [forallb].
  intros [Hx Hl]%andb_prop. by rewrite (H x Hx), IH.
Qed.

(** The guess for a validated string: [EAN13] for 13 digits; otherwise
    [CODE39] when the string is written in ASCII; otherwise it holds a
    digit of another script and the guess is [ITF] or [CODE128]. *)
Lemma detect_format_of_validated (data : string)
                                 (provider_hint : option string) :
  _validate_result data provider_hint = true ->
  _detect_format data
  = if (PyStr.len data =? 13)%nat && PyStr.isdigit data then "EAN13"
    else if forallb (fun c => (c <? 128)%N) (PyStr.chars data) then "CODE39"
    else if PyStr.isdigit data && Nat.even (PyStr.len data) then "ITF"
    else "CODE128".
Proof.
  intros [Hlen Hall]%validated_string_shape_aux. unfold _detect_format.
  destruct ((PyStr.len data =? 13)%nat && PyStr.isdigit data); [done|].
  rewrite FormatFacts.symbol_pattern.
  rewrite (forallb_agree _ _ _ _ barcode_char_symbol Hall).
  destruct (PyStr.len data =? 0)%nat eqn:E0;
    [apply Nat.eqb_eq in E0; lia|]. cbn [negb andb].
  destruct (forallb (fun c => (c <? 128)%N) (PyStr.chars data)); [|done].
  destruct (PyStr.len data <=? 43)%nat eqn:E43; [done|].
  apply Nat.leb_gt in E43. lia.
Qed.

End ValidatedFacts.

(** ** detect_provider *)

Module DetectFacts.
Import Rigid RigidFacts ProviderParser.

(** The patterns of the registry's entries, in table order. *)
Lemma registry_exclusive :
  forall i j pi pj,
    (i < j)%nat ->
    nth_error Constants.PROVIDERS i = Some pi ->
    nth_error Constants.PROVIDERS j = Some pj ->
    patterns_exclusive (Constants.patterns (snd pi))
                       (Constants.patterns (snd pj)) = true
    /\ patterns_exclusive (Constants.patterns (snd pj))
                          (Constants.patterns (snd pi)) = true.
Proof.
  intros i j pi pj Hij Hi Hj.
  do 5 (destruct j as [|j]; [
    do 5 (destruct i as [|i]; [
      try lia; cbn in Hi, Hj; injection Hi as <-; injection Hj as <-;
      split; vm_compute; reflexivity |]); lia |]).
  by destruct j.
Qed.

(** The first entry of the table that matches. *)
Lemma detect_loop_first
    (providers : list (string * Constants.provider_info))
    (data p : string) :
  detect_loop providers data = Some p <->
  exists i info,
    nth_error providers i = Some (p, info)
    /\ Scanner.any_match (Constants.patterns info) data = true
    /\ forall j q, (j < i)%nat -> nth_error providers j = Some q ->
         Scanner.any_match (Constants.patterns (snd q)) data = false.
Proof.
  induction providers as [|[id info] rest IH]; cbn [detect_loop].
  - split; [done|]. by intros ([|i] & ? & ? & _).
  - fold (Scanner.any_match (Constants.patterns info) data).
    destruct (Scanner.any_match (Constants.patterns info) data) eqn:Hm.
    + split.
      * intros [= <-]. exists 0%nat, info. split; [done|].
        split; [done|]. intros j q Hj. lia.
      * intros ([|i] & info' & Hi & Hm' & Hbefore).
        { cbn in Hi. by injection Hi as -> _. }
        specialize (Hbefore 0%nat (id, info) ltac:(lia) eq_refl).
        cbn in Hbefore. congruence.
    + rewrite IH. split.
      * intros (i & info' & Hi & Hm' & Hbefore).
        exists (S i), info'. split; [done|]. split; [done|].
        intros [|j] q Hj Hq; cbn in Hq.
        { by injection Hq as <-. }
        apply (Hbefore j); [lia|done].
      * intros ([|i] & info' & Hi & Hm' & Hbefore).
        { cbn in Hi. injection Hi as -> ->. congruence. }
        exists i, info'. split; [done|]. split; [done|].
        intros j q Hj Hq. apply (Hbefore (S j)); [lia|done].
Qed.

Lemma matches_registered_nth (i : nat) (p : string)
                             (info : Constants.provider_info) (data : string) :
  nth_error Constants.PROVIDERS i = Some (p, info) ->
  Spec.matches_registered p data
  = Scanner.any_match (Constants.patterns info) data.
Proof.
  intros Hi. unfold Spec.matches_registered, Scanner.any_match.
  do 5 (destruct i as [|i];
        [cbn in Hi; injection Hi as <- <-; reflexivity|]).
  by destruct i.
Qed.

Lemma registered_id_nth (p : string) :
  In p (map fst Constants.PROVIDERS) ->
  exists i info, nth_error Constants.PROVIDERS i = Some (p, info).
Proof.
  intros Hp. apply in_map_iff in Hp as ([q info] & <- & Hin).
  apply In_nth_error in Hin as [i Hi]. by exists i, info.
Qed.

Lemma no_match_on_empty (patterns : list string) :
  (forall pattern, In pattern patterns -> In pattern registry_patterns) ->
  Scanner.any_match patterns "" = false.
Proof.
  intros Hsub. apply not_true_is_false. unfold Scanner.any_match.
  rewrite existsb_exists. intros (pattern & Hin & Hm).
  pose proof registry_patterns_ok as Hok. rewrite forallb_forall in Hok.
  destruct (pattern_ok_sound 11 21 pattern "" (Hok _ (Hsub _ Hin)) eq_refl Hm)
    as [Hlen _].
  by vm_compute in Hlen.
Qed.

(** [detect_provider] returns a provider exactly when the data matches one
    of that provider's patterns. *)
Lemma detect_provider_iff (data p : string) :
  detect_provider data = Some p <->
  In p (map fst Constants.PROVIDERS)
  /\ Spec.matches_registered p data = true.
Proof.
  unfold detect_provider. destruct (PyStr.truthy data) eqn:Ht; cbn [negb].
  - rewrite detect_loop_first. split.
    + intros (i & info & Hi & Hm & _). split.
      * apply in_map_iff. exists (p, info). split; [done|].
        by eapply nth_error_In.
      * by rewrite (matches_registered_nth i p info).
    + intros [(i & info & Hi)%registered_id_nth Hm].
      exists i, info. split; [done|].
      rewrite (matches_registered_nth i p info) in Hm by done.
      split; [done|]. intros j q Hj Hq.
      destruct (registry_exclusive j i q (p, info) Hj Hq Hi) as [_ Hex].
      by apply (patterns_exclusive_sound _ _ data Hex).
  - destruct data; [|done]. split; [done|].
    intros [Hin Hm]. unfold Spec.matches_registered in Hm.
    fold (Scanner.any_match (Spec.registered Constants.PROVIDERS p) "") in Hm.
    rewrite no_match_on_empty in Hm; [done|].
    intros pattern. apply registered_in_registry.
Qed.

(** X5. [detect_provider] returns a provider id exactly when the data
    matches one of the patterns registered for that id: no string matches
    the patterns of two providers, so the order of the table decides
    nothing. *)
Theorem detect_provider_is_pattern_match (data p : string) :
  detect_provider data = Some p <->
  In p (map fst Constants.PROVIDERS)
  /\ Spec.matches_registered p data = true.
Proof. apply detect_provider_iff. Qed.

End DetectFacts.

(** ** Returned candidates, their format and their provider *)

Module ReturnedShape.
Import Scanner Provenance ProviderParser.

(** A string validated under a given hint is detected as that provider. *)
Lemma validated_under_hint_detected (data provider : string) :
  PyStr.truthy provider = true ->
  _validate_result data (Some provider) = true ->
  detect_provider data = Some provider.
Proof.
  intros Ht Hv. unfold _validate_result in Hv. rewrite Ht in Hv.
  destruct (negb (PyStr.truthy data) || (PyStr.len data <? 3)%nat); [done|].
  destruct (negb (PyStr.isprintable data)); [done|].
  unfold _validate_provider_pattern in Hv.
  rewrite ValidateFacts.provider_patterns_registered in Hv.
  apply DetectFacts.detect_provider_iff. split; [|done].
  destruct (in_dec String.string_dec provider (map fst Constants.PROVIDERS))
    as [Hin|Hout]; [done|].
  by rewrite ScanFacts.registered_unknown in Hv.
Qed.

Section Returned.
Context {ndarray : Type} (time_time : nat -> float).
Context (self : Self (ndarray := ndarray)).
Context (variants : list (Variant ndarray)).
Context (format_hint : option string) (enable_ml : bool).

(** X6. Under a provider hint that is given, every candidate
    [scan_multiple_variants] returns is one that [detect_provider] assigns
    to the hinted provider: the hint is registered, and the handler's
    detection on the best candidate agrees with it. *)
Theorem returned_under_hint_detected (provider : string) (c : Candidate) :
  PyStr.truthy provider = true ->
  c ∈ scan_multiple_variants time_time self variants (Some provider)
                             format_hint enable_ml ->
  detect_provider (data c) = Some provider.
Proof.
  intros Ht Hc.
  apply (Returned.returned_from_generated time_time) in Hc
    as (v & e & results & _ & _ & _ & _ & _ & _ & _ & _ & Hv & _).
  by apply validated_under_hint_detected.
Qed.

(** X7. Every candidate [scan_multiple_variants] returns carries the format
    [EAN13] when its data is 13 digits; otherwise [CODE39] when its data is
    written in ASCII; the guesses [ITF] and [CODE128] come back only for
    data that holds a digit of another script, [ITF] when the data is all
    digits, of even length. *)
Theorem returned_formats (provider_hint : option string) (c : Candidate) :
  c ∈ scan_multiple_variants time_time self variants provider_hint
                             format_hint enable_ml ->
  format c
  = if (PyStr.len (data c) =? 13)%nat && PyStr.isdigit (data c)
    then "EAN13"
    else if forallb (fun ch => (ch <? 128)%N) (PyStr.chars (data c))
    then "CODE39"
    else if PyStr.isdigit (data c) && Nat.even (PyStr.len (data c))
    then "ITF"
    else "CODE128".
Proof.
  intros Hc.
  apply (Returned.returned_from_generated time_time) in Hc
    as (v & e & results & _ & _ & _ & _ & _ & _ & _ & -> & Hv & _).
  by apply (ValidatedFacts.detect_format_of_validated _ provider_hint).
Qed.

End Returned.

End ReturnedShape.

(** ** parse *)

Module ParseFacts.
Import Re Rigid RigidFacts Heads ProviderParser ProviderLookup.

Lemma slice_from_ascii (a : ascii) (n : nat) (s : string) :
  (PyStr.code a <? 128)%N = true ->
  PyStr.slice_from (S n) (String a s) = PyStr.slice_from n s.
Proof.
  intros Ha. unfold PyStr.slice_from. by rewrite PyStrFacts.units_ascii.
Qed.

(** Cutting off a prefix written in ASCII. *)
Lemma startswith_slice (s p : string) :
  forallb (fun a => (PyStr.code a <? 128)%N) (list_ascii_of_string p) = true ->
  PyStr.startswith s p = true ->
  String.append p (PyStr.slice_from (String.length p) s) = s.
Proof.
  unfold PyStr.startswith.
  revert s. induction p as [|a p IH]; intros s Hp H.
  - unfold PyStr.slice_from. cbn [String.length skipn].
    change (PyStr.text (PyStr.units s) = s). apply PyStrFacts.text_units.
  - destruct s as [|b s]; [done|]. cbn in H.
    destruct (Ascii.ascii_dec a b) as [->|]; [|done].
    cbn [list_ascii_of_string forallb] in Hp.
    apply andb_prop in Hp as [Hb Hp].
    cbn [String.length]. rewrite slice_from_ascii by done.
    rewrite PyStrFacts.string_app_cons. f_equal. by apply IH.
Qed.

Lemma fits_literal_head (classes : list cclass) (s : list N) :
  fits classes s = true ->
  exists rest, s = map PyStr.code (literal_head classes) ++ rest.
Proof.
  revert s. induction classes as [|cls classes IH]; intros s H.
  - by exists s.
  - destruct cls as [|[c| | |] [|? ?]]; try by exists s.
    destruct s as [|x s]; [done|]. cbn [fits] in H.
    apply andb_prop in H as [Hx Hs]. cbn in Hx.
    rewrite orb_false_r in Hx. apply N.eqb_eq in Hx as <-.
    destruct (IH s Hs) as [rest ->]. by exists rest.
Qed.

Lemma prefix_of_head (literal : string) (l : list ascii) (rest : list N)
                     (s : string) :
  String.prefix literal (string_of_list_ascii l) = true ->
  forallb (fun a => (PyStr.code a <? 128)%N) (list_ascii_of_string literal)
  = true ->
  PyStr.chars s = map PyStr.code l ++ rest ->
  PyStr.startswith s literal = true.
Proof.
  unfold PyStr.startswith.
  revert l s. induction literal as [|a literal IH]; intros l s Hl Ha Hs.
  - by destruct s.
  - destruct l as [|b l]; [done|]. cbn in Hl.
    destruct (Ascii.ascii_dec a b) as [->|]; [|done].
    cbn [list_ascii_of_string forallb] in Ha.
    apply andb_prop in Ha as [Hb Ha]. cbn [map app] in Hs.
    apply PyStrFacts.chars_head_ascii in Hs as (s' & -> & Hs');
      [|by apply N.ltb_lt].
    unfold PyStr.code. rewrite ascii_N_embedding. cbn.
    destruct (Ascii.ascii_dec b b); [|done]. by apply (IH l).
Qed.

(** A subject matched by patterns that all start with a literal starts
    with it. *)
Lemma patterns_start_with_sound (literal : string) (patterns : list string)
                                (data : string) :
  patterns_start_with literal patterns = true ->
  Scanner.any_match patterns data = true ->
  PyStr.startswith data literal = true.
Proof.
  unfold patterns_start_with, Scanner.any_match.
  rewrite forallb_forall, existsb_exists.
  intros Hall (pattern & Hin & Hm). specialize (Hall pattern Hin).
  unfold re_match in Hm. destruct (compile pattern) as [ps|]; [|done].
  apply andb_prop in Hall as [[Hr Hpre]%andb_prop Hascii].
  rewrite rigid_match in Hm by done.
  destruct (fits_literal_head _ _ Hm) as [rest Hrest].
  by apply (prefix_of_head literal (literal_head (expand ps)) rest).
Qed.

Lemma truthy_of_detected (data p : string) :
  detect_provider data = Some p -> PyStr.truthy data = true.
Proof. unfold detect_provider. by destruct (PyStr.truthy data). Qed.

(** [parse] on data that [detect_provider] assigns to a provider. *)
Lemma parse_detected (data p : string) :
  detect_provider data = Some p ->
  parse data None
  = match parser_method p with
    | Some method => method data
    | None => _parse_generic data
    end.
Proof.
  intros Hd. unfold parse. rewrite (truthy_of_detected data p Hd).
  cbn [negb PyStr.opt_truthy]. rewrite Hd.
  apply DetectFacts.detect_provider_iff in Hd as [Hin _].
  cbn in Hin. by repeat destruct Hin as [<-|Hin].
Qed.

Lemma ticket_pia_splits (data : string) :
  Spec.matches_registered "ticket_pia" data = true ->
  splits data (_parse_ticket_pia data).
Proof.
  intros Hm.
  assert (PyStr.startswith data "64" = true) as H64
    by by apply (patterns_start_with_sound
                   "64" (Spec.registered Constants.PROVIDERS "ticket_pia") data
                   eq_refl Hm).
  unfold _parse_ticket_pia, splits.
  destruct (PyStr.startswith data "640032") eqn:E.
  - exists "640032", (PyStr.slice_from 6 data).
    split; [by simplify_map_eq|]. split; [by simplify_map_eq|].
    by apply (startswith_slice data "640032" eq_refl).
  - exists "64", (PyStr.slice_from 2 data).
    split; [by simplify_map_eq|]. split; [by simplify_map_eq|].
    by apply (startswith_slice data "64" eq_refl).
Qed.

Lemma lawson_ticket_splits (data : string) :
  Spec.matches_registered "lawson_ticket" data = true ->
  splits data (_parse_lawson_ticket data).
Proof.
  intros Hm. unfold Spec.matches_registered in Hm. cbn in Hm.
  unfold _parse_lawson_ticket, splits.
  destruct (PyStr.startswith data "30") eqn:E30.
  - exists "30", (PyStr.slice_from 2 data).
    split; [by simplify_map_eq|]. split; [by simplify_map_eq|].
    by apply (startswith_slice data "30" eq_refl).
  - assert (PyStr.startswith data "L" = true) as HL.
    { apply orb_prop in Hm as [Hm|Hm].
      - assert (PyStr.startswith data "30" = true) as H; [|congruence].
        apply (patterns_start_with_sound "30" ["^30\d{11}$"] data eq_refl).
        cbn. by rewrite Hm.
      - apply (patterns_start_with_sound "L" ["^L\d{10}$"] data eq_refl).
        cbn. by rewrite Hm. }
    rewrite HL. exists "L", (PyStr.slice_from 1 data).
    split; [by simplify_map_eq|]. split; [by simplify_map_eq|].
    by apply (startswith_slice data "L" eq_refl).
Qed.

Lemma eplus_splits (data : string) :
  Spec.matches_registered "eplus" data = true ->
  splits data (_parse_eplus data).
Proof.
  intros Hm.
  assert (PyStr.startswith data "EP" = true) as H
    by by apply (patterns_start_with_sound
                   "EP" (Spec.registered Constants.PROVIDERS "eplus") data
                   eq_refl Hm).
  unfold _parse_eplus, splits. exists "EP", (PyStr.slice_from 2 data).
  split; [by simplify_map_eq|]. split; [by simplify_map_eq|].
  by apply (startswith_slice data "EP" eq_refl).
Qed.

Lemma cnplayguide_splits (data : string) :
  Spec.matches_registered "cnplayguide" data = true ->
  splits data (_parse_cnplayguide data).
Proof.
  intros Hm.
  assert (PyStr.startswith data "CN" = true) as H
    by by apply (patterns_start_with_sound
                   "CN" (Spec.registered Constants.PROVIDERS "cnplayguide") data
                   eq_refl Hm).
  unfold _parse_cnplayguide, splits. exists "CN", (PyStr.slice_from 2 data).
  split; [by simplify_map_eq|]. split; [by simplify_map_eq|].
  by apply (startswith_slice data "CN" eq_refl).
Qed.

(** X8. For data that [detect_provider] assigns to ticket_pia,
    lawson_ticket, eplus or cnplayguide, [parse] cuts the data in two and
    loses nothing: the fields [prefix] and [ticket_number] are there, and
    [prefix] followed by [ticket_number] is the data. *)
Theorem parse_prefix_and_number_rebuild_data (data p : string) :
  detect_provider data = Some p ->
  p <> "seven_ticket" ->
  exists prefix ticket_number : string,
    parse data None !! "prefix" = Some (VStr prefix)
    /\ parse data None !! "ticket_number" = Some (VStr ticket_number)
    /\ String.append prefix ticket_number = data.
Proof.
  intros Hd Hp. rewrite (parse_detected data p Hd).
  apply DetectFacts.detect_provider_iff in Hd as [Hin Hm].
  cbn in Hin. destruct Hin as [<-|[<-|[<-|[<-|[<-|[]]]]]]; [done|..].
  - by apply ticket_pia_splits.
  - by apply lawson_ticket_splits.
  - by apply eplus_splits.
  - by apply cnplayguide_splits.
Qed.

End ParseFacts.

(** ** parse and validate_provider_data against the registry *)

Module RegistryFacts.
Import ProviderParser ProviderLookup.

Lemma header_fields (provider provider_name data : string) :
  header provider provider_name data !! "raw_data" = Some (VStr data)
  /\ header provider provider_name data !! "provider" = Some (VStr provider).
Proof. unfold header. by simplify_map_eq. Qed.

Ltac lookup_header :=
  repeat match goal with
  | |- context [if ?b then _ else _] => destruct b
  | |- context [match ?l with [] => _ | _ :: _ => _ end] => destruct l
  end;
  unfold header; by simplify_map_eq.

Lemma method_fields (p data : string) (method : string -> gmap string pyval) :
  parser_method p = Some method ->
  method data !! "raw_data" = Some (VStr data)
  /\ method data !! "provider"
     = Some (VStr (if bool_decide (p ∈ map fst Constants.PROVIDERS)
                   then p else "unknown")).
Proof.
  unfold parser_method.
  repeat match goal with
  | |- context [String.eqb p ?id] =>
      destruct (String.eqb_spec p id) as [->|]
  end; intros [= <-].
  all: try (rewrite bool_decide_true by (apply list_elem_of_In; cbn; tauto)).
  - unfold _parse_seven_ticket. split; lookup_header.
  - unfold _parse_ticket_pia. split; lookup_header.
  - unfold _parse_lawson_ticket. split; lookup_header.
  - unfold _parse_eplus. split; lookup_header.
  - unfold _parse_cnplayguide. split; lookup_header.
  - rewrite bool_decide_false.
    + unfold _parse_generic. split; lookup_header.
    + rewrite list_elem_of_In. cbn. intuition congruence.
Qed.

Lemma generic_fields (p data : string) :
  parser_method p = None ->
  _parse_generic data !! "raw_data" = Some (VStr data)
  /\ _parse_generic data !! "provider"
     = Some (VStr (if bool_decide (p ∈ map fst Constants.PROVIDERS)
                   then p else "unknown")).
Proof.
  intros Hp. rewrite bool_decide_false.
  - unfold _parse_generic. split; lookup_header.
  - rewrite list_elem_of_In. cbn. unfold parser_method in Hp.
    intros [<-|[<-|[<-|[<-|[<-|[]]]]]]; by cbn in Hp.
Qed.

(** X9. On data that is not empty, whatever provider is supplied, [parse]
    keeps the data under [raw_data], and reports under [provider] the
    provider it resolved (the one supplied, else the one detected) when this
    is one of the registered ids, and [unknown] in every other case: nothing
    detected, or an id supplied that the registry does not hold. *)
Theorem parse_raw_data_and_provider (data : string)
                                    (provider : option string) :
  PyStr.truthy data = true ->
  parse data provider !! "raw_data" = Some (VStr data)
  /\ parse data provider !! "provider" = Some (VStr (reported data provider)).
Proof.
  intros Ht. unfold parse, reported, resolved. rewrite Ht. cbn [negb].
  destruct (PyStr.opt_truthy provider); cbn [negb].
  - destruct provider as [p|]; [|unfold _parse_generic; split; lookup_header].
    destruct (PyStr.truthy p) eqn:Hp; cbn [negb].
    + destruct (parser_method p) as [method|] eqn:Hm.
      * by apply method_fields.
      * by apply generic_fields.
    + destruct p; [|done].
      rewrite bool_decide_false
        by (rewrite list_elem_of_In; cbn; intuition congruence).
      unfold _parse_generic. split; lookup_header.
  - destruct (detect_provider data) as [p|] eqn:Hd;
      [|unfold _parse_generic; split; lookup_header].
    destruct (PyStr.truthy p) eqn:Hp; cbn [negb].
    + destruct (parser_method p) as [method|] eqn:Hm.
      * by apply method_fields.
      * by apply generic_fields.
    + destruct p; [|done].
      rewrite bool_decide_false
        by (rewrite list_elem_of_In; cbn; intuition congruence).
      unfold _parse_generic. split; lookup_header.
Qed.

Lemma providers_get_registered
    (providers : list (string * Constants.provider_info)) (p : string) :
  Spec.registered providers p
  = match providers_get providers p with
    | Some info => Constants.patterns info
    | None => []
    end.
Proof.
  induction providers as [|[id info] rest IH]; [done|].
  cbn [Spec.registered providers_get]. by destruct (String.eqb id p).
Qed.

Lemma providers_get_in
    (providers : list (string * Constants.provider_info)) (p : string) :
  In p (map fst providers) <-> is_Some (providers_get providers p).
Proof.
  induction providers as [|[id info] rest IH]; cbn [providers_get map fst In].
  - split; [done|]. by intros [? ?].
  - destruct (String.eqb_spec id p) as [->|Hne].
    + split; [by eexists|by left].
    + rewrite <- IH. split; [by intros [?|?]|by right].
Qed.

(** X10. [validate_provider_data] always answers with a [valid] flag, and
    the flag is true exactly when [detect_provider] assigns the data to the
    provider asked about: validation against a provider and detection never
    disagree. *)
Theorem validate_provider_data_agrees_with_detect (data p : string) :
  validate_provider_data data p !! "valid"
  = Some (VBool (bool_decide (detect_provider data = Some p))).
Proof.
  unfold validate_provider_data.
  pose proof (providers_get_registered Constants.PROVIDERS p) as Hreg.
  pose proof (providers_get_in Constants.PROVIDERS p) as Hin.
  pose proof (DetectFacts.detect_provider_iff data p) as Hd.
  unfold Spec.matches_registered in Hd. rewrite Hreg in Hd.
  destruct (providers_get Constants.PROVIDERS p) as [info|].
  - destruct (existsb _ (Constants.patterns info)) eqn:Hm.
    + rewrite bool_decide_true; [by simplify_map_eq|].
      apply Hd. split; [|done]. apply Hin. by eexists.
    + rewrite bool_decide_false; [by simplify_map_eq|].
      intros [_ H]%Hd. done.
  - rewrite bool_decide_false; [by simplify_map_eq|].
    intros [H _]%Hd. apply Hin in H as [? ?]. done.
Qed.

End RegistryFacts.

(** ** create_variants, in general *)

Module VariantsFacts.
Import ImageProcessor Transforms ImageFacts.

Section Facts.
Context {pil ndarray : Type} (lib : ImageLib pil ndarray).

Lemma create_variants_base_fails (image_data : list byte) (e : string) :
  base lib image_data = Raise e -> create_variants lib image_data = Ok [].
Proof.
  intros Hbase. unfold create_variants.
  rewrite try_block_eq, Hbase. by rewrite except_block_eq, Hbase.
Qed.

(** Either every transform of a list succeeds, or one is the first to
    raise. *)
Lemma first_failure (ts : list (transform pil)) (pil_image : pil) :
  (exists images,
     Forall2 (fun t image => enhanced lib t pil_image = Ok image) ts images)
  \/ (exists done_ts failing rest images e,
        ts = done_ts ++ failing :: rest
        /\ Forall2 (fun t image => enhanced lib t pil_image = Ok image)
                   done_ts images
        /\ enhanced lib failing pil_image = Raise e).
Proof.
  induction ts as [|t ts IH]; [left; by exists []|].
  destruct (enhanced lib t pil_image) as [image|e] eqn:Ht.
  - destruct IH as [[images H]|(done_ts & failing & rest & images & e & -> & H
                                & Hf)].
    + left. exists (image :: images). by constructor.
    + right. exists (t :: done_ts), failing, rest, (image :: images), e.
      split; [done|]. split; [by constructor|done].
  - right. exists [], t, ts, [], e. split; [done|]. split; [constructor|done].
Qed.

Lemma names_made (ts : list (transform pil)) (images : list ndarray) :
  List.length ts = List.length images ->
  map variant_name (zip_with made ts images) = names ts.
Proof.
  revert images. induction ts as [|t ts IH]; intros [|image images] H;
    try done.
  cbn. f_equal. apply IH. by injection H.
Qed.

(** What [create_variants] returns on a valid base image: the names. *)
Lemma create_variants_names (image_data : list byte) (pil_image : pil)
                            (image : ndarray) :
  base lib image_data = Ok (pil_image, image) ->
  exists variants,
    create_variants lib image_data = Ok variants
    /\ (map variant_name variants = "standard" :: names (enhancements lib)
        \/ exists done_ts failing rest,
             enhancements lib = done_ts ++ failing :: rest
             /\ map variant_name variants
                = "standard" :: names done_ts ++ ["standard"]).
Proof.
  intros Hbase.
  destruct (first_failure (enhancements lib) pil_image)
    as [[images Hall]
       |(done_ts & failing & rest & images & e & Hsplit & Hdone & Hfail)].
  - eexists. split.
    + unfold create_variants.
      by rewrite try_block_eq, Hbase, (run_all _ _ images).
    + left. cbn [app map variant_name]. f_equal.
      apply names_made. by eapply Forall2_length.
  - eexists. split; [by eapply create_variants_on_failure|].
    right. exists done_ts, failing, rest. split; [done|].
    cbn [map variant_name]. f_equal. rewrite map_app. cbn. f_equal.
    apply names_made. by eapply Forall2_length.
Qed.

Lemma create_variants_total (image_data : list byte) :
  (exists variants, create_variants lib image_data = Ok variants)
  /\ (create_variants lib image_data = Ok []
      <-> exists e, base lib image_data = Raise e).
Proof.
  destruct (base lib image_data) as [[pil_image image]|e] eqn:Hbase.
  - destruct (create_variants_names _ _ _ Hbase) as (variants & Hret & Hn).
    split; [by exists variants|]. rewrite Hret. split; [|by intros [? ?]].
    intros [= ->]. destruct Hn as [Hn|(? & ? & ? & _ & Hn)]; done.
  - rewrite (create_variants_base_fails _ e Hbase).
    split; [by eexists|]. split; [by eexists|done].
Qed.

(** X11. [create_variants] lets no exception out, whatever the library
    does; and the list it returns is empty exactly when the base image
    cannot be had, that is, when opening the bytes, resizing or converting
    the image raises. *)
Theorem create_variants_never_raises (image_data : list byte) :
  (exists variants, create_variants lib image_data = Ok variants)
  /\ (create_variants lib image_data = Ok []
      <-> exists e, base lib image_data = Raise e).
Proof.
  apply create_variants_total.
Qed.

(** X12. On a valid base image [create_variants] returns between one and
    seven variants, the first named [standard], and each named [standard]
    or after one of the six transforms. *)
Theorem create_variants_on_valid_base (image_data : list byte)
                                      (pil_image : pil) (image : ndarray) :
  base lib image_data = Ok (pil_image, image) ->
  exists (v : Variant ndarray) (variants : list (Variant ndarray)),
    create_variants lib image_data = Ok (v :: variants)
    /\ variant_name v = "standard"
    /\ (List.length (v :: variants) <= 7)%nat
    /\ Forall (fun w =>
                 In (variant_name w)
                    ["standard"; "high_contrast"; "edge_enhanced";
                     "noise_reduced"; "blur_reduced"; "grayscale"; "binary"])
              (v :: variants).
Proof.
  intros Hbase.
  destruct (create_variants_names _ _ _ Hbase) as (variants & Hret & Hn).
  assert (exists names : list string,
            map variant_name variants = "standard" :: names
            /\ (List.length names <= 6)%nat
            /\ incl names
                 ["standard"; "high_contrast"; "edge_enhanced";
                  "noise_reduced"; "blur_reduced"; "grayscale"; "binary"])
    as (ns & Hns & Hlen & Hincl).
  { destruct Hn as [Hn|(done_ts & failing & rest & Hsplit & Hn)].
    - eexists. split; [exact Hn|]. split; [cbn; lia|].
      intros n Hin. by right.
    - eexists. split; [exact Hn|].
      apply (f_equal names) in Hsplit. unfold names in Hsplit at 2.
      rewrite map_app in Hsplit. fold (names done_ts) in Hsplit.
      split.
      + apply (f_equal (@List.length _)) in Hsplit.
        rewrite length_app in Hsplit |- *. cbn in Hsplit |- *. lia.
      + intros n [Hin|[<-|[]]]%in_app_iff; [|by left].
        right. change (In n (names (enhancements lib))).
        rewrite Hsplit. apply in_app_iff. by left. }
  destruct variants as [|v variants]; [done|].
  exists v, variants. split; [done|].
  cbn [map] in Hns. injection Hns as Hv Hns. split; [done|].
  split; [cbn; rewrite <- (length_map variant_name), Hns; lia|].
  apply Forall_forall. intros w Hw.
  apply list_elem_of_In, (in_map variant_name) in Hw.
  cbn [map] in Hw. rewrite Hv, Hns in Hw.
  destruct Hw as [<-|Hw]; [by left|by apply Hincl].
Qed.

(** X13. When neither the base image nor any of the six transforms raises,
    [create_variants] returns exactly seven variants, named in the fixed
    order standard, high_contrast, edge_enhanced, noise_reduced,
    blur_reduced, grayscale, binary. *)
Theorem create_variants_all_seven (image_data : list byte) (pil_image : pil)
    (image : ndarray) :
  base lib image_data = Ok (pil_image, image) ->
  Forall (fun t => exists image', enhanced lib t pil_image = Ok image')
         (enhancements lib) ->
  exists variants,
    create_variants lib image_data = Ok variants
    /\ map variant_name variants
       = ["standard"; "high_contrast"; "edge_enhanced"; "noise_reduced";
          "blur_reduced"; "grayscale"; "binary"].
Proof.
  intros Hbase [images Hall]%Forall_exists_Forall2.
  by apply (create_variants_all lib image_data pil_image image images).
Qed.

End Facts.

End VariantsFacts.

(** ** The stock scanner *)

Module StockFacts.
Import Scanner Provenance Pyzbar.

Lemma hex_digit_cases (n : N) :
  (n < 16)%N ->
  (PyStr.code (hex_digit n) <? 128)%N = true
  /\ (Spec.is_ascii_digit (PyStr.code (hex_digit n)) = true
      \/ Rigid.barcode_char (PyStr.code (hex_digit n)) = false).
Proof.
  intros Hn. unfold hex_digit.
  destruct n as [|[[[[?|?|]|[?|?|]|]|[[?|?|]|[?|?|]|]|]|[[[?|?|]|[?|?|]|]
                  |[[?|?|]|[?|?|]|]|]|]]; try lia;
    vm_compute; auto.
Qed.

Lemma byte_halves (b : byte) :
  (Byte.to_N b / 16 < 16)%N /\ (Byte.to_N b mod 16 < 16)%N.
Proof.
  split; [|apply N.mod_lt; lia].
  pose proof (Byte.to_N_bounded b). apply N.Div0.div_lt_upper_bound; lia.
Qed.

(** The characters of a hex form are its bytes. *)
Lemma hex_chars (payload : list byte) :
  PyStr.chars (hex payload)
  = map PyStr.code
        (flat_map (fun b => [hex_digit (Byte.to_N b / 16);
                             hex_digit (Byte.to_N b mod 16)])
                  payload).
Proof.
  unfold hex. apply PyStrFacts.chars_of_ascii.
  induction payload as [|b payload IH]; [done|].
  cbn [flat_map app forallb]. destruct (byte_halves b) as [Hhi Hlo].
  rewrite (proj1 (hex_digit_cases _ Hhi)), (proj1 (hex_digit_cases _ Hlo)).
  exact IH.
Qed.

(** The hex form of a payload, when made of validated characters only, is
    made of digits only. *)
Lemma hex_barcode_chars (payload : list byte) :
  forallb Rigid.barcode_char (PyStr.chars (hex payload)) = true ->
  forallb Spec.is_ascii_digit (PyStr.chars (hex payload)) = true.
Proof.
  rewrite hex_chars.
  induction payload as [|b payload IH]; [done|].
  cbn [flat_map app map forallb].
  intros [H1 [H2 H]%andb_prop]%andb_prop. rewrite (IH H), andb_true_r.
  destruct (byte_halves b) as [Hhi Hlo].
  destruct (hex_digit_cases _ Hhi) as [_ [->|E]]; [|congruence].
  destruct (hex_digit_cases _ Hlo) as [_ [->|E]]; [done|congruence].
Qed.

Section Engine.
Context {ndarray : Type} (PYZBAR_AVAILABLE : bool).
Context (pyzbar_decode : ndarray -> result (list (list byte))).
Context (decode_utf8 : list byte -> option string).

(** Where a string of [barcodes_loop] comes from. *)
Let from_payload (barcodes : list (list byte)) (s : string) : Prop :=
  exists payload,
    payload ∈ barcodes
    /\ (decode_utf8 payload = Some s
        \/ (decode_utf8 payload = None /\ s = hex payload)).

Lemma barcodes_loop_from (barcodes rest : list (list byte))
                         (results : list string) (s : string) :
  rest ⊆ barcodes ->
  (forall r, r ∈ results -> from_payload barcodes r) ->
  s ∈ barcodes_loop decode_utf8 rest results ->
  from_payload barcodes s.
Proof.
  revert results.
  induction rest as [|payload rest IH]; intros results Hsub Hres.
  - cbn. apply Hres.
  - cbn [barcodes_loop].
    assert (rest ⊆ barcodes) as Hrest by set_solver.
    assert (payload ∈ barcodes) as Hin by set_solver.
    destruct (decode_utf8 payload) as [data|] eqn:Hd.
    + destruct (PyStr.truthy data && (2 <? PyStr.len data)%nat).
      * apply IH; [done|]. intros r [Hr|Hr%list_elem_of_singleton]%elem_of_app.
        { by apply Hres. }
        subst r. exists payload. split; [done|]. by left.
      * by apply IH.
    + apply IH; [done|]. intros r [Hr|Hr%list_elem_of_singleton]%elem_of_app.
      { by apply Hres. }
      subst r. exists payload. split; [done|]. by right.
Qed.

Lemma scan_with_pyzbar_from (image : ndarray) (format_hint : option string)
                            (results : list string) (s : string) :
  _scan_with_pyzbar PYZBAR_AVAILABLE pyzbar_decode decode_utf8 image
                    format_hint = Ok results ->
  s ∈ results ->
  PYZBAR_AVAILABLE = true
  /\ exists barcodes,
       pyzbar_decode image = Ok barcodes /\ from_payload barcodes s.
Proof.
  unfold _scan_with_pyzbar. destruct PYZBAR_AVAILABLE; cbn [negb].
  - destruct (pyzbar_decode image) as [barcodes|].
    + intros [= <-] Hs. split; [done|]. exists barcodes. split; [done|].
      apply (barcodes_loop_from barcodes barcodes [] s); [done| |done].
      intros r Hr. by apply elem_of_nil in Hr.
    + intros [= <-] Hs. by apply elem_of_nil in Hs.
  - intros [= <-] Hs. by apply elem_of_nil in Hs.
Qed.

(** The engines [_init_engines] builds. *)
Lemma init_engines_cases (ZXING_AVAILABLE : bool) (e : Engine ndarray) :
  e ∈ _init_engines PYZBAR_AVAILABLE ZXING_AVAILABLE
        (_scan_with_pyzbar PYZBAR_AVAILABLE pyzbar_decode decode_utf8) ->
  (e = mkEngine "pyzbar"
         (_scan_with_pyzbar PYZBAR_AVAILABLE pyzbar_decode decode_utf8)
         1 pyzbar_formats)
  \/ engine_function e = _scan_with_zxing
  \/ engine_function e = _scan_with_opencv.
Proof.
  unfold _init_engines.
  destruct PYZBAR_AVAILABLE, ZXING_AVAILABLE; cbn;
    rewrite ?elem_of_cons, ?elem_of_nil; intuition (subst; auto).
Qed.

Section Scan.
Context (time_time : nat -> float) (ZXING_AVAILABLE : bool).
Context (variants : list (Variant ndarray)).
Context (provider_hint format_hint : option string) (enable_ml : bool).

Let returned : list Candidate :=
  scan_multiple_variants time_time
    (stock_scanner PYZBAR_AVAILABLE pyzbar_decode decode_utf8 ZXING_AVAILABLE)
    variants provider_hint format_hint enable_ml.

Lemma stock_candidate (c : Candidate) :
  c ∈ returned ->
  PYZBAR_AVAILABLE = true
  /\ engine c = "pyzbar"
  /\ eligible format_hint
       (mkEngine "pyzbar"
          (_scan_with_pyzbar PYZBAR_AVAILABLE pyzbar_decode decode_utf8)
          1 pyzbar_formats)
  /\ exists v barcodes payload,
       v ∈ variants
       /\ pyzbar_decode (variant_image v) = Ok barcodes
       /\ payload ∈ barcodes
       /\ (decode_utf8 payload = Some (data c)
           \/ (decode_utf8 payload = None
               /\ data c = hex payload
               /\ forallb Spec.is_ascii_digit (PyStr.chars (data c)) = true)).
Proof.
  intros Hc. apply (Returned.returned_from_generated time_time) in Hc
    as (v & e & results & Hv & He & Hel & Hcall & Hd & _ & Heng & _ & Hval & _).
  cbn [engines stock_scanner] in He.
  apply init_engines_cases in He as [->|[He|He]].
  - cbn [engine_function] in Hcall.
    destruct (scan_with_pyzbar_from _ _ _ _ Hcall Hd)
      as (Hp & barcodes & Hdec & payload & Hin & Hfrom).
    split; [done|]. split; [done|]. split; [done|].
    exists v, barcodes, payload. split; [done|]. split; [done|].
    split; [done|]. destruct Hfrom as [Hs|[Hn Hs]]; [by left|right].
    split; [done|]. split; [done|]. rewrite Hs. apply hex_barcode_chars.
    rewrite <- Hs.
    by apply (ValidatedFacts.validated_string_shape_aux _ provider_hint).
  - rewrite He in Hcall. injection Hcall as <-. by apply elem_of_nil in Hd.
  - rewrite He in Hcall. injection Hcall as <-. by apply elem_of_nil in Hd.
Qed.

(** X14. With the engines the scanner builds for itself, every candidate
    returned comes from pyzbar: its engine is [pyzbar], and its data is the
    text of a symbol pyzbar found on one of the variants, or the
    hexadecimal form of a payload that is not UTF-8, which is then made of
    digits only (a hex form with a letter never passes validation). *)
Theorem stock_scanner_candidates (c : Candidate) :
  c ∈ scan_multiple_variants time_time
        (stock_scanner PYZBAR_AVAILABLE pyzbar_decode decode_utf8
                       ZXING_AVAILABLE)
        variants provider_hint format_hint enable_ml ->
  engine c = "pyzbar"
  /\ exists v barcodes payload,
       v ∈ variants
       /\ pyzbar_decode (variant_image v) = Ok barcodes
       /\ payload ∈ barcodes
       /\ (decode_utf8 payload = Some (data c)
           \/ (decode_utf8 payload = None
               /\ data c = hex payload
               /\ forallb Spec.is_ascii_digit (PyStr.chars (data c)) = true)).
Proof. intros Hc. by apply stock_candidate in Hc as (_ & ? & _ & ?). Qed.

(** X15. With the engines the scanner builds for itself, nothing is
    returned when pyzbar could not be imported, nor under a format hint
    that is not one of pyzbar's five formats: the two other engines return
    no string. *)
Theorem stock_scanner_needs_pyzbar :
  PYZBAR_AVAILABLE = false
  \/ (exists f, format_hint = Some f
                /\ PyStr.truthy f = true
                /\ PyStr.in_list f pyzbar_formats = false) ->
  scan_multiple_variants time_time
    (stock_scanner PYZBAR_AVAILABLE pyzbar_decode decode_utf8 ZXING_AVAILABLE)
    variants provider_hint format_hint enable_ml = [].
Proof.
  intros H. apply elem_of_nil_inv. intros c Hc.
  apply stock_candidate in Hc as (Hp & _ & Hel & _).
  destruct H as [H|(f & Hhint & Hf & Hnot)].
  - rewrite Hp in H. discriminate H.
  - rewrite Hhint in Hel. unfold eligible in Hel.
    cbn [engine_formats] in Hel. specialize (Hel Hf).
    rewrite Hnot in Hel. discriminate Hel.
Qed.

End Scan.

End Engine.

End StockFacts.

(** ** The range of the scores *)

Module ConfidenceFacts.
Import Scanner Scores.

Lemma values_floor : forallb (PrimFloat.leb 0.65) values = true.
Proof. vm_compute. reflexivity. Qed.

Lemma values_ceiling :
  forallb (fun x => negb (PrimFloat.ltb 1.0 x)) values = true.
Proof. vm_compute. reflexivity. Qed.

(** X16. Whatever the data, the variant, the engine and the hint, the
    score is at least 0.65 (the base 0.5 and the two smallest weights); and
    a string read by pyzbar on the standard variant scores exactly 1.0
    with or without a matching provider hint, so that no other candidate
    sorts before it. *)
Theorem calculate_confidence_floor_and_top
    (data variant engine : string) (provider_hint : option string) :
  PrimFloat.leb 0.65
    (_calculate_confidence data variant engine provider_hint) = true
  /\ _calculate_confidence data "standard" "pyzbar" provider_hint
     = 1.0%float
  /\ PrimFloat.ltb
       (_calculate_confidence data "standard" "pyzbar" provider_hint)
       (_calculate_confidence data variant engine provider_hint) = false.
Proof.
  split.
  { pose proof (ScoreFacts.calculate_confidence_in data variant engine
                  provider_hint) as Hin.
    pose proof values_floor as Hall. rewrite forallb_forall in Hall.
    by apply Hall. }
  assert (_calculate_confidence data "standard" "pyzbar" provider_hint
          = 1.0%float) as Htop.
  { unfold _calculate_confidence.
    destruct provider_hint as [provider|];
      [destruct (PyStr.truthy provider
                 && _validate_provider_pattern data provider)|];
      destruct (PyStr.isdigit data || Re.re_match "^[A-Z0-9\s]+$" data);
      vm_compute; reflexivity. }
  split; [done|]. rewrite Htop.
  pose proof (ScoreFacts.calculate_confidence_in data variant engine
                provider_hint) as Hin.
  pose proof values_ceiling as Hall. rewrite forallb_forall in Hall.
  by apply negb_true_iff, Hall.
Qed.

End ConfidenceFacts.

(** ** services/provider_parser.py: the three groups of a seven_ticket *)

Module SevenFacts.
Import Re Rigid RigidFacts Groups ProviderParser.

Lemma digit_class_sound (cls : cclass) (c : N) :
  digit_class cls = true -> class_matches cls c = true ->
  PyStr.chr_isdecimal c = true.
Proof.
  unfold digit_class. rewrite class_ranges_spec.
  apply PyStrFacts.table_within_sound.
Qed.

Lemma space_class_sound (cls : cclass) (c : N) :
  space_class cls = true -> class_matches cls c = true ->
  PyStr.chr_isspace c = true.
Proof.
  unfold space_class. rewrite class_ranges_spec.
  apply PyStrFacts.table_within_sound.
Qed.

(** A subject that fits digit classes followed by other classes starts
    with as many digits. *)
Lemma fits_digits (A B : list cclass) (us : list (string * N)) :
  forallb digit_class A = true ->
  fits (A ++ B) (map snd us) = true ->
  exists a r,
    us = a ++ r /\ List.length a = List.length A
    /\ forallb PyStr.chr_isdecimal (map snd a) = true
    /\ fits B (map snd r) = true.
Proof.
  revert us. induction A as [|cls A IH]; intros us HA H.
  - exists [], us. by cbn.
  - cbn [forallb] in HA. apply andb_prop in HA as [Hcls HA].
    cbn [app fits] in H. destruct us as [|x us]; [done|]. cbn [map] in H.
    apply andb_prop in H as [Hx H].
    destruct (IH us HA H) as (a & r & -> & Hlen & Hd & Hr).
    exists (x :: a), r. cbn [app List.length map forallb].
    rewrite (digit_class_sound cls _ Hcls Hx), Hd, Hlen. by cbn.
Qed.

Lemma split_loop_digits (cur run rest : list (string * N)) :
  forallb PyStr.chr_isdecimal (map snd run) = true ->
  PyStr.split_loop cur (run ++ rest)
  = PyStr.split_loop (rev run ++ cur) rest.
Proof.
  revert cur. induction run as [|u run IH]; intros cur H; [done|].
  cbn [map forallb] in H. apply andb_prop in H as [Hu H].
  cbn [app PyStr.split_loop].
  rewrite (PyStrFacts.decimal_not_space _ Hu), (IH _ H).
  cbn [rev]. by rewrite <- app_assoc.
Qed.

Lemma split_loop_space (cur rest : list (string * N)) (w : string * N) :
  cur <> [] -> PyStr.chr_isspace (snd w) = true ->
  PyStr.split_loop cur (w :: rest)
  = PyStr.text (rev cur) :: PyStr.split_loop [] rest.
Proof.
  intros Hcur Hw. cbn [PyStr.split_loop]. rewrite Hw. by destruct cur.
Qed.

Lemma split_loop_end (cur tail : list (string * N)) :
  cur <> [] -> at_end (map snd tail) = true ->
  PyStr.split_loop cur tail = [PyStr.text (rev cur)].
Proof.
  intros Hcur Ht. destruct tail as [|u [|? ?]]; [by destruct cur| |done].
  cbn [map at_end] in Ht. apply N.eqb_eq in Ht.
  rewrite split_loop_space; [done..|]. by rewrite Ht.
Qed.

Lemma rev_nonempty {A : Type} (a : list A) :
  (0 < List.length a)%nat -> rev a <> [].
Proof.
  intros Hlen Heq. apply (f_equal (@List.length A)) in Heq.
  rewrite length_rev in Heq. cbn in Heq. lia.
Qed.

(** The shape of a subject a pattern of three digit groups matches, and
    what [split] makes of it. *)
Lemma groups_of_sound (pattern data : string) (n1 n2 n3 : nat) :
  groups_of pattern n1 n2 n3 = true ->
  (0 < n1)%nat -> (0 < n2)%nat -> (0 < n3)%nat ->
  re_match pattern data = true ->
  exists a b c : list (string * N),
    PyStr.split data = [PyStr.text a; PyStr.text b; PyStr.text c]
    /\ List.length a = n1 /\ List.length b = n2 /\ List.length c = n3
    /\ forallb PyStr.chr_isdecimal (map snd a) = true
    /\ forallb PyStr.chr_isdecimal (map snd b) = true
    /\ forallb PyStr.chr_isdecimal (map snd c) = true
    /\ (forall u, In u (a ++ b ++ c) -> In u (PyStr.units data)).
Proof.
  unfold groups_of, re_match, PyStr.split, PyStr.chars.
  destruct (compile pattern) as [ps|]; [|done].
  intros [Hr Hg]%andb_prop H1 H2 H3 Hm. rewrite rigid_match in Hm by done.
  revert Hg.
  destruct (skipn n1 (expand ps)) as [|w1 rest1] eqn:E1; [done|].
  destruct (skipn n2 rest1) as [|w2 rest2] eqn:E2; [done|].
  intros [[[[[HA Hw1]%andb_prop HB]%andb_prop
             Hw2]%andb_prop HC]%andb_prop L3%Nat.eqb_eq]%andb_prop.
  assert (List.length (firstn n1 (expand ps)) = n1) as L1.
  { apply firstn_length_le.
    apply (f_equal (@List.length _)) in E1. rewrite length_skipn in E1.
    cbn in E1. lia. }
  assert (List.length (firstn n2 rest1) = n2) as L2.
  { apply firstn_length_le.
    apply (f_equal (@List.length _)) in E2. rewrite length_skipn in E2.
    cbn in E2. lia. }
  assert (expand ps
          = firstn n1 (expand ps) ++ w1 :: firstn n2 rest1 ++ w2 :: rest2)
    as Hshape by (by rewrite <- E2, firstn_skipn, <- E1, firstn_skipn).
  rewrite Hshape in Hm.
  destruct (fits_digits _ _ _ HA Hm) as (a & r & Hs & La & Da & Hm1).
  destruct r as [|x1 r]; [done|]. cbn [map fits] in Hm1.
  apply andb_prop in Hm1 as [Hx1 Hm1].
  destruct (fits_digits _ _ _ HB Hm1) as (b & r' & -> & Lb & Db & Hm2).
  destruct r' as [|x2 r']; [done|]. cbn [map fits] in Hm2.
  apply andb_prop in Hm2 as [Hx2 Hm2].
  rewrite <- (app_nil_r rest2) in Hm2.
  destruct (fits_digits _ _ _ HC Hm2) as (c & tail & -> & Lc & Dc & Hend).
  cbn [fits] in Hend.
  exists a, b, c. rewrite Hs.
  split.
  { rewrite split_loop_digits, app_nil_r by done.
    rewrite split_loop_space, rev_involutive;
      [|apply (rev_nonempty a); lia
       |by apply (space_class_sound w1)].
    rewrite split_loop_digits, app_nil_r by done.
    rewrite split_loop_space, rev_involutive;
      [|apply (rev_nonempty b); lia
       |by apply (space_class_sound w2)].
    rewrite split_loop_digits, app_nil_r by done.
    rewrite split_loop_end, rev_involutive;
      [done|apply (rev_nonempty c); lia|done]. }
  split; [by rewrite La|]. split; [by rewrite Lb|].
  split; [by rewrite Lc|]. split; [done|]. split; [done|]. split; [done|].
  intros u Hu. rewrite !in_app_iff in *. cbn [In].
  rewrite !in_app_iff. cbn [In]. rewrite !in_app_iff. tauto.
Qed.

Lemma seven_ticket_patterns :
  groups_of "^23\d{6}\s\d{8}\s\d{3}$" 8 8 3 = true
  /\ groups_of "^\d{6}\s\d{8}\s\d{3}$" 6 8 3 = true.
Proof. split; vm_compute; reflexivity. Qed.

Lemma parse_seven_fields (data t s c : string) (rest : list string) :
  PyStr.split data = t :: s :: c :: rest ->
  seven_fields t s c (_parse_seven_ticket data).
Proof.
  intros Hs. unfold _parse_seven_ticket, seven_fields, header. rewrite Hs.
  destruct (PyStr.startswith t "23"); by simplify_map_eq.
Qed.

(** A group of digits cut out of a string is read again as these digits. *)
Lemma chars_of_group (data : string) (a : list (string * N)) :
  (forall u, In u a -> In u (PyStr.units data)) ->
  forallb PyStr.chr_isdecimal (map snd a) = true ->
  PyStr.chars (PyStr.text a) = map snd a.
Proof.
  intros Hin Hd. apply (PyStrFacts.chars_text data).
  intros u Hu. split; [by apply Hin|].
  apply PyStrFacts.decimal_code_point.
  rewrite forallb_forall in Hd. apply Hd. by apply in_map.
Qed.

(** X17. Data that [detect_provider] assigns to seven_ticket is always cut
    by [parse] into its three groups of decimal digits (of any script, as
    [\d] has it), of 6 or 8, of 8 and of 3 characters: the fields
    [ticket_number], [serial_number] and [check_digit] are there and hold
    the groups, [ticket_id] is the second group when the first starts with
    23 and the first group otherwise, and the fallback for fewer than three
    parts is never taken. *)
Theorem seven_ticket_groups (data : string) :
  detect_provider data = Some "seven_ticket" ->
  exists t s c : string,
    PyStr.split data = [t; s; c]
    /\ (PyStr.len t = 6 \/ PyStr.len t = 8)%nat
    /\ PyStr.len s = 8%nat /\ PyStr.len c = 3%nat
    /\ forallb PyStr.chr_isdecimal (PyStr.chars t) = true
    /\ forallb PyStr.chr_isdecimal (PyStr.chars s) = true
    /\ forallb PyStr.chr_isdecimal (PyStr.chars c) = true
    /\ seven_fields t s c (parse data None).
Proof.
  intros Hd. rewrite (ParseFacts.parse_detected data _ Hd).
  apply DetectFacts.detect_provider_iff in Hd as [_ Hm].
  unfold Spec.matches_registered in Hm. cbn in Hm.
  rewrite orb_false_r in Hm.
  destruct seven_ticket_patterns as [G1 G2].
  assert (exists n1 a b c,
            (n1 = 6 \/ n1 = 8)%nat
            /\ PyStr.split data = [PyStr.text a; PyStr.text b; PyStr.text c]
            /\ List.length a = n1 /\ List.length b = 8%nat
            /\ List.length c = 3%nat
            /\ forallb PyStr.chr_isdecimal (map snd a) = true
            /\ forallb PyStr.chr_isdecimal (map snd b) = true
            /\ forallb PyStr.chr_isdecimal (map snd c) = true
            /\ (forall u, In u (a ++ b ++ c) -> In u (PyStr.units data)))
    as (n1 & a & b & c & Hn & Hs & La & Lb & Lc & Da & Db & Dc & Hin).
  { apply orb_prop in Hm as [Hm|Hm].
    - destruct (groups_of_sound _ data 8 8 3 G1) as (a & b & c & H);
        [lia..|done|].
      exists 8%nat, a, b, c. split; [by right|]. exact H.
    - destruct (groups_of_sound _ data 6 8 3 G2) as (a & b & c & H);
        [lia..|done|].
      exists 6%nat, a, b, c. split; [by left|]. exact H. }
  exists (PyStr.text a), (PyStr.text b), (PyStr.text c).
  assert (PyStr.chars (PyStr.text a) = map snd a) as Ca.
  { apply (chars_of_group data); [|done].
    intros u Hu. apply Hin. rewrite in_app_iff. by left. }
  assert (PyStr.chars (PyStr.text b) = map snd b) as Cb.
  { apply (chars_of_group data); [|done].
    intros u Hu. apply Hin. rewrite !in_app_iff. right. by left. }
  assert (PyStr.chars (PyStr.text c) = map snd c) as Cc.
  { apply (chars_of_group data); [|done].
    intros u Hu. apply Hin. rewrite !in_app_iff. right. by right. }
  unfold PyStr.len. rewrite Ca, Cb, Cc, !length_map.
  split; [done|]. split; [lia|]. split; [done|]. split; [done|].
  split; [done|]. split; [done|]. split; [done|].
  by apply (parse_seven_fields data _ _ _ []).
Qed.

End SevenFacts.

(** ** utils/validation.py: what the validators accept *)

Module ValidationFacts.
Import Scanner Validation.

Lemma in_list_In (x : string) (l : list string) :
  PyStr.in_list x l = true <-> In x l.
Proof.
  unfold PyStr.in_list. rewrite existsb_exists. split.
  - intros (y & Hy & ->%String.eqb_eq). done.
  - intros Hx. exists x. split; [done|]. apply String.eqb_refl.
Qed.

Lemma not_truthy (s : string) : PyStr.truthy s = false <-> s = "".
Proof. by destruct s. Qed.

(** A hint passes when it is absent, empty, or in the list. *)
Lemma hint_error_none (validate : string -> option string)
                      (allowed : list string) (hint : option string) :
  (forall h, PyStr.truthy h = true ->
             returned_error (validate h) = None <-> In h allowed) ->
  hint_error validate hint = None
  <-> (forall h, hint = Some h -> h = "" \/ In h allowed).
Proof.
  intros Hv. destruct hint as [h|]; cbn [hint_error]; [|by split].
  destruct (PyStr.truthy h) eqn:Ht.
  - rewrite (Hv h Ht). split.
    + intros Hin ? [= <-]. by right.
    + intros H. destruct (H h eq_refl) as [->|]; done.
  - apply not_truthy in Ht as ->. split; [|done].
    intros _ ? [= <-]. by left.
Qed.

Lemma validate_provider_none (h : string) :
  PyStr.truthy h = true ->
  returned_error (validate_provider h) = None
  <-> In h (map fst Constants.PROVIDERS).
Proof.
  intros Ht. unfold validate_provider. rewrite Ht. cbn [negb].
  rewrite <- in_list_In.
  by destruct (PyStr.in_list h (map fst Constants.PROVIDERS)).
Qed.

Lemma validate_format_none (h : string) :
  PyStr.truthy h = true ->
  returned_error (validate_format h) = None <-> In h SUPPORTED_FORMATS.
Proof.
  intros Ht. unfold validate_format. rewrite Ht. cbn [negb].
  rewrite <- in_list_In. by destruct (PyStr.in_list h SUPPORTED_FORMATS).
Qed.

(** X18. [validate_scan_params] accepts the parameters exactly when the
    provider hint is absent, empty or one of the five registered ids, the
    format hint is absent, empty or one of the six supported formats, and
    [enable_ml] is absent, [true] or [false]. *)
Theorem validate_scan_params_accepts (params : gmap string string) :
  validate_scan_params params = None
  <-> (forall p, params !! "provider_hint" = Some p ->
                 p = "" \/ In p (map fst Constants.PROVIDERS))
      /\ (forall f, params !! "format_hint" = Some f ->
                    f = "" \/ In f SUPPORTED_FORMATS)
      /\ (forall m, params !! "enable_ml" = Some m ->
                    m = "true" \/ m = "false").
Proof.
  unfold validate_scan_params.
  rewrite <- (hint_error_none validate_provider _ _ validate_provider_none).
  rewrite <- (hint_error_none validate_format _ _ validate_format_none).
  destruct (hint_error validate_provider (params !! "provider_hint"));
    [by split; [|intros [? _]]|].
  destruct (hint_error validate_format (params !! "format_hint"));
    [by split; [|intros (_ & ? & _)]|].
  destruct (PyStr.in_list (default "true" (params !! "enable_ml"))
              ["true"; "false"]) eqn:E; cbn [negb].
  - split; [|done]. intros _. split; [done|]. split; [done|].
    intros m Hm. rewrite Hm in E. apply in_list_In in E. cbn in E.
    cbn [default] in E. intuition.
  - split; [done|]. intros (_ & _ & H). exfalso.
    assert (PyStr.in_list (default "true" (params !! "enable_ml"))
              ["true"; "false"] = true) as E'; [|congruence].
    apply in_list_In. destruct (params !! "enable_ml") as [m|]; cbn.
    + destruct (H m eq_refl) as [->| ->]; tauto.
    + by left.
Qed.

Lemma bytes_startswith_prefix (data magic : list byte) :
  bytes_startswith data magic = true <-> exists rest, data = magic ++ rest.
Proof.
  revert data. induction magic as [|m magic IH]; intros data.
  - split; [intros _; by exists data|done].
  - destruct data as [|d data]; cbn [bytes_startswith].
    + split; [done|]. by intros [? ?].
    + rewrite andb_true_iff, IH. split.
      * intros [Hd [rest ->]]. exists rest.
        apply Byte.byte_dec_bl in Hd as ->. done.
      * intros [rest [= -> ->]]. split; [|by exists rest].
        apply Byte.byte_dec_lb. done.
Qed.

Lemma magic_loop_some (data : list byte)
                      (items : list (list byte * string)) :
  magic_loop data items = true
  <-> exists magic, In magic (map fst items)
                    /\ exists rest, data = magic ++ rest.
Proof.
  induction items as [|[magic mime] items IH]; cbn [magic_loop map In fst].
  - split; [done|]. by intros (? & [] & _).
  - destruct (bytes_startswith data magic) eqn:E.
    + split; [|done]. intros _. exists magic. split; [by left|].
      by apply bytes_startswith_prefix.
    + rewrite IH. split.
      * intros (m & Hin & Hm). exists m. split; [by right|done].
      * intros (m & [<-|Hin] & Hm).
        { apply bytes_startswith_prefix in Hm. congruence. }
        by exists m.
Qed.

(** X19. [validate_image_file] accepts the bytes exactly when there are at
    least ten of them, no more than [max_size], and they start with the
    signature of a JPEG, PNG or GIF file. *)
Theorem validate_image_file_accepts (image_data : list byte) (max_size : Z) :
  validate_image_file image_data max_size = None
  <-> (10 <= List.length image_data)%nat
      /\ (Z.of_nat (List.length image_data) <= max_size)%Z
      /\ exists magic, In magic (map fst magic_numbers)
                       /\ exists rest, image_data = magic ++ rest.
Proof.
  rewrite <- magic_loop_some. unfold validate_image_file.
  destruct image_data as [|b image_data]; [cbn; split; [done|lia]|].
  set (d := b :: image_data).
  destruct (Z.ltb_spec max_size (Z.of_nat (List.length d)));
    [split; [done|lia]|].
  destruct (Nat.ltb_spec (List.length d) 10); [split; [done|lia]|].
  destruct (magic_loop d magic_numbers); cbn [negb]; [done|].
  split; [done|]. by intros (_ & _ & ?).
Qed.

Lemma image_error_truthy (image_data : list byte) (max_size : Z) :
  returned_error (validate_image_file image_data max_size)
  = validate_image_file image_data max_size.
Proof.
  unfold validate_image_file. destruct image_data; [done|].
  repeat match goal with |- context [if ?b then _ else _] => destruct b end;
    done.
Qed.

Lemma images_loop_first (i : nat) (images_data : list (list byte)) :
  match images_loop i images_data with
  | None =>
      Forall (fun image_data =>
                validate_image_file image_data MAX_FILE_SIZE = None)
             images_data
  | Some message =>
      exists (k : nat) (image_data : list byte) (error : string),
        images_data !! k = Some image_data
        /\ validate_image_file image_data MAX_FILE_SIZE = Some error
        /\ message
           = String.append "Image "
               (String.append (pretty (Z.of_nat (i + k) + 1)%Z)
                  (String.append ": " error))
        /\ Forall (fun earlier =>
                     validate_image_file earlier MAX_FILE_SIZE = None)
                  (firstn k images_data)
  end.
Proof.
  revert i. induction images_data as [|image_data rest IH]; intros i.
  - by cbn.
  - cbn [images_loop]. rewrite image_error_truthy.
    destruct (validate_image_file image_data MAX_FILE_SIZE) as [error|] eqn:E.
    + exists 0%nat, image_data, error. rewrite Nat.add_0_r.
      split; [done|]. split; [done|]. split; [done|]. by cbn.
    + specialize (IH (S i)).
      destruct (images_loop (S i) rest) as [message|].
      * destruct IH as (k & img & error & Hk & Hv & -> & Hall).
        exists (S k), img, error. split; [done|]. split; [done|].
        split; [by rewrite Nat.add_succ_r|].
        cbn [firstn]. by constructor.
      * by constructor.
Qed.

(** X20. On a list of images that is neither empty nor longer than
    [max_images], [validate_batch_request] accepts exactly when
    [validate_image_file] accepts every image under the 10 MB limit;
    otherwise its message names the first image that fails, counted from
    1, followed by the message of [validate_image_file] for that image. *)
Theorem validate_batch_request_first_failure
    (images_data : list (list byte)) (max_images : Z) :
  images_data <> [] ->
  (Z.of_nat (List.length images_data) <= max_images)%Z ->
  match validate_batch_request images_data max_images with
  | None =>
      Forall (fun image_data =>
                validate_image_file image_data MAX_FILE_SIZE = None)
             images_data
  | Some message =>
      exists (k : nat) (image_data : list byte) (error : string),
        images_data !! k = Some image_data
        /\ validate_image_file image_data MAX_FILE_SIZE = Some error
        /\ message
           = String.append "Image "
               (String.append (pretty (Z.of_nat k + 1)%Z)
                  (String.append ": " error))
        /\ Forall (fun earlier =>
                     validate_image_file earlier MAX_FILE_SIZE = None)
                  (firstn k images_data)
  end.
Proof.
  intros Hne Hlen. unfold validate_batch_request.
  destruct images_data as [|image_data rest] eqn:E; [done|].
  rewrite <- E in *.
  destruct (Z.ltb_spec max_images (Z.of_nat (List.length images_data)));
    [lia|].
  apply (images_loop_first 0).
Qed.

(** X21. A string the scanner's [_validate_result] accepts, under any
    provider hint, is accepted by [validate_barcode_data] as well. *)
Theorem validated_result_is_valid_barcode_data
    (data : string) (provider_hint : option string) :
  _validate_result data provider_hint = true ->
  validate_barcode_data data = None.
Proof.
  intros H.
  destruct (ValidatedFacts.validated_string_shape_aux data provider_hint H)
    as [[Hlo Hhi] _].
  revert H. unfold _validate_result, validate_barcode_data.
  destruct (PyStr.truthy data); [|done]. cbn [negb orb].
  destruct (Nat.ltb_spec (PyStr.len data) 3); [done|].
  destruct (PyStr.isprintable data); [|done]. cbn [negb].
  by destruct (Nat.ltb_spec 100 (PyStr.len data)); [lia|].
Qed.

End ValidationFacts.

(** ** handlers/scan.py: what the single-image handler answers *)

Module HandlerFacts.
Import Scanner ProviderParser Validation Handler.

Lemma returned_error_truthy (error : option string) (message : string) :
  returned_error error = Some message -> PyStr.truthy message = true.
Proof.
  destruct error as [m|]; [|done]. cbn.
  destruct (PyStr.truthy m) eqn:E; [|done]. by intros [= <-].
Qed.

Lemma hint_error_truthy (validate : string -> option string)
                        (hint : option string) (message : string) :
  hint_error validate hint = Some message -> PyStr.truthy message = true.
Proof.
  destruct hint as [h|]; [|done]. cbn. destruct (PyStr.truthy h); [|done].
  apply returned_error_truthy.
Qed.

Lemma params_error_truthy (params : gmap string string) :
  returned_error (validate_scan_params params) = validate_scan_params params.
Proof.
  unfold validate_scan_params.
  destruct (hint_error validate_provider (params !! "provider_hint"))
    as [m|] eqn:E1.
  { cbn. by rewrite (hint_error_truthy _ _ _ E1). }
  destruct (hint_error validate_format (params !! "format_hint"))
    as [m|] eqn:E2.
  { cbn. by rewrite (hint_error_truthy _ _ _ E2). }
  by destruct (negb _).
Qed.

Section Facts.
Context {pil ndarray : Type}.
Context (json_dumps : Body -> string).
Context (b64decode : string -> result (list byte)).
Context (lower : string -> string).
Context (extract_multipart_data :
           Payload -> string
           -> result (option (list byte) * gmap string string)).
Context (lib : ImageProcessor.ImageLib pil ndarray).
Context (PYZBAR_AVAILABLE ZXING_AVAILABLE : bool).
Context (pyzbar_decode : ndarray -> result (list (list byte))).
Context (decode_utf8 : list byte -> option string).
Context (time_time : nat -> float) (processing_time : Z).

Let respond : list byte -> gmap string string -> result Response :=
  scan_and_respond json_dumps lower lib PYZBAR_AVAILABLE ZXING_AVAILABLE
                   pyzbar_decode decode_utf8 time_time processing_time.

Let handler : Event -> Response :=
  lambda_handler json_dumps b64decode lower extract_multipart_data lib
                 PYZBAR_AVAILABLE ZXING_AVAILABLE pyzbar_decode decode_utf8
                 time_time processing_time.

Let no_barcode : Response :=
  create_error_response json_dumps 404 "No barcode detected" None None true.

(** The list [results] of the handler. *)
Let results_of (variants : list (Variant ndarray))
               (params : gmap string string) : list Candidate :=
  scan_multiple_variants time_time
    (Pyzbar.stock_scanner PYZBAR_AVAILABLE pyzbar_decode decode_utf8
                          ZXING_AVAILABLE)
    variants (params !! "provider_hint") (params !! "format_hint")
    (String.eqb (lower (default "true" (params !! "enable_ml"))) "true").

(** The dictionary of a successful answer. *)
Let data_of (variants : list (Variant ndarray))
            (params : gmap string string) (best_result : Candidate)
  : ResponseData :=
  {| success := true;
     barcode_data := data best_result;
     detected_format := format best_result;
     best_confidence := confidence best_result;
     provider := detect_provider (data best_result);
     parsed_data :=
       parse (data best_result) (detect_provider (data best_result));
     candidates := firstn 5 (results_of variants params);
     processing_info :=
       {| total_time_ms := processing_time;
          preprocessing_variants := map variant_name variants;
          engines_tried :=
            list_to_set (map engine (results_of variants params));
          ml_prediction_used :=
            (1 <? List.length (results_of variants params))%nat
            && String.eqb (lower (default "true" (params !! "enable_ml")))
                          "true" |} |}.

Lemma respond_eq (image_data : list byte) (params : gmap string string) :
  exists variants,
    ImageProcessor.create_variants lib image_data = Ok variants
    /\ respond image_data params
       = match results_of variants params with
         | [] => Ok no_barcode
         | best_result :: _ =>
             Ok (create_response json_dumps 200
                   (DataDict (data_of variants params best_result)) true)
         end.
Proof.
  destruct (VariantsFacts.create_variants_total lib image_data)
    as [[variants Hv] _].
  exists variants. split; [done|].
  unfold respond, scan_and_respond. rewrite Hv.
  fold (results_of variants params).
  unfold data_of. by destruct (results_of variants params).
Qed.

Lemma handle_accepted (event : Event) (image_data : list byte)
                      (params : gmap string string) :
  accepted b64decode extract_multipart_data event image_data params ->
  handler event
  = match respond image_data params with
    | Ok response => response
    | Raise e =>
        create_error_response
          json_dumps 500 (String.append "Internal server error: " e)
          None None true
    end.
Proof.
  intros (Hm & Hct & (body & Hb & Hex) & Hvi & Hvp).
  unfold handler, lambda_handler, handle.
  rewrite bool_decide_false by done. rewrite Hb, Hct. cbn [negb].
  rewrite Hex. destruct image_data as [|b image_data]; [done|].
  by rewrite Hvi, Hvp.
Qed.

(** The ways through the [try] block. *)
Lemma handle_cases (event : Event) :
  (httpMethod event = Some "OPTIONS"
   /\ handler event = create_response json_dumps 200 EmptyDict true)
  \/ (exists message,
        handler event
        = create_error_response json_dumps 400 message None None true)
  \/ (exists e,
        handler event
        = create_error_response
            json_dumps 500 (String.append "Internal server error: " e)
            None None true
        /\ (request_body b64decode event = Raise e
            \/ exists body,
                 request_body b64decode event = Ok body
                 /\ extract_multipart_data
                      body
                      (default "" (event_headers event !! "content-type"))
                    = Raise e))
  \/ (exists image_data params,
        accepted b64decode extract_multipart_data event image_data params).
Proof.
  unfold handler, lambda_handler, handle, accepted.
  destruct (decide (httpMethod event = Some "OPTIONS")) as [Hm|Hm].
  { left. by rewrite bool_decide_true. }
  rewrite bool_decide_false by done. right.
  unfold request_body.
  destruct (isBase64Encoded event) eqn:H64.
  - destruct (b64decode (event_body event)) as [b|e] eqn:Hb.
    + set (ct := default "" (event_headers event !! "content-type")).
      destruct (contains ct "multipart/form-data") eqn:Hct; cbn [negb];
        [|left; by eexists].
      destruct (extract_multipart_data (Bytes b) ct)
        as [[[[|x image_data]|] params]|e] eqn:Hex;
        [left; by eexists| |left; by eexists|].
      * rewrite ValidationFacts.image_error_truthy, params_error_truthy.
        destruct (validate_image_file (x :: image_data) MAX_FILE_SIZE)
          as [m|] eqn:Hvi; [left; by eexists|].
        destruct (validate_scan_params params) as [m|] eqn:Hvp;
          [left; by eexists|].
        right; right. exists (x :: image_data), params.
        split; [done|]. split; [done|]. split; [|done].
        by exists (Bytes b).
      * right; left. exists e. split; [done|]. right. by exists (Bytes b).
    + right; left. exists e. split; [done|]. by left.
  - set (ct := default "" (event_headers event !! "content-type")).
    destruct (contains ct "multipart/form-data") eqn:Hct; cbn [negb];
      [|left; by eexists].
    destruct (extract_multipart_data (Text (event_body event)) ct)
      as [[[[|x image_data]|] params]|e] eqn:Hex;
      [left; by eexists| |left; by eexists|].
    + rewrite ValidationFacts.image_error_truthy, params_error_truthy.
      destruct (validate_image_file (x :: image_data) MAX_FILE_SIZE)
        as [m|] eqn:Hvi; [left; by eexists|].
      destruct (validate_scan_params params) as [m|] eqn:Hvp;
        [left; by eexists|].
      right; right. exists (x :: image_data), params.
      split; [done|]. split; [done|]. split; [|done].
      by exists (Text (event_body event)).
    + right; left. exists e. split; [done|]. right.
      by exists (Text (event_body event)).
Qed.


Lemma results_from_pyzbar (variants : list (Variant ndarray))
                          (params : gmap string string) (c : Candidate) :
  c ∈ results_of variants params ->
  PYZBAR_AVAILABLE = true
  /\ engine c = "pyzbar"
  /\ _validate_result (data c) (params !! "provider_hint") = true.
Proof.
  intros Hc.
  destruct (StockFacts.stock_candidate _ _ _ _ _ _ _ _ _ _ Hc)
    as (Hp & He & _).
  split; [done|]. split; [done|].
  apply (Returned.returned_from_generated time_time) in Hc
    as (_ & _ & _ & _ & _ & _ & _ & _ & _ & _ & _ & Hval & _).
  done.
Qed.

Lemma engines_tried_pyzbar (variants : list (Variant ndarray))
                           (params : gmap string string) :
  results_of variants params <> [] ->
  (list_to_set (map engine (results_of variants params)) : gset string)
  = {["pyzbar"]}.
Proof.
  intros Hne. apply set_eq. intros x.
  rewrite elem_of_list_to_set, elem_of_singleton, list_elem_of_In, in_map_iff.
  split.
  - intros (c & <- & Hc%list_elem_of_In).
    by destruct (results_from_pyzbar _ _ _ Hc) as (_ & ? & _).
  - intros ->. destruct (results_of variants params) as [|c rest] eqn:E;
      [done|].
    exists c. split; [|by left].
    assert (c ∈ results_of variants params) as Hc by (rewrite E; by left).
    by destruct (results_from_pyzbar _ _ _ Hc) as (_ & ? & _).
Qed.

(** What the dictionary of a successful answer holds. *)
Lemma data_of_best (variants : list (Variant ndarray))
                   (params : gmap string string)
                   (best_result : Candidate) (rest : list Candidate) :
  results_of variants params = best_result :: rest ->
  let d := data_of variants params best_result in
  _validate_result (barcode_data d) (params !! "provider_hint") = true
  /\ provider d = detect_provider (barcode_data d)
  /\ parsed_data d = parse (barcode_data d) (provider d)
  /\ (forall hint, params !! "provider_hint" = Some hint ->
                   PyStr.truthy hint = true -> provider d = Some hint)
  /\ (exists others, candidates d
                     = mkCandidate (barcode_data d) (detected_format d)
                         "pyzbar" (variant best_result) (best_confidence d)
                         (timestamp best_result)
                       :: others
                     /\ (List.length others <= 4)%nat
                     /\ forall c, c ∈ others ->
                          PrimFloat.leb (confidence c) (best_confidence d)
                          = true)
  /\ engines_tried (processing_info d) = {["pyzbar"]}.
Proof.
  intros E d.
  assert (best_result ∈ results_of variants params) as Hb
    by (rewrite E; by left).
  destruct (results_from_pyzbar _ _ _ Hb) as (_ & He & Hval).
  split; [done|]. split; [done|]. split; [done|].
  split.
  { intros hint Hh Ht. cbn [d data_of provider]. rewrite Hh in Hval.
    by apply ReturnedShape.validated_under_hint_detected. }
  split.
  - exists (firstn 4 rest). cbn [d data_of candidates barcode_data
                                  detected_format best_confidence].
    rewrite E. cbn [firstn]. split.
    { f_equal. destruct best_result. cbn in He |- *. by rewrite He. }
    split; [rewrite length_firstn; lia|].
    intros c Hc.
    pose proof (Returned.best_of_returned time_time
                  (Pyzbar.stock_scanner PYZBAR_AVAILABLE pyzbar_decode
                     decode_utf8 ZXING_AVAILABLE)
                  variants (params !! "provider_hint")
                  (params !! "format_hint")
                  (String.eqb
                     (lower (default "true" (params !! "enable_ml")))
                     "true")) as Hbest.
    fold (results_of variants params) in Hbest. rewrite E in Hbest.
    cbn [select_best_result] in Hbest. destruct Hbest as [_ Hmax].
    apply Hmax. right.
    apply elem_of_take in Hc as (i & Hi & _).
    by apply list_elem_of_lookup_2 in Hi.
  - cbn [d data_of processing_info engines_tried].
    apply engines_tried_pyzbar. by rewrite E.
Qed.

(** X23. An answer 200 to a request other than a preflight means that the
    parts were extracted, that the image and the parameters passed
    validation, and that the body is the dictionary of the best candidate:
    its [barcode_data] passed the scanner's validation under the provider
    hint, [provider] and [parsed_data] are what [detect_provider] and
    [parse] make of it, [provider] is the hint when one is given, the
    candidate itself heads [candidates], which holds at most five, none
    with a higher confidence, and the only engine tried is pyzbar. *)
Theorem lambda_handler_success (event : Event) :
  httpMethod event <> Some "OPTIONS" ->
  statusCode
    (lambda_handler json_dumps b64decode lower extract_multipart_data lib
       PYZBAR_AVAILABLE ZXING_AVAILABLE pyzbar_decode decode_utf8
       time_time processing_time event) = 200%Z ->
  exists image_data params d,
    accepted b64decode extract_multipart_data event image_data params
    /\ body
         (lambda_handler json_dumps b64decode lower extract_multipart_data lib
            PYZBAR_AVAILABLE ZXING_AVAILABLE pyzbar_decode decode_utf8
            time_time processing_time event)
       = json_dumps (DataDict d)
    /\ success d = true
    /\ _validate_result (barcode_data d) (params !! "provider_hint") = true
    /\ provider d = detect_provider (barcode_data d)
    /\ parsed_data d = parse (barcode_data d) (provider d)
    /\ (forall hint, params !! "provider_hint" = Some hint ->
                     PyStr.truthy hint = true -> provider d = Some hint)
    /\ (exists variant timestamp others,
          candidates d
          = mkCandidate (barcode_data d) (detected_format d) "pyzbar"
                        variant (best_confidence d) timestamp
            :: others
          /\ (List.length others <= 4)%nat
          /\ forall c, c ∈ others ->
               PrimFloat.leb (confidence c) (best_confidence d) = true)
    /\ engines_tried (processing_info d) = {["pyzbar"]}.
Proof.
  fold handler. intros Hm Hs.
  destruct (handle_cases event)
    as [[? _]|[[m E]|[(e & E & _)|(image_data & params & Hacc)]]];
    [done|by rewrite E in Hs|by rewrite E in Hs|].
  exists image_data, params.
  rewrite (handle_accepted _ _ _ Hacc) in Hs |- *.
  destruct (respond_eq image_data params) as (variants & _ & Hr).
  rewrite Hr in Hs |- *.
  destruct (results_of variants params) as [|best_result rest] eqn:E;
    [done|].
  exists (data_of variants params best_result).
  split; [done|]. split; [done|]. split; [done|].
  destruct (data_of_best variants params best_result rest E)
    as (H1 & H2 & H3 & H4 & (others & H5) & H6).
  split; [done|]. split; [done|]. split; [done|]. split; [done|].
  split; [|done]. by exists (variant best_result), (timestamp best_result),
                            others.
Qed.

Lemma results_of_nil (params : gmap string string) :
  results_of [] params = [].
Proof.
  unfold results_of, scan_multiple_variants. cbn.
  by destruct (String.eqb _ _).
Qed.

(** X24. For a request whose image and parameters pass validation, the
    answer is 404 [No barcode detected] when the image cannot be opened,
    resized or converted (no variant is made, and no error is reported for
    the image itself), and also when pyzbar is not installed. *)
Theorem lambda_handler_no_barcode (event : Event) (image_data : list byte)
                                  (params : gmap string string) :
  accepted b64decode extract_multipart_data event image_data params ->
  (exists e, Transforms.base lib image_data = Raise e)
  \/ PYZBAR_AVAILABLE = false ->
  lambda_handler json_dumps b64decode lower extract_multipart_data lib
    PYZBAR_AVAILABLE ZXING_AVAILABLE pyzbar_decode decode_utf8
    time_time processing_time event
  = create_error_response json_dumps 404 "No barcode detected" None None
                          true.
Proof.
  intros Hacc H. fold handler. rewrite (handle_accepted _ _ _ Hacc).
  destruct (respond_eq image_data params) as (variants & Hv & ->).
  destruct H as [He|Hp].
  - apply (VariantsFacts.create_variants_total lib image_data) in He.
    rewrite He in Hv. injection Hv as <-. by rewrite results_of_nil.
  - destruct (results_of variants params) as [|c rest] eqn:E; [done|].
    assert (c ∈ results_of variants params) as Hc by (rewrite E; by left).
    destruct (results_from_pyzbar _ _ _ Hc) as (Hp' & _).
    rewrite Hp in Hp'. discriminate Hp'.
Qed.

End Facts.

End HandlerFacts.

(** ** The further properties on the samples *)

Module AtRequests.
Import Scanner ImageProcessor Transforms Samples Requests ProviderParser.

Lemma returned_candidates_generated_witness :
  Provenance.generated sample_self sample_variants None None
    (sample_candidate "HELLO-1" "opencv" (0.5 + 0.1 + 0.2)).
Proof.
  apply (Returned.returned_candidates_generated
           sample_clock sample_self sample_variants None None true).
  apply list_elem_of_In. vm_compute. right. right. left. reflexivity.
Defined.

Lemma validated_string_shape_witness :
  (6 <= PyStr.len "EP1234567890" <= 25)%nat
  /\ forallb Rigid.barcode_char (PyStr.chars "EP1234567890") = true.
Proof.
  apply (ValidatedFacts.validated_string_shape "EP1234567890" None).
  vm_compute. reflexivity.
Defined.

Lemma returned_under_hint_detected_witness :
  detect_provider "EP1234567890" = Some "eplus".
Proof.
  apply (ReturnedShape.returned_under_hint_detected
           sample_clock sample_self sample_variants None true "eplus"
           (sample_candidate "EP1234567890" "pyzbar" 1.0)).
  - reflexivity.
  - apply list_elem_of_In. vm_compute. left. reflexivity.
Defined.

Lemma returned_formats_witness :
  format (sample_candidate "HELLO-1" "opencv" (0.5 + 0.1 + 0.2)) = "CODE39".
Proof.
  apply (ReturnedShape.returned_formats
           sample_clock sample_self sample_variants None true None
           (sample_candidate "HELLO-1" "opencv" (0.5 + 0.1 + 0.2))).
  apply list_elem_of_In. vm_compute. right. right. left. reflexivity.
Defined.

Lemma parse_prefix_and_number_rebuild_data_witness :
  exists prefix ticket_number : string,
    parse "6412345678901" None !! "prefix" = Some (VStr prefix)
    /\ parse "6412345678901" None !! "ticket_number"
       = Some (VStr ticket_number)
    /\ String.append prefix ticket_number = "6412345678901".
Proof.
  apply (ParseFacts.parse_prefix_and_number_rebuild_data
           "6412345678901" "ticket_pia").
  - vm_compute. reflexivity.
  - discriminate.
Defined.

Lemma parse_raw_data_and_provider_witness :
  parse "EP1234567890" None !! "raw_data" = Some (VStr "EP1234567890")
  /\ parse "EP1234567890" None !! "provider"
     = Some (VStr (ProviderLookup.reported "EP1234567890" None)).
Proof.
  apply (RegistryFacts.parse_raw_data_and_provider "EP1234567890" None).
  reflexivity.
Defined.

Lemma create_variants_on_valid_base_witness :
  exists (v : Variant unit) (variants : list (Variant unit)),
    create_variants edge_failing_lib sample_bytes = Ok (v :: variants)
    /\ variant_name v = "standard"
    /\ (List.length (v :: variants) <= 7)%nat
    /\ Forall (fun w =>
                 In (variant_name w)
                    ["standard"; "high_contrast"; "edge_enhanced";
                     "noise_reduced"; "blur_reduced"; "grayscale"; "binary"])
              (v :: variants).
Proof.
  apply (VariantsFacts.create_variants_on_valid_base
           edge_failing_lib sample_bytes tt tt).
  reflexivity.
Defined.

Lemma create_variants_all_seven_witness :
  exists variants,
    create_variants (sample_lib true true) sample_bytes = Ok variants
    /\ map variant_name variants
       = ["standard"; "high_contrast"; "edge_enhanced"; "noise_reduced";
          "blur_reduced"; "grayscale"; "binary"].
Proof.
  apply (VariantsFacts.create_variants_all_seven
           (sample_lib true true) sample_bytes tt tt).
  - reflexivity.
  - repeat constructor; by exists tt.
Defined.

Lemma stock_scanner_candidates_witness :
  engine (sample_candidate "EP1234567890" "pyzbar" 1.0) = "pyzbar".
Proof.
  refine (proj1 (StockFacts.stock_scanner_candidates
                   true sample_pyzbar_decode sample_decode_utf8 sample_clock
                   true sample_variants None None true
                   (sample_candidate "EP1234567890" "pyzbar" 1.0) _)).
  apply list_elem_of_In. vm_compute. left. reflexivity.
Defined.

Lemma stock_scanner_needs_pyzbar_witness :
  scan_multiple_variants sample_clock
    (Pyzbar.stock_scanner false sample_pyzbar_decode sample_decode_utf8 true)
    sample_variants None None true = [].
Proof.
  apply (StockFacts.stock_scanner_needs_pyzbar
           false sample_pyzbar_decode sample_decode_utf8 sample_clock
           true sample_variants None None true).
  left. reflexivity.
Defined.

Lemma seven_ticket_groups_witness :
  exists t s c : string,
    PyStr.split "１２３４５６ １２３４５６７８ １２３" = [t; s; c]
    /\ (PyStr.len t = 6 \/ PyStr.len t = 8)%nat
    /\ PyStr.len s = 8%nat /\ PyStr.len c = 3%nat
    /\ forallb PyStr.chr_isdecimal (PyStr.chars t) = true
    /\ forallb PyStr.chr_isdecimal (PyStr.chars s) = true
    /\ forallb PyStr.chr_isdecimal (PyStr.chars c) = true
    /\ Groups.seven_fields t s c
         (parse "１２３４５６ １２３４５６７８ １２３" None).
Proof.
  apply (SevenFacts.seven_ticket_groups
           "１２３４５６ １２３４５６７８ １２３").
  vm_compute. reflexivity.
Defined.

Lemma validate_batch_request_first_failure_witness :
  match Validation.validate_batch_request [sample_png; sample_bytes] 10 with
  | None =>
      Forall (fun image_data =>
                Validation.validate_image_file
                  image_data Validation.MAX_FILE_SIZE = None)
             [sample_png; sample_bytes]
  | Some message =>
      exists (k : nat) (image_data : list byte) (error : string),
        [sample_png; sample_bytes] !! k = Some image_data
        /\ Validation.validate_image_file
             image_data Validation.MAX_FILE_SIZE = Some error
        /\ message
           = String.append "Image "
               (String.append (pretty (Z.of_nat k + 1)%Z)
                  (String.append ": " error))
        /\ Forall (fun earlier =>
                     Validation.validate_image_file
                       earlier Validation.MAX_FILE_SIZE = None)
                  (firstn k [sample_png; sample_bytes])
  end.
Proof.
  apply (ValidationFacts.validate_batch_request_first_failure
           [sample_png; sample_bytes] 10).
  - discriminate.
  - cbn. lia.
Defined.

Lemma validated_result_is_valid_barcode_data_witness :
  Validation.validate_barcode_data "EP1234567890" = None.
Proof.
  apply (ValidationFacts.validated_result_is_valid_barcode_data
           "EP1234567890" None).
  vm_compute. reflexivity.
Defined.

Lemma sample_event_accepted :
  Handler.accepted sample_b64decode sample_extract sample_event
                   sample_png sample_params.
Proof.
  split; [discriminate|]. split; [vm_compute; reflexivity|].
  split; [exists (Handler.Text ""); split; reflexivity|].
  split; vm_compute; reflexivity.
Qed.

Lemma lambda_handler_success_witness :
  exists d,
    Handler.body (sample_handler true sample_event)
    = sample_json_dumps (Handler.DataDict d)
    /\ Handler.provider d = detect_provider (Handler.barcode_data d).
Proof.
  destruct (HandlerFacts.lambda_handler_success
              sample_json_dumps sample_b64decode sample_lower sample_extract
              (sample_lib true true) true true
              sample_pyzbar_decode sample_decode_utf8 sample_clock 12
              sample_event)
    as (image_data & params & d & _ & Hbody & _ & _ & Hprovider & _).
  - discriminate.
  - vm_compute. reflexivity.
  - exists d. split; [exact Hbody|exact Hprovider].
Defined.

Lemma lambda_handler_no_barcode_witness :
  sample_handler false sample_event
  = Handler.create_error_response sample_json_dumps 404
      "No barcode detected" None None true.
Proof.
  apply (HandlerFacts.lambda_handler_no_barcode
           sample_json_dumps sample_b64decode sample_lower sample_extract
           (sample_lib false true) true true
           sample_pyzbar_decode sample_decode_utf8 sample_clock 12
           sample_event sample_png sample_params).
  - apply sample_event_accepted.
  - left. exists "UnidentifiedImageError". reflexivity.
Defined.

End AtRequests.
